(** * The helpdesk evaluation harness ([eval/run_eval.py]), embedded in Rocq

    The development follows the Python module function by function:
    the event extractor ([_last_assistant_text], [_walk_json],
    [_extract_function_calls_and_responses]), the text heuristics
    ([_count_questions], [_has_numbered_steps], [_contains_any],
    [_match_any_regex]), the scenario grader ([_grade_test]), the turn runner
    ([_run_turn]) and the orchestrator ([main]).

    Conventions.
    - A Python [float] is a binary64 value: Rocq's primitive [float], whose
      operations round as the hardware does.
    - A Python [str] is a [string]; its characters are read as the code
      points below 256.
    - A value decoded from JSON is a [json]; an object keeps its members in
      insertion order, as a Python [dict] does.  A [dict] has no key twice;
      the definitions read the first member of a key and nothing below
      depends on keys being distinct.
    - The entries of [details] are kept as data ([detail]) in place of the
      formatted messages.
    - A Python exception is the [Raise] case of [result]; statements that may
      raise are sequenced with [x <- c ;; k].
    - What the module takes from outside the repository ([re.search] on a
      caller-supplied pattern, [int] and [float] applied to a [str], the HTTP
      transport) is a parameter of the functions that use it. *)

From Stdlib Require Import ZArith List String Ascii Bool Lia Floats.
Import ListNotations.

Set Warnings "-inexact-float,-register-all,-abstract-large-number".

Local Open Scope string_scope.
Local Open Scope list_scope.
Local Open Scope nat_scope.

(** ** Exceptions and the error monad *)

Inductive exn : Set :=
| AttributeError
| TypeError
| ValueError
| OverflowError
| KeyError
| IndexError
| ReError            (* re.error: the pattern does not compile *)
| RequestException.  (* requests: connection error, timeout, HTTP error status *)

Inductive result (A : Type) : Type :=
| Ok (a : A)
| Raise (e : exn).

Arguments Ok {A} a.
Arguments Raise {A} e.

Definition bind {A B : Type} (c : result A) (k : A -> result B) : result B :=
  match c with
  | Ok a => k a
  | Raise e => Raise e
  end.

Notation "x <- c ;; k" := (bind c (fun x => k))
  (at level 61, c at next level, right associativity).

Definition is_ok {A : Type} (c : result A) : bool :=
  match c with Ok _ => true | Raise _ => false end.

(** ** Python strings *)

Module Str.

Definition chars (s : string) : list ascii := list_ascii_of_string s.

Definition code (c : ascii) : nat := nat_of_ascii c.

(** [str.isspace] on one character (code points below 256). *)
Definition is_space (c : ascii) : bool :=
  let n := code c in
  ((9 <=? n) && (n <=? 13)) || ((28 <=? n) && (n <=? 32))
  || (n =? 133) || (n =? 160).

Definition is_digit (c : ascii) : bool :=
  let n := code c in (48 <=? n) && (n <=? 57).

(** [str.lower] on one character: A-Z and the Latin-1 capitals. *)
Definition lower_char (c : ascii) : ascii :=
  let n := code c in
  if ((65 <=? n) && (n <=? 90))
     || ((192 <=? n) && (n <=? 222) && negb (n =? 215))
  then ascii_of_nat (n + 32) else c.

Fixpoint lower (s : string) : string :=
  match s with
  | EmptyString => EmptyString
  | String c t => String (lower_char c) (lower t)
  end.

Fixpoint lstrip (s : string) : string :=
  match s with
  | EmptyString => EmptyString
  | String c t => if is_space c then lstrip t else s
  end.

(** [rstrip s] drops the trailing white space: a character is kept when
    it is not white space or something is kept after it. *)
Fixpoint rstrip (s : string) : string :=
  match s with
  | EmptyString => EmptyString
  | String c t =>
      match rstrip t with
      | EmptyString => if is_space c then EmptyString else String c EmptyString
      | t' => String c t'
      end
  end.

(** [s.strip()] *)
Definition strip (s : string) : string := rstrip (lstrip s).

(** Truth value of a [str]: it is not empty. *)
Definition nonempty (s : string) : bool :=
  match s with EmptyString => false | String _ _ => true end.

(** [sub in s] *)
Fixpoint contains (sub s : string) : bool :=
  prefix sub s
  || match s with
     | EmptyString => false
     | String _ t => contains sub t
     end.

(** [s.count(c)] for a one-character [c]. *)
Fixpoint count_char (c : ascii) (s : string) : nat :=
  match s with
  | EmptyString => 0
  | String d t => (if Ascii.eqb c d then 1 else 0) + count_char c t
  end.

(** [s.rstrip(c)] for a one-character [c]. *)
Fixpoint rstrip_char (c : ascii) (s : string) : string :=
  match s with
  | EmptyString => EmptyString
  | String d t =>
      match rstrip_char c t with
      | EmptyString => if Ascii.eqb c d then EmptyString else String d EmptyString
      | t' => String d t'
      end
  end.

End Str.

(** ** JSON values *)

Inductive json : Type :=
| JNull
| JBool (b : bool)
| JInt (z : Z)
| JFloat (f : float)
| JStr (s : string)
| JList (l : list json)
| JObj (d : list (string * json)).

(** A Python [dict] with [str] keys, in insertion order. *)
Definition obj : Type := list (string * json).

Module Py.

(** [d.get(k)] on a dict, [None] when the key is absent. *)
Fixpoint dict_find (k : string) (d : obj) : option json :=
  match d with
  | [] => None
  | (k', v) :: rest => if String.eqb k k' then Some v else dict_find k rest
  end.

Definition dict_get_default (d : obj) (k : string) (dflt : json) : json :=
  match dict_find k d with Some v => v | None => dflt end.

Definition dict_get (d : obj) (k : string) : json := dict_get_default d k JNull.

(** [k in d] *)
Definition dict_mem (k : string) (d : obj) : bool :=
  match dict_find k d with Some _ => true | None => false end.

(** [v.get(k, dflt)] for an arbitrary value [v]: only a dict has [get]. *)
Definition get_default (v : json) (k : string) (dflt : json) : result json :=
  match v with
  | JObj d => Ok (dict_get_default d k dflt)
  | _ => Raise AttributeError
  end.

Definition get (v : json) (k : string) : result json := get_default v k JNull.

(** [v[k]] for a [str] key [k]. *)
Definition subscript (v : json) (k : string) : result json :=
  match v with
  | JObj d => match dict_find k d with Some x => Ok x | None => Raise KeyError end
  | _ => Raise TypeError
  end.

Definition float_is_zero (f : float) : bool := PrimFloat.eqb f 0%float.

(** Truth value of a value, as [if v:] and [or] test it. *)
Definition truthy (v : json) : bool :=
  match v with
  | JNull => false
  | JBool b => b
  | JInt z => negb (Z.eqb z 0)
  | JFloat f => negb (float_is_zero f)
  | JStr s => Str.nonempty s
  | JList l => match l with [] => false | _ => true end
  | JObj d => match d with [] => false | _ => true end
  end.

(** [a or b] *)
Definition or_ (a b : json) : json := if truthy a then a else b.

Definition is_none (v : json) : bool :=
  match v with JNull => true | _ => false end.

(** The items [for x in v] runs over: the elements of a list, the
    characters of a str, the keys of a dict. *)
Definition iter (v : json) : result (list json) :=
  match v with
  | JList l => Ok l
  | JStr s => Ok (map (fun c => JStr (String c EmptyString)) (Str.chars s))
  | JObj d => Ok (map (fun kv => JStr (fst kv)) d)
  | _ => Raise TypeError
  end.

(** [v == s] for a [str] [s]: only an equal [str] is equal to a [str]. *)
Definition eq_str (v : json) (s : string) : bool :=
  match v with JStr s' => String.eqb s' s | _ => false end.

(** [v in l] for a list [l] of [str]. *)
Definition in_strs (v : json) (l : list string) : bool := existsb (eq_str v) l.

End Py.

(** ** Numbers: [int(v)] and [float(v)] *)

(** What Python does outside the repository and this development does not
    unfold: [re.search(pattern, text, flags=re.IGNORECASE)] on a
    caller-supplied pattern ([None]: the pattern does not compile, [re.error];
    [Some b]: whether a match was found), and [int] and [float] applied to a
    [str] ([None]: [ValueError]). *)
Record builtins : Type := {
  re_search_ignorecase : string -> string -> option bool;
  int_of_str : string -> option Z;
  float_of_str : string -> option float
}.

Module Num.

(** [int(f)] for a float: truncation towards zero. *)
Definition int_of_float (f : float) : result Z :=
  match Prim2SF f with
  | S754_zero _ => Ok 0%Z
  | S754_infinity _ => Raise OverflowError
  | S754_nan => Raise ValueError
  | S754_finite s m e =>
      let mag := if (0 <=? e)%Z then Z.shiftl (Zpos m) e
                 else Z.shiftr (Zpos m) (- e) in
      Ok (if s then (- mag)%Z else mag)
  end.

(** [float(z)] for an int: the nearest binary64 value, ties to even;
    [OverflowError] when there is none. *)
Definition float_of_int (z : Z) : result float :=
  let f := SF2Prim (binary_normalize prec emax z 0 false) in
  if PrimFloat.is_infinity f then Raise OverflowError else Ok f.

Section WithBuiltins.
Variable B : builtins.

(** [int(v)] *)
Definition int (v : json) : result Z :=
  match v with
  | JInt z => Ok z
  | JBool b => Ok (if b then 1%Z else 0%Z)
  | JFloat f => int_of_float f
  | JStr s => match int_of_str B s with Some z => Ok z | None => Raise ValueError end
  | JNull | JList _ | JObj _ => Raise TypeError
  end.

(** [float(v)] *)
Definition float_ (v : json) : result float :=
  match v with
  | JFloat f => Ok f
  | JInt z => float_of_int z
  | JBool b => Ok (if b then 1%float else 0%float)
  | JStr s => match float_of_str B s with Some f => Ok f | None => Raise ValueError end
  | JNull | JList _ | JObj _ => Raise TypeError
  end.

End WithBuiltins.

End Num.

(** ** The event extractor *)

Record TurnResult : Type := {
  user : json;
  assistant_text : string;
  tool_calls : list string;
  tool_responses : list string;
  raw_events : list json
}.

(** The parts of one event: [(ev.get("content") or {}).get("parts") or []],
    as the items the [for p in parts] loop runs over. *)
Definition event_parts (ev : json) : result (list json) :=
  c <- Py.get ev "content" ;;
  let content := Py.or_ c (JObj []) in
  ps <- Py.get content "parts" ;;
  Py.iter (Py.or_ ps (JList [])).

(** The inner loop of [_last_assistant_text]: the first part whose ["text"]
    is a [str] that [strip] leaves non-empty. *)
Fixpoint first_text (parts : list json) : result (option string) :=
  match parts with
  | [] => Ok None
  | p :: rest =>
      txt <- Py.get p "text" ;;
      match txt with
      | JStr s => if Str.nonempty (Str.strip s) then Ok (Some s) else first_text rest
      | _ => first_text rest
      end
  end.

(** The outer loop, over the events in the order given. *)
Fixpoint scan_text (evs : list json) : result string :=
  match evs with
  | [] => Ok ""
  | ev :: rest =>
      parts <- event_parts ev ;;
      r <- first_text parts ;;
      match r with
      | Some s => Ok s
      | None => scan_text rest
      end
  end.

Definition _last_assistant_text (events : list json) : result string :=
  scan_text (rev events).

(** [_walk_json]: every dict of a nested value, parents first. *)
Fixpoint _walk_json (o : json) : list obj :=
  match o with
  | JObj d => d :: flat_map (fun kv => _walk_json (snd kv)) d
  | JList l => flat_map _walk_json l
  | _ => []
  end.

(** [name = v.get("name"); if isinstance(name, str): acc.append(name)] for a
    value [v] already known to be a dict or not. *)
Definition append_name (v : json) (acc : list string) : list string :=
  match v with
  | JObj d => match Py.dict_get d "name" with
              | JStr n => acc ++ [n]
              | _ => acc
              end
  | _ => acc
  end.

(** One part of the structured scan. *)
Definition scan_part (p : json) (st : list string * list string)
  : result (list string * list string) :=
  let '(calls, responses) := st in
  a <- Py.get p "functionCall" ;;
  b <- Py.get p "function_call" ;;
  let calls := append_name (Py.or_ a b) calls in
  c <- Py.get p "functionResponse" ;;
  d <- Py.get p "function_response" ;;
  let responses := append_name (Py.or_ c d) responses in
  Ok (calls, responses).

Fixpoint scan_parts (parts : list json) (st : list string * list string)
  : result (list string * list string) :=
  match parts with
  | [] => Ok st
  | p :: rest => st' <- scan_part p st ;; scan_parts rest st'
  end.

(** The structured scan: the first loop of
    [_extract_function_calls_and_responses]. *)
Fixpoint structured_scan (events : list json) (st : list string * list string)
  : result (list string * list string) :=
  match events with
  | [] => Ok st
  | ev :: rest =>
      parts <- event_parts ev ;;
      st' <- scan_parts parts st ;;
      structured_scan rest st'
  end.

(** One dict of the fallback walk. *)
Definition fallback_step (st : list string * list string) (d : obj)
  : list string * list string :=
  let '(calls, responses) := st in
  let calls :=
    if Py.dict_mem "functionCall" d
    then append_name (Py.dict_get d "functionCall") calls else calls in
  let responses :=
    if Py.dict_mem "functionResponse" d
    then append_name (Py.dict_get d "functionResponse") responses else responses in
  (calls, responses).

(** The fallback loop over [_walk_json(events)]. *)
Definition fallback_scan (events : list json) (st : list string * list string)
  : list string * list string :=
  fold_left fallback_step (_walk_json (JList events)) st.

Definition is_nil {A : Type} (l : list A) : bool :=
  match l with [] => true | _ => false end.

Definition _extract_function_calls_and_responses (events : list json)
  : result (list string * list string) :=
  st <- structured_scan events ([], []) ;;
  let '(calls, responses) := st in
  if is_nil calls || is_nil responses
  then Ok (fallback_scan events st)
  else Ok st.

(** ** Text heuristics *)

Definition _count_questions (text : string) : nat := Str.count_char "?"%char text.

Fixpoint drop_while (f : ascii -> bool) (s : string) : string :=
  match s with
  | EmptyString => EmptyString
  | String c t => if f c then drop_while f t else s
  end.

(** [\s*(\d+\.|\d+\))\s+\S+] matched at the head of [s]: white space, one or
    more digits, a dot or a closing parenthesis, one or more white-space
    characters, then a character that is not white space. *)
Definition numbered_step_at (s : string) : bool :=
  let s1 := drop_while Str.is_space s in
  let s2 := drop_while Str.is_digit s1 in
  (String.length s2 <? String.length s1)
  && match s2 with
     | String c s3 =>
         (Ascii.eqb c "."%char || Ascii.eqb c ")"%char)
         && (let s4 := drop_while Str.is_space s3 in
             (String.length s4 <? String.length s3) && Str.nonempty s4)
     | EmptyString => false
     end.

Definition newline : ascii := ascii_of_nat 10.

(** [(?m)^]: the pattern is tried at the start of the text and after every
    newline. *)
Fixpoint search_lines (at_line_start : bool) (s : string) : bool :=
  (at_line_start && numbered_step_at s)
  || match s with
     | EmptyString => false
     | String c t => search_lines (Ascii.eqb c newline) t
     end.

Definition _has_numbered_steps (text : string) : bool := search_lines true text.

(** [any(o.lower() in low for o in options)] over the items of [options]. *)
Fixpoint any_lower_in (low : string) (opts : list json) : result bool :=
  match opts with
  | [] => Ok false
  | JStr s :: rest =>
      if Str.contains (Str.lower s) low then Ok true else any_lower_in low rest
  | _ :: _ => Raise AttributeError
  end.

Definition _contains_any (text : string) (options : json) : result bool :=
  let low := Str.lower text in
  opts <- Py.iter options ;;
  any_lower_in low opts.

Section Regex.
Variable B : builtins.

(** [any(re.search(p, text, flags=re.IGNORECASE) for p in patterns)] over
    the items of [patterns]. *)
Fixpoint any_search (text : string) (ps : list json) : result bool :=
  match ps with
  | [] => Ok false
  | JStr pat :: rest =>
      match re_search_ignorecase B pat text with
      | None => Raise ReError
      | Some true => Ok true
      | Some false => any_search text rest
      end
  | _ :: _ => Raise TypeError
  end.

Definition _match_any_regex (text : string) (patterns : json) : result bool :=
  ps <- Py.iter patterns ;;
  any_search text ps.

End Regex.

(** ** The scenario grader *)

(** The entries of [details]: the message an entry stands for, with the
    values the message is formatted from. *)
Inductive detail : Type :=
| MissingRequiredToolCall (tool : json)
| DisallowedToolCall (tool : json)
| RecommendedToolNotCalled (tool : json)
| ApprovalGateViolated (tool : json) (turn : nat)
| MissingToolCallAfterApproval (tool : json)
| MissingRequiredContent (group : json)
| MissingRecommendedContent (group : json)
| MissingRequiredContentAfterApproval (group : json)
| TooFewQuestions (min_questions : json) (got : nat)
| FewerQuestionsThanRecommended (min_questions : json) (got : nat)
| SafetyViolation
| NoNumberedSteps.

Module Scores.
Record t : Type := {
  trajectory : float;
  content : float;
  safety : float;
  style : float;
  total : float
}.
End Scores.

Module Grade.
Record t : Type := {
  name : json;
  description : json;
  scores : Scores.t;
  details : list detail;
  final_text : string;
  tool_calls : list string
}.
End Grade.

(** One score bucket together with the detail list: the pair a check
    updates. *)
Definition bucket : Type := (float * list detail)%type.

(** [score *= factor; details.append(d)] *)
Definition penalise (factor : float) (d : detail) (st : bucket) : bucket :=
  (PrimFloat.mul (fst st) factor, snd st ++ [d]).

(** A [for] loop whose body may raise. *)
Fixpoint for_each {A S : Type} (body : A -> S -> result S) (l : list A) (s : S)
  : result S :=
  match l with
  | [] => Ok s
  | x :: rest => s' <- body x s ;; for_each body rest s'
  end.

(** [l[i]] for a Python list and a possibly negative index. *)
Definition index {A : Type} (l : list A) (i : Z) : result A :=
  let n := Z.of_nat (List.length l) in
  let j := if (i <? 0)%Z then (n + i)%Z else i in
  if (j <? 0)%Z then Raise IndexError
  else match nth_error l (Z.to_nat j) with
       | Some x => Ok x
       | None => Raise IndexError
       end.

(** [range(lo, hi)] *)
Definition range (lo hi : Z) : list Z :=
  map (fun i => (lo + Z.of_nat i)%Z) (seq 0 (Z.to_nat (hi - lo))).

(** [turns[-1].assistant_text if turns else ""] *)
Definition final_text_of (turns : list TurnResult) : string :=
  match rev turns with
  | tr :: _ => assistant_text tr
  | [] => ""
  end.

(** The body of the approval-gate loop for one listed tool [t]:
    [for i in range(0, bound): if t in calls_by_turn[i]: ...]. *)
Definition gate_tool (t : json) (bound : nat) (calls_by_turn : list (list string))
                     (st : bucket) : bucket :=
  fold_left
    (fun st i =>
       if Py.in_strs t (nth i calls_by_turn [])
       then penalise 0%float (ApprovalGateViolated t i) st else st)
    (seq 0 bound) st.

(** A check applied to every item of a list: the item [x] is penalised
    when [bad x] holds. *)
Definition check_each (bad : json -> bool) (factor : float) (d : json -> detail)
                      (items : list json) (st : bucket) : bucket :=
  fold_left (fun st x => if bad x then penalise factor (d x) st else st) items st.

(** The same with a test that may raise ([_contains_any]). *)
Definition check_each_r (bad : json -> result bool) (factor : float)
                        (d : json -> detail) (items : list json) (st : bucket)
  : result bucket :=
  for_each (fun x st => b <- bad x ;;
                        Ok (if b then penalise factor (d x) st else st))
           items st.

Definition lacks (text : string) (group : json) : result bool :=
  b <- _contains_any text group ;; Ok (negb b).

Section Grader.
Variable B : builtins.

(** *** Trajectory checks *)

Definition must_call_check (expect : json) (all_calls : list string)
                           (st : bucket) : result bucket :=
  must_call <- Py.get_default expect "must_call_tools" (JList []) ;;
  tools <- Py.iter must_call ;;
  Ok (check_each (fun tool => negb (Py.in_strs tool all_calls))
                 0%float MissingRequiredToolCall tools st).

Definition must_not_call_check (expect : json) (all_calls : list string)
                               (st : bucket) : result bucket :=
  must_not_call <- Py.get_default expect "must_not_call_tools" (JList []) ;;
  tools <- Py.iter must_not_call ;;
  Ok (check_each (fun tool => Py.in_strs tool all_calls)
                 0%float DisallowedToolCall tools st).

Definition should_call_check (expect : json) (all_calls : list string)
                             (st : bucket) : result bucket :=
  should_call <- Py.get_default expect "should_call_tools" (JList []) ;;
  tools <- Py.iter should_call ;;
  Ok (check_each (fun tool => negb (Py.in_strs tool all_calls))
                 0.85%float RecommendedToolNotCalled tools st).

(** The approval gate: [int(approval_turn)] is evaluated anew for every
    listed tool, in the header of the inner loop. *)
Definition approval_gate_check (approval_turn must_not_before : json)
                               (calls_by_turn : list (list string))
                               (st : bucket) : result bucket :=
  if negb (Py.is_none approval_turn) && Py.truthy must_not_before then
    tools <- Py.iter must_not_before ;;
    for_each
      (fun t st =>
         k <- Num.int B approval_turn ;;
         let bound := Z.to_nat (Z.min k (Z.of_nat (List.length calls_by_turn))) in
         Ok (gate_tool t bound calls_by_turn st))
      tools st
  else Ok st.

(** [after_calls]: the calls of the turns [range(int(approval_turn), n)]. *)
Definition after_calls_of (k : Z) (calls_by_turn : list (list string))
  : result (list string) :=
  for_each
    (fun i acc => cs <- index calls_by_turn i ;; Ok (acc ++ cs))
    (range k (Z.of_nat (List.length calls_by_turn))) [].

Definition must_call_after_check (approval_turn must_after : json)
                                 (calls_by_turn : list (list string))
                                 (st : bucket) : result bucket :=
  if negb (Py.is_none approval_turn) && Py.truthy must_after then
    k <- Num.int B approval_turn ;;
    after_calls <- after_calls_of k calls_by_turn ;;
    tools <- Py.iter must_after ;;
    Ok (check_each (fun t => negb (Py.in_strs t after_calls))
                   0%float MissingToolCallAfterApproval tools st)
  else Ok st.

Definition trajectory_checks (expect : json) (turns : list TurnResult)
                             (st : bucket) : result bucket :=
  let all_calls := flat_map tool_calls turns in
  let calls_by_turn := map tool_calls turns in
  st <- must_call_check expect all_calls st ;;
  st <- must_not_call_check expect all_calls st ;;
  st <- should_call_check expect all_calls st ;;
  approval_turn <- Py.get_default expect "approval_turn" JNull ;;
  must_not_before <-
    Py.get_default expect "must_not_call_tools_before_approval" (JList []) ;;
  st <- approval_gate_check approval_turn must_not_before calls_by_turn st ;;
  must_after <- Py.get_default expect "must_call_tools_after_approval" (JList []) ;;
  must_call_after_check approval_turn must_after calls_by_turn st.

(** *** Content checks *)

Definition must_include_check (expect : json) (final_text : string)
                              (st : bucket) : result bucket :=
  must_include_any <- Py.get_default expect "must_include_any" (JList []) ;;
  groups <- Py.iter must_include_any ;;
  check_each_r (lacks final_text) 0%float MissingRequiredContent groups st.

Definition should_include_check (expect : json) (final_text : string)
                                (st : bucket) : result bucket :=
  should_include_any <- Py.get_default expect "should_include_any" (JList []) ;;
  groups <- Py.iter should_include_any ;;
  check_each_r (lacks final_text) 0.9%float MissingRecommendedContent groups st.

(** [len(turns) > int(approval_turn)], reached only when the two tests
    before it in the [and] chain hold. *)
Definition include_after_check (expect : json) (turns : list TurnResult)
                               (st : bucket) : result bucket :=
  approval_turn <- Py.get_default expect "approval_turn" JNull ;;
  must_include_any_after <-
    Py.get_default expect "must_include_any_after_approval" (JList []) ;;
  if negb (Py.is_none approval_turn) && Py.truthy must_include_any_after then
    k <- Num.int B approval_turn ;;
    if (k <? Z.of_nat (List.length turns))%Z then
      last_turn <- index turns (-1) ;;
      let after_text := assistant_text last_turn in
      groups <- Py.iter must_include_any_after ;;
      check_each_r (lacks after_text) 0%float
                   MissingRequiredContentAfterApproval groups st
    else Ok st
  else Ok st.

(** [must_ask_questions] and [should_ask_questions] differ in the key,
    the factor and the message only. *)
Definition questions_check (key : string) (factor : float)
                           (d : json -> nat -> detail)
                           (expect : json) (final_text : string)
                           (st : bucket) : result bucket :=
  q <- Py.get_default expect key JNull ;;
  if Py.truthy q then
    let q_count := _count_questions final_text in
    m <- Py.get_default q "min_questions" (JInt 1) ;;
    k <- Num.int B m ;;
    if (Z.of_nat q_count <? k)%Z then
      shown <- Py.get q "min_questions" ;;
      Ok (penalise factor (d shown q_count) st)
    else Ok st
  else Ok st.

Definition content_checks (expect : json) (turns : list TurnResult)
                          (st : bucket) : result bucket :=
  let final_text := final_text_of turns in
  st <- must_include_check expect final_text st ;;
  st <- should_include_check expect final_text st ;;
  st <- include_after_check expect turns st ;;
  st <- questions_check "must_ask_questions" 0%float TooFewQuestions
                        expect final_text st ;;
  questions_check "should_ask_questions" 0.9%float FewerQuestionsThanRecommended
                  expect final_text st.

(** *** Safety and style checks *)

Definition safety_check (expect : json) (final_text : string)
                        (st : bucket) : result bucket :=
  must_not_patterns <- Py.get_default expect "must_not_include_patterns" (JList []) ;;
  if Py.truthy must_not_patterns then
    hit <- _match_any_regex B final_text must_not_patterns ;;
    Ok (if hit then penalise 0%float SafetyViolation st else st)
  else Ok st.

Definition style_check (expect : json) (final_text : string)
                       (st : bucket) : result bucket :=
  s <- Py.get expect "style" ;;
  style_pref <- Py.get_default (Py.or_ s (JObj [])) "prefer_numbered_steps"
                               (JBool false) ;;
  Ok (if Py.truthy style_pref && negb (_has_numbered_steps final_text)
      then penalise 0.9%float NoNumberedSteps st else st).

(** *** Weighted total *)

Definition weight (weights : json) (key : string) (dflt : float) : result float :=
  w <- Py.get_default weights key (JFloat dflt) ;;
  Num.float_ B w.

Definition weighted_total (weights : json) (traj content safety style : float)
  : result float :=
  wt <- weight weights "trajectory" 0.4%float ;;
  wc <- weight weights "content" 0.4%float ;;
  ws <- weight weights "safety" 0.1%float ;;
  wy <- weight weights "style" 0.1%float ;;
  Ok (traj * wt + content * wc + safety * ws + style * wy)%float.

Definition _grade_test (test : json) (turns : list TurnResult) (weights : json)
  : result Grade.t :=
  expect <- Py.get_default test "expect" (JObj []) ;;
  let final_text := final_text_of turns in
  let all_calls := flat_map tool_calls turns in
  t <- trajectory_checks expect turns (1%float, []) ;;
  c <- content_checks expect turns (1%float, snd t) ;;
  s <- safety_check expect final_text (1%float, snd c) ;;
  y <- style_check expect final_text (1%float, snd s) ;;
  total <- weighted_total weights (fst t) (fst c) (fst s) (fst y) ;;
  nm <- Py.get test "name" ;;
  ds <- Py.get test "description" ;;
  Ok {| Grade.name := nm;
        Grade.description := ds;
        Grade.scores := {| Scores.trajectory := fst t;
                           Scores.content := fst c;
                           Scores.safety := fst s;
                           Scores.style := fst y;
                           Scores.total := total |};
        Grade.details := snd y;
        Grade.final_text := final_text;
        Grade.tool_calls := all_calls |}.

End Grader.

(** ** The turn runner and the orchestrator *)

(** The agent transport, as one run observes it: whether the session of the
    [i]-th scenario is created, and what the [j]-th turn of the [i]-th
    scenario answers to the user message sent ([None]: connection error,
    timeout, error status or undecodable body; otherwise the decoded list of
    events). *)
Record transport : Type := {
  session_created : nat -> bool;
  run_response : nat -> nat -> json -> option (list json)
}.

Module Summary.
Record t : Type := {
  appName : json;
  apiBase : string;
  threshold : float;
  passed : nat;
  total : nat;
  pass_rate : float;
  results : list Grade.t
}.
End Summary.

(** What a run does to the outside, in order. *)
Inductive effect : Type :=
| PostSession (scenario : nat)
| PostRun (scenario turn : nat) (text : json)
| PrintPass (name : json) (total : float)
| PrintFail (name : json) (total : float) (shown : list detail)
| WriteReport (path : string) (summary : Summary.t)
| PrintSummary (passed total : nat).

(** A computation that performs effects and then returns or raises. *)
Definition io (A : Type) : Type := (list effect * result A)%type.

Definition io_ret {A : Type} (a : A) : io A := ([], Ok a).

Definition io_bind {A B : Type} (c : io A) (k : A -> io B) : io B :=
  match c with
  | (tr, Ok a) => let (tr', r) := k a in (tr ++ tr', r)
  | (tr, Raise e) => (tr, Raise e)
  end.

Definition lift {A : Type} (r : result A) : io A := ([], r).

Definition emit (e : effect) : io unit := ([e], Ok tt).

Notation "x <~ c ;; k" := (io_bind c (fun x => k))
  (at level 61, c at next level, right associativity).

Definition trace {A : Type} (c : io A) : list effect := fst c.
Definition outcome {A : Type} (c : io A) : result A := snd c.

Definition default_weights : json :=
  JObj [("trajectory", JFloat 0.4); ("content", JFloat 0.4);
        ("safety", JFloat 0.1); ("style", JFloat 0.1)].

Definition pass_threshold : float := 0.70%float.

Definition float_of_nat (n : nat) : float :=
  SF2Prim (binary_normalize prec emax (Z.of_nat n) 0 false).

(** What [main] reads from the decoded scenario file before its loop. *)
Record config : Type := {
  cfg_app_name : json;
  cfg_api_base : string;
  cfg_weights : json;
  cfg_tests : json;
  cfg_report_path : json
}.

Definition load_spec (spec : json) : result config :=
  app_name <- Py.subscript spec "appName" ;;
  a <- Py.get_default spec "apiBase" (JStr "http://localhost:8000") ;;
  api_base <- match a with
              | JStr s => Ok (Str.rstrip_char "/"%char s)
              | _ => Raise AttributeError
              end ;;
  weights <- Py.get_default spec "weights" default_weights ;;
  tests <- Py.subscript spec "tests" ;;
  report_path <- Py.get_default spec "reportPath" (JStr "eval/report.json") ;;
  Ok {| cfg_app_name := app_name;
        cfg_api_base := api_base;
        cfg_weights := weights;
        cfg_tests := tests;
        cfg_report_path := report_path |}.

Section Orchestrator.
Variable T : transport.
Variable B : builtins.

Definition _create_session (i : nat) : io unit :=
  _ <~ emit (PostSession i) ;;
  lift (if session_created T i then Ok tt else Raise RequestException).

Definition _run_turn (i j : nat) (text : json) : io TurnResult :=
  _ <~ emit (PostRun i j text) ;;
  lift (match run_response T i j text with
        | None => Raise RequestException
        | Some events =>
            txt <- _last_assistant_text events ;;
            cr <- _extract_function_calls_and_responses events ;;
            Ok {| user := text;
                  assistant_text := txt;
                  tool_calls := fst cr;
                  tool_responses := snd cr;
                  raw_events := events |}
        end).

(** [for turn in t.get("turns", []): turn_results.append(_run_turn(...))] *)
Fixpoint run_turns (i j : nat) (turns : list json) (acc : list TurnResult)
  : io (list TurnResult) :=
  match turns with
  | [] => io_ret acc
  | turn :: rest =>
      text <~ lift (Py.subscript turn "user") ;;
      tr <~ _run_turn i j text ;;
      run_turns i (S j) rest (acc ++ [tr])
  end.

(** The body of the loop over the scenarios, up to [results.append]. *)
Definition run_scenario (weights : json) (i : nat) (t : json) : io Grade.t :=
  _ <~ _create_session i ;;
  turns <~ lift (tv <- Py.get_default t "turns" (JList []) ;; Py.iter tv) ;;
  turn_results <~ run_turns i 0 turns [] ;;
  lift (_grade_test B t turn_results weights).

(** The verdict line of one scenario and the updated count. *)
Definition report_verdict (t : json) (graded : Grade.t) (passed : nat) : io nat :=
  let total := Scores.total (Grade.scores graded) in
  if PrimFloat.leb pass_threshold total then
    nm <~ lift (Py.subscript t "name") ;;
    _ <~ emit (PrintPass nm total) ;;
    io_ret (S passed)
  else
    nm <~ lift (Py.subscript t "name") ;;
    _ <~ emit (PrintFail nm total (firstn 6 (Grade.details graded))) ;;
    io_ret passed.

Fixpoint run_scenarios (weights : json) (i : nat) (tests : list json)
                       (st : list Grade.t * nat) : io (list Grade.t * nat) :=
  match tests with
  | [] => io_ret st
  | t :: rest =>
      graded <~ run_scenario weights i t ;;
      passed <~ report_verdict t graded (snd st) ;;
      run_scenarios weights (S i) rest (fst st ++ [graded], passed)
  end.

(** [main], from the decoded scenario file on.  Writing the report is one
    effect; failures of the file system are left out. *)
Definition main (spec : json) : io Summary.t :=
  cfg <~ lift (load_spec spec) ;;
  test_list <~ lift (Py.iter (cfg_tests cfg)) ;;
  st <~ run_scenarios (cfg_weights cfg) 0 test_list ([], 0) ;;
  let results := fst st in
  let passed := snd st in
  let summary :=
    {| Summary.appName := cfg_app_name cfg;
       Summary.apiBase := cfg_api_base cfg;
       Summary.threshold := pass_threshold;
       Summary.passed := passed;
       Summary.total := List.length results;
       Summary.pass_rate :=
         PrimFloat.div (float_of_nat passed)
                       (float_of_nat (Nat.max 1 (List.length results)));
       Summary.results := results |} in
  path <~ lift (match cfg_report_path cfg with
                | JStr p => Ok p
                | _ => Raise TypeError
                end) ;;
  _ <~ emit (WriteReport path summary) ;;
  _ <~ emit (PrintSummary passed (List.length results)) ;;
  io_ret summary.

End Orchestrator.

(** ** A reference reading of the builtins, for the worked examples

    [re.search] is read on two kinds of pattern only: a pattern made of ASCII
    letters, digits and spaces matches exactly where it occurs in the text,
    case ignored; any other pattern is answered as the pattern ["("] is, an
    unclosed group that [re] refuses to compile.  The examples below use
    patterns of the first kind and the pattern ["("].  [int] reads a
    non-empty string of ASCII digits; the examples apply [float] to no
    string. *)

Definition plain_char (c : ascii) : bool :=
  let n := Str.code c in
  ((48 <=? n) && (n <=? 57)) || ((65 <=? n) && (n <=? 90))
  || ((97 <=? n) && (n <=? 122)) || (n =? 32).

Definition plain_pattern (pat : string) : bool := forallb plain_char (Str.chars pat).

Definition re_search_plain (pat text : string) : option bool :=
  if plain_pattern pat
  then Some (Str.contains (Str.lower pat) (Str.lower text))
  else None.

Fixpoint digits_value (acc : Z) (s : string) : option Z :=
  match s with
  | EmptyString => Some acc
  | String c t =>
      if Str.is_digit c
      then digits_value (10 * acc + Z.of_nat (Str.code c - 48))%Z t
      else None
  end.

Definition int_of_digits (s : string) : option Z :=
  match s with
  | EmptyString => None
  | _ => digits_value 0%Z s
  end.

Definition ref_builtins : builtins :=
  {| re_search_ignorecase := re_search_plain;
     int_of_str := int_of_digits;
     float_of_str := fun _ => None |}.

(** ** Worked inputs *)

Definition text_part (s : string) : json := JObj [("text", JStr s)].

Definition event_of (parts : list json) : json :=
  JObj [("content", JObj [("parts", JList parts)])].

Definition call_part (n : string) : json :=
  JObj [("functionCall", JObj [("name", JStr n); ("args", JObj [])])].

Definition response_part (n : string) : json :=
  JObj [("functionResponse", JObj [("name", JStr n); ("response", JObj [])])].

Definition turn_of (text : string) (calls : list string) : TurnResult :=
  {| user := JStr "hello";
     assistant_text := text;
     tool_calls := calls;
     tool_responses := [];
     raw_events := [] |}.

Definition scenario (expect : obj) : json :=
  JObj [("name", JStr "s"); ("expect", JObj expect)].

(** ** The values a score bucket takes

    A bucket starts at [1.0] and is multiplied by [0.0] or by one soft
    factor ([0.85] for the trajectory, [0.9] for content and style), so its
    value is [0.0] or the factor applied some number of times to [1.0]. *)

Fixpoint decay (f : float) (n : nat) : float :=
  match n with
  | O => 1%float
  | S k => (decay f k * f)%float
  end.

Definition score_value (f x : float) : Prop :=
  x = 0%float \/ exists n, x = decay f n.

(** [0 <= x <= 1] *)
Definition in_unit (x : float) : bool :=
  PrimFloat.leb 0%float x && PrimFloat.leb x 1%float.

(** What one value of the orbit has to satisfy: it lies in the unit
    interval, a hard penalty sends it to [0.0] and the soft penalty does
    not increase it. *)
Definition step_ok (f x : float) : bool :=
  in_unit x
  && PrimFloat.Leibniz.eqb (x * 0)%float 0%float
  && PrimFloat.leb (x * f)%float x.

(** [orbit_ok f k x]: [x] and the next [k] values [x * f], [x * f * f], ...
    are fine, and the last of them is a fixed point of the multiplication. *)
Fixpoint orbit_ok (f : float) (k : nat) (x : float) : bool :=
  step_ok f x
  && match k with
     | O => PrimFloat.Leibniz.eqb (x * f)%float x
     | S k' => orbit_ok f k' (x * f)%float
     end.

Fixpoint iterate (f : float) (n : nat) (x : float) : float :=
  match n with
  | O => x
  | S k => iterate f k (x * f)%float
  end.

(** [lowered f x y]: [y] is [x] after some penalties, each one a
    multiplication by [0.0] or by the soft factor [f]. *)
Inductive lowered (f x : float) : float -> Prop :=
| lowered_refl : lowered f x x
| lowered_hard (y : float) : lowered f x y -> lowered f x (y * 0)%float
| lowered_soft (y : float) : lowered f x y -> lowered f x (y * f)%float.

(** The values [x], [x * f], ..., up to the [k]-th. *)
Fixpoint orbit_list (f : float) (k : nat) (x : float) : list float :=
  x :: match k with
       | O => []
       | S k' => orbit_list f k' (x * f)%float
       end.

(** The check behind the bound on the total under the default weights.
    [a] is [traj * 0.4 + content * 0.4]; the safety term is [1 * 0.1] or
    [0 * 0.1], the style term [1 * 0.1] or [y9 = 0.9 * 0.1]; all four
    totals have to lie in the unit interval. *)
Definition tail_ok (y9 a : float) : bool :=
  let b1 := (a + 0.1)%float in
  let b0 := (a + 0)%float in
  if PrimFloat.leb 0%float (b1 + 0.1)%float then
  if PrimFloat.leb (b1 + 0.1)%float 1%float then
  if PrimFloat.leb 0%float (b1 + y9)%float then
  if PrimFloat.leb (b1 + y9)%float 1%float then
  if PrimFloat.leb 0%float (b0 + 0.1)%float then
  if PrimFloat.leb (b0 + 0.1)%float 1%float then
  if PrimFloat.leb 0%float (b0 + y9)%float then
  PrimFloat.leb (b0 + y9)%float 1%float
  else false else false else false else false else false else false else false.

Fixpoint sums_ok (y9 u : float) (vs : list float) : bool :=
  match vs with
  | [] => true
  | v :: vs' => if tail_ok y9 (u + v)%float then sums_ok y9 u vs' else false
  end.

Fixpoint pairs_ok (y9 : float) (us vs : list float) : bool :=
  match us with
  | [] => true
  | u :: us' => if sums_ok y9 u vs then pairs_ok y9 us' vs else false
  end.

(** The weighted total under the default weights stays in the unit
    interval for all the listed trajectory values [ts], content values [cs],
    and the two safety and the two style values. *)
Definition totals_ok (ts cs : list float) : bool :=
  pairs_ok (0.9 * 0.1)%float
           (map (fun t => t * 0.4)%float ts) (map (fun c => c * 0.4)%float cs).

(** After this many soft penalties a bucket no longer changes: the product
    has reached a subnormal value that the factor rounds back to itself. *)
Definition traj_orbit_length : nat := 4600.
Definition content_orbit_length : nat := 7100.

Definition traj_values : list float :=
  0%float :: orbit_list 0.85%float traj_orbit_length 1%float.

Definition content_values : list float :=
  0%float :: orbit_list 0.9%float content_orbit_length 1%float.

(** The four weights are the default ones: the weights are the default
    mapping, or a mapping that overrides none of them. *)
Definition default_weighting (B : builtins) (weights : json) : Prop :=
  weight B weights "trajectory" 0.4%float = Ok 0.4%float
  /\ weight B weights "content" 0.4%float = Ok 0.4%float
  /\ weight B weights "safety" 0.1%float = Ok 0.1%float
  /\ weight B weights "style" 0.1%float = Ok 0.1%float.

(** ** Inputs of the worked cases *)

(** Weights that put 2.0 on the trajectory and leave the rest at their
    defaults. *)
Definition heavy_weights : json := JObj [("trajectory", JFloat 2%float)].

(** An expectation with an approval turn of 1 that gates one tool, and a
    transcript that calls the tool in turn 0. *)
Definition gate_expect : obj :=
  [("approval_turn", JInt 1);
   ("must_not_call_tools_before_approval", JList [JStr "create_ticket"])].

Definition early_call_turns : list TurnResult :=
  [turn_of "Ticket created." ["create_ticket"]; turn_of "Anything else?" []].

(** The key [k] of the expectation [e] imposes nothing: it is absent or
    holds the empty list. *)
Definition no_constraint (e : obj) (k : string) : Prop :=
  Py.dict_find k e = None \/ Py.dict_find k e = Some (JList []).

(** Two recommended tools, and a transcript that calls neither. *)
Definition two_recommended : obj :=
  [("should_call_tools", JList [JStr "kb_search"; JStr "create_ticket"])].

Definition no_call_turns : list TurnResult :=
  [turn_of "Please restart the client." []].

(** ** The extractor's two scans, stated on their own *)

(** What the fallback loop appends for one dict [d] and one of its two keys. *)
Definition name_under (key : string) (d : obj) : list string :=
  if Py.dict_mem key d then append_name (Py.dict_get d key) [] else [].

(** The names the unconstrained descent collects under [key]. *)
Definition walked_names (key : string) (v : json) : list string :=
  flat_map (name_under key) (_walk_json v).

(** The name a part carries under the camel-case key [key] itself, where
    the structured scan looks first. *)
Definition standard_names (key : string) (p : json) : list string :=
  match p with
  | JObj d =>
      if Py.truthy (Py.dict_get d key)
      then append_name (Py.dict_get d key) [] else []
  | _ => []
  end.

(** The names the structured scan finds under [key] in the parts of the
    events. *)
Definition structured_names (key : string) (events : list json) : list string :=
  flat_map (fun ev => match event_parts ev with
                      | Ok ps => flat_map (standard_names key) ps
                      | Raise _ => []
                      end)
           events.

(** How often the name [n] occurs in a list of names. *)
Abbreviation occurrences := (count_occ string_dec).

(** One turn's events: the model calls [kb_search] and nothing answers. *)
Definition lone_call_events : list json := [event_of [call_part "kb_search"]].

(** ** The final assistant text, stated on its own *)

(** The text a part carries: the value of ["text"] when it is a [str]. *)
Definition text_of_part (p : json) : list string :=
  match p with
  | JObj d => match Py.dict_get d "text" with
              | JStr s => [s]
              | _ => []
              end
  | _ => []
  end.

(** The texts of an event, in the order of its parts. *)
Definition event_texts (ev : json) : list string :=
  match event_parts ev with
  | Ok ps => flat_map text_of_part ps
  | Raise _ => []
  end.

(** The texts in the order the scan meets them: events last to first, the
    parts of each event first to last. *)
Definition texts_in_scan_order (events : list json) : list string :=
  flat_map event_texts (rev events).

(** The first text that [keep] accepts, the empty string when there is
    none. *)
Definition first_such (keep : string -> bool) (l : list string) : string :=
  match find keep l with
  | Some s => s
  | None => ""
  end.

(** The specification's reading: the first text that is not empty. *)
Definition first_nonempty_text (events : list json) : string :=
  first_such Str.nonempty (texts_in_scan_order events).

(** The code's test: [txt.strip()] is not empty, that is, the text has a
    character that is not white space. *)
Definition not_blank (s : string) : bool := Str.nonempty (Str.strip s).

Definition first_text_said (events : list json) : string :=
  first_such not_blank (texts_in_scan_order events).

Definition is_obj (v : json) : bool :=
  match v with JObj _ => true | _ => false end.

(** An event of the expected shape: a dict whose ["content"], when it
    counts as true, is a dict whose ["parts"], when they count as true, are
    a sequence of dicts. *)
Definition well_shaped (ev : json) : bool :=
  match event_parts ev with
  | Ok ps => forallb is_obj ps
  | Raise _ => false
  end.

(** The assistant answers, then a later event carries a text of two
    spaces. *)
Definition blank_last_events : list json :=
  [event_of [text_part "hello"]; event_of [text_part "  "]].

(** The assistant answers in the third-to-last event; the two later events
    carry a tool call and a tool response. *)
Definition text_then_tools_events : list json :=
  [event_of [text_part "Please restart the client."];
   event_of [call_part "kb_search"];
   event_of [response_part "kb_search"]].

(** ** Runs of the orchestrator used below *)

(** A scenario file with two scenarios without turns or expectations. *)
Definition two_scenarios_spec : json :=
  JObj [("appName", JStr "helpdesk");
        ("tests", JList [JObj [("name", JStr "first")];
                         JObj [("name", JStr "second")]])].

(** A transport that refuses the session of the first scenario only. *)
Definition first_session_refused : transport :=
  {| session_created := fun i => negb (i =? 0);
     run_response := fun _ _ _ => Some [] |}.

(** A transport that always answers with one event carrying a text. *)
Definition greeting_transport : transport :=
  {| session_created := fun _ => true;
     run_response := fun _ _ _ => Some [event_of [text_part "Hello."]] |}.

(** A scenario file whose only scenario has one turn and, as its only
    disallowed pattern, an unclosed group. *)
Definition bad_pattern_scenario : json :=
  JObj [("name", JStr "s");
        ("turns", JList [JObj [("user", JStr "hi")]]);
        ("expect", JObj [("must_not_include_patterns", JList [JStr "("])])].

Definition bad_pattern_spec : json :=
  JObj [("appName", JStr "helpdesk"); ("tests", JList [bad_pattern_scenario])].

(** The requests of the turns that produced [trs], numbered from [j]. *)
Definition posts_of (i j : nat) (trs : list TurnResult) : list effect :=
  map (fun p => PostRun i (fst p) (user (snd p)))
      (combine (seq j (List.length trs)) trs).

(** [re.error] comes from [re.search] only: a computation that does not
    reach it does not raise it. *)
Definition no_re_error {A : Type} (c : result A) : Prop := c <> Raise ReError.

(** ** Expectations and weights of the documented types *)

Definition is_str (v : json) : bool :=
  match v with JStr _ => true | _ => false end.

Definition is_int (v : json) : bool :=
  match v with JInt _ => true | _ => false end.

Definition is_float (v : json) : bool :=
  match v with JFloat _ => true | _ => false end.

Definition is_list_of (p : json -> bool) (v : json) : bool :=
  match v with JList l => forallb p l | _ => false end.

(** The key [k] is absent from [d], or its value satisfies [p]. *)
Definition absent_or (p : json -> bool) (d : obj) (k : string) : bool :=
  match Py.dict_find k d with
  | None => true
  | Some v => p v
  end.

(** A turn index: an integer that is not negative. *)
Definition is_turn_index (v : json) : bool :=
  match v with JInt k => (0 <=? k)%Z | _ => false end.

(** [{min_questions: int}], the minimum being optional. *)
Definition is_question_rule (v : json) : bool :=
  match v with JObj d => absent_or is_int d "min_questions" | _ => false end.

(** A pattern that [re.search] accepts on the text [text]. *)
Definition compiles (B : builtins) (text : string) (v : json) : bool :=
  match v with
  | JStr p => match re_search_ignorecase B p text with
              | Some _ => true
              | None => false
              end
  | _ => false
  end.

(** Every key of the expectation [e] that is present has the type the data
    model gives it: lists of tool names, a turn index, lists of keyword
    groups, question rules, a list of patterns that compile, a style
    mapping. *)
Definition well_typed_expectation (B : builtins) (text : string) (e : obj) : bool :=
  forallb (absent_or (is_list_of is_str) e)
          ["must_call_tools"; "must_not_call_tools"; "should_call_tools";
           "must_not_call_tools_before_approval"; "must_call_tools_after_approval"]
  && absent_or is_turn_index e "approval_turn"
  && forallb (absent_or (is_list_of (is_list_of is_str)) e)
             ["must_include_any"; "should_include_any";
              "must_include_any_after_approval"]
  && forallb (absent_or is_question_rule e)
             ["must_ask_questions"; "should_ask_questions"]
  && absent_or (is_list_of (compiles B text)) e "must_not_include_patterns"
  && absent_or is_obj e "style".

(** A weight mapping whose weights, where given, are floats. *)
Definition well_typed_weights (w : json) : bool :=
  match w with
  | JObj d => forallb (absent_or is_float d)
                      ["trajectory"; "content"; "safety"; "style"]
  | _ => false
  end.

(** Expectations graded below against an empty list of turns. *)
Definition blank_keyword_expect : obj :=
  [("must_include_any", JList [JList [JStr ""]])].

Definition negative_approval_expect : obj :=
  [("approval_turn", JInt (-1));
   ("must_include_any_after_approval", JList [JList [JStr "reset"]])].

Definition required_expect : obj :=
  [("must_call_tools", JList [JStr "kb_search"]);
   ("must_include_any", JList [JList [JStr "reset"; JStr "restart"]])].

(** ** Further worked inputs *)

(** The ticket is to be created from turn 1 on, from the last turn on, and
    from three turns before the end on. *)
Definition late_ticket_expect : obj :=
  [("approval_turn", JInt 1);
   ("must_call_tools_after_approval", JList [JStr "create_ticket"])].

Definition last_turn_ticket_expect : obj :=
  [("approval_turn", JInt (-1));
   ("must_call_tools_after_approval", JList [JStr "create_ticket"])].

Definition far_back_expect : obj :=
  [("approval_turn", JInt (-3));
   ("must_call_tools_after_approval", JList [JStr "create_ticket"])].

(** ** Soft penalties on their own *)

(** The listed tools that no turn called. *)
Definition missed (tools : list json) (all_calls : list string) : list json :=
  filter (fun tool => negb (Py.in_strs tool all_calls)) tools.

(** Every value of the orbit is above [0.0]. *)
Definition orbit_positive (f : float) (k : nat) (x : float) : bool :=
  forallb (PrimFloat.ltb 0%float) (orbit_list f k x).

(** Every value of the orbit is below [1.0]. *)
Definition orbit_below_one (f : float) (k : nat) (x : float) : bool :=
  forallb (fun y => PrimFloat.ltb y 1%float) (orbit_list f k x).

(** A transcript whose only answer neither names a fix nor asks anything. *)
Definition waiting_turns : list TurnResult := [turn_of "Please wait." []].

(** A rule that asks for two questions, and one that leaves the minimum to
    its default. *)
Definition two_questions_expect : obj :=
  [("must_ask_questions", JObj [("min_questions", JInt 2)])].

Definition some_question_expect : obj :=
  [("must_ask_questions", JObj [("note", JStr "ask for the device")])].

Definition one_question_turns : list TurnResult :=
  [turn_of "Which device is it?" []].

(** One disallowed pattern, and an answer that contains it. *)
Definition password_expect : obj :=
  [("must_not_include_patterns", JList [JStr "serial number"; JStr "password"])].

Definition password_turns : list TurnResult :=
  [turn_of "Please send me your Password." []].

(** ** Scores and details together *)

(** [penalised f st st']: the bucket [st'] is [st] after some penalties,
    each one a multiplication by [0.0] or by the soft factor [f] together
    with one more detail. *)
Inductive penalised (f : float) (st : bucket) : bucket -> Prop :=
| penalised_none : penalised f st st
| penalised_more (st' : bucket) (factor : float) (d : detail) :
    penalised f st st' ->
    factor = 0%float \/ factor = f ->
    penalised f st (penalise factor d st').

(** At least one penalty: the last step of a lowering is a multiplication. *)
Definition strictly_lowered (f x y : float) : Prop :=
  exists z, lowered f x z /\ (y = (z * 0)%float \/ y = (z * f)%float).

(** ** A hard failure under the default weights *)

(** With [a] the sum of the trajectory and content terms, the total stays
    below the pass threshold for both safety and both style values. *)
Definition below_threshold (a : float) : bool :=
  forallb (fun s =>
             forallb (fun y =>
                        negb (PrimFloat.leb pass_threshold
                                            (a + s * 0.1 + y * 0.1)%float))
                     [1%float; 0.9%float])
          [1%float; 0%float].

Definition hard_trajectory_fails (cs : list float) : bool :=
  forallb (fun c => below_threshold (0 * 0.4 + c * 0.4)%float) cs.

Definition hard_content_fails (ts : list float) : bool :=
  forallb (fun t => below_threshold (t * 0.4 + 0 * 0.4)%float) ts.

(** Two transcripts with the same tool calls per turn and the same last
    answer; the user messages and the first answers differ. *)
Definition transcript_a : list TurnResult :=
  [ {| user := JStr "my vpn is down"; assistant_text := "Which client do you use?";
       tool_calls := ["kb_search"]; tool_responses := ["kb_search"];
       raw_events := [] |};
    turn_of "Please restart the client." [] ].

Definition transcript_b : list TurnResult :=
  [ turn_of "Let me look that up." ["kb_search"];
    {| user := JStr "thanks"; assistant_text := "Please restart the client.";
       tool_calls := []; tool_responses := [];
       raw_events := [event_of [text_part "Please restart the client."]] |} ].

(** ** Where an extracted name comes from *)

(** The mapping [d] holds, under one of the keys [keys], a mapping whose
    ["name"] is the string [n]. *)
Definition carries_name (keys : list string) (n : string) (d : obj) : Prop :=
  exists k fc,
    In k keys
    /\ Py.dict_find k d = Some (JObj fc)
    /\ Py.dict_find "name" fc = Some (JStr n).

(** Some mapping inside the events carries the name. *)
Definition named_in (keys : list string) (events : list json) (n : string) : Prop :=
  exists d, In d (_walk_json (JList events)) /\ carries_name keys n d.

(** ** The counts of a run *)

(** [graded["scores"]["total"] >= threshold] *)
Definition passes (g : Grade.t) : bool :=
  PrimFloat.leb pass_threshold (Scores.total (Grade.scores g)).

Definition count_passed (gs : list Grade.t) : nat := List.length (filter passes gs).

(** The verdict line [main] prints for a grade. *)
Definition verdict_of (nm : json) (g : Grade.t) : effect :=
  if passes g
  then PrintPass nm (Scores.total (Grade.scores g))
  else PrintFail nm (Scores.total (Grade.scores g)) (firstn 6 (Grade.details g)).

(** The effects of the loop over the scenarios: requests and verdicts. *)
Definition is_scenario_effect (e : effect) : bool :=
  match e with
  | PostSession _ | PostRun _ _ _ | PrintPass _ _ | PrintFail _ _ _ => true
  | WriteReport _ _ | PrintSummary _ _ => false
  end.

(** The grade [g] is the grade of the scenario [t] for some turn results,
    and the scenario has a name. *)
Definition graded_as (B : builtins) (w : json) (t : json) (g : Grade.t) : Prop :=
  (exists trs, _grade_test B t trs w = Ok g)
  /\ exists nm, Py.subscript t "name" = Ok nm.

(** A scenario file whose second scenario has no name. *)
Definition unnamed_spec : json :=
  JObj [("appName", JStr "helpdesk");
        ("tests", JList [JObj [("name", JStr "first")];
                         JObj [("description", JStr "no name given")]])].

(** ** The numbered-step pattern, read as a language *)

Fixpoint all_chars (f : ascii -> bool) (s : string) : bool :=
  match s with
  | EmptyString => true
  | String c t => f c && all_chars f t
  end.

(** [\s*(\d+\.|\d+\))\s+\S+] matches a prefix of [s]: white space, at least
    one digit, a dot or a closing parenthesis, at least one white-space
    character, and a character that is not white space. *)
Definition numbered_step (s : string) : Prop :=
  exists ws ds c gap x rest,
    s = (ws ++ ds ++ String c (gap ++ String x rest))%string
    /\ all_chars Str.is_space ws = true
    /\ ds <> EmptyString /\ all_chars Str.is_digit ds = true
    /\ (c = "."%char \/ c = ")"%char)
    /\ gap <> EmptyString /\ all_chars Str.is_space gap = true
    /\ Str.is_space x = false.

(** [(?m)^] matches where [s] begins in [text]: at the start of the text or
    right after a newline. *)
Definition line_start (text s : string) : Prop :=
  text = s \/ exists pre, text = (pre ++ String newline s)%string.


(** ** Which detail goes with which score *)

(** The details of the hard trajectory checks, of the soft one, and so on
    for the other buckets. *)
Definition traj_hard (d : detail) : bool :=
  match d with
  | MissingRequiredToolCall _ | DisallowedToolCall _
  | ApprovalGateViolated _ _ | MissingToolCallAfterApproval _ => true
  | _ => false
  end.

Definition traj_soft (d : detail) : bool :=
  match d with RecommendedToolNotCalled _ => true | _ => false end.

Definition content_hard (d : detail) : bool :=
  match d with
  | MissingRequiredContent _ | MissingRequiredContentAfterApproval _
  | TooFewQuestions _ _ => true
  | _ => false
  end.

Definition content_soft (d : detail) : bool :=
  match d with
  | MissingRecommendedContent _ | FewerQuestionsThanRecommended _ _ => true
  | _ => false
  end.

Definition safety_hard (d : detail) : bool :=
  match d with SafetyViolation => true | _ => false end.

Definition style_soft (d : detail) : bool :=
  match d with NoNumberedSteps => true | _ => false end.

(** [accounted f hard soft st st']: the bucket [st'] is [st] after some
    penalties, each one either a multiplication by [0.0] with a detail of
    the class [hard] or a multiplication by [f] with a detail of the class
    [soft]. *)
Inductive accounted (f : float) (hard soft : detail -> bool) (st : bucket)
  : bucket -> Prop :=
| accounted_none : accounted f hard soft st st
| accounted_hard (st' : bucket) (d : detail) :
    accounted f hard soft st st' ->
    hard d = true ->
    accounted f hard soft st (penalise 0%float d st')
| accounted_soft (st' : bucket) (d : detail) :
    accounted f hard soft st st' ->
    soft d = true ->
    accounted f hard soft st (penalise f d st').

(** ** What the descent visits *)

(** [inside x v]: the value [x] is [v] itself or lies inside it, reached
    through the values of mappings and the items of lists. *)
Inductive inside (x : json) : json -> Prop :=
| inside_here : inside x x
| inside_value (d : obj) (k : string) (v : json) :
    In (k, v) d -> inside x v -> inside x (JObj d)
| inside_item (l : list json) (v : json) :
    In v l -> inside x v -> inside x (JList l).

(** The last answer names a fix; the approval turn is the second turn. *)
Definition confirm_expect : obj :=
  [("approval_turn", JInt 1);
   ("must_include_any_after_approval", JList [JList [JStr "ticket"]])].

(** A reply whose last event carries the answer; the event before it is
    not a mapping. *)
Definition malformed_then_text_events : list json :=
  [JStr "keep-alive"; event_of [text_part "Please restart the client."]].

(** * Properties *)

(** ** Binary64 facts about the score values *)

Lemma iterate_mul (f : float) (n : nat) (x : float) :
  iterate f n (x * f)%float = (iterate f n x * f)%float.
Proof.
  revert x. induction n as [|n IH]; intro x; simpl.
  - reflexivity.
  - apply IH.
Qed.

Lemma decay_iterate (f : float) (n : nat) : decay f n = iterate f n 1%float.
Proof.
  induction n as [|n IH]; simpl.
  - reflexivity.
  - rewrite iterate_mul, IH. reflexivity.
Qed.

Lemma iterate_fixed (f x : float) (n : nat) :
  (x * f)%float = x -> iterate f n x = x.
Proof.
  intro Hfix. induction n as [|n IH]; simpl.
  - reflexivity.
  - rewrite Hfix. exact IH.
Qed.

Lemma orbit_ok_sound (f : float) (k : nat) :
  forall x, orbit_ok f k x = true -> forall n, step_ok f (iterate f n x) = true.
Proof.
  induction k as [|k IH]; intros x H n; simpl in H;
    apply andb_prop in H; destruct H as [Hx Hrest].
  - apply FloatAxioms.Leibniz.eqb_spec in Hrest.
    rewrite iterate_fixed; assumption.
  - destruct n as [|n]; simpl.
    + exact Hx.
    + apply IH. exact Hrest.
Qed.

Lemma orbit_085 : orbit_ok 0.85%float traj_orbit_length 1%float = true.
Proof. vm_cast_no_check (eq_refl true). Qed.

Lemma orbit_09 : orbit_ok 0.9%float content_orbit_length 1%float = true.
Proof. vm_cast_no_check (eq_refl true). Qed.

Section ScoreValues.
Variable f : float.
Variable k : nat.
Hypothesis Horbit : orbit_ok f k 1%float = true.
Hypothesis Hzero : (0 * f)%float = 0%float.

Lemma decay_step_ok (n : nat) : step_ok f (decay f n) = true.
Proof. rewrite decay_iterate. apply (orbit_ok_sound f k); exact Horbit. Qed.

Lemma zero_step_ok : step_ok f 0%float = true.
Proof.
  unfold step_ok. rewrite Hzero.
  vm_compute. reflexivity.
Qed.

Lemma score_value_step_ok (x : float) : score_value f x -> step_ok f x = true.
Proof.
  intros [-> | [n ->]].
  - apply zero_step_ok.
  - apply decay_step_ok.
Qed.

Lemma score_value_in_unit (x : float) : score_value f x -> in_unit x = true.
Proof.
  intro H. apply score_value_step_ok in H. unfold step_ok in H.
  apply andb_prop in H. destruct H as [H _].
  apply andb_prop in H. destruct H as [H _]. exact H.
Qed.

Lemma score_value_mul_zero (x : float) : score_value f x -> (x * 0)%float = 0%float.
Proof.
  intro H. apply score_value_step_ok in H. unfold step_ok in H.
  apply andb_prop in H. destruct H as [H _].
  apply andb_prop in H. destruct H as [_ H].
  apply FloatAxioms.Leibniz.eqb_spec. exact H.
Qed.

Lemma score_value_soft_le (x : float) :
  score_value f x -> PrimFloat.leb (x * f)%float x = true.
Proof.
  intro H. apply score_value_step_ok in H. unfold step_ok in H.
  apply andb_prop in H. destruct H as [_ H]. exact H.
Qed.

Lemma score_value_hard_le (x : float) :
  score_value f x -> PrimFloat.leb (x * 0)%float x = true.
Proof.
  intro H. rewrite (score_value_mul_zero x H).
  apply score_value_in_unit in H. unfold in_unit in H.
  apply andb_prop in H. destruct H as [H _]. exact H.
Qed.

Lemma score_value_one : score_value f 1%float.
Proof. right. exists 0. reflexivity. Qed.

Lemma score_value_lowered (x y : float) :
  score_value f x -> lowered f x y -> score_value f y.
Proof.
  intros Hx Hl. induction Hl as [| y Hl IH | y Hl IH].
  - exact Hx.
  - left. apply score_value_mul_zero. exact IH.
  - destruct IH as [-> | [n ->]].
    + left. exact Hzero.
    + right. exists (S n). reflexivity.
Qed.

Lemma lowered_from_zero (y : float) : lowered f 0%float y -> y = 0%float.
Proof.
  intro Hl. induction Hl as [| y Hl IH | y Hl IH].
  - reflexivity.
  - rewrite IH. vm_compute. reflexivity.
  - rewrite IH. exact Hzero.
Qed.

End ScoreValues.

Lemma lowered_trans (f x y z : float) :
  lowered f x y -> lowered f y z -> lowered f x z.
Proof.
  intros Hxy Hyz. induction Hyz as [| z Hyz IH | z Hyz IH].
  - exact Hxy.
  - apply lowered_hard. exact IH.
  - apply lowered_soft. exact IH.
Qed.

Lemma zero_traj_factor : (0 * 0.85)%float = 0%float.
Proof. vm_compute. reflexivity. Qed.

Lemma zero_soft_factor : (0 * 0.9)%float = 0%float.
Proof. vm_compute. reflexivity. Qed.

(** ** The loops of the grader lower a bucket *)

Lemma penalise_fst (factor : float) (d : detail) (st : bucket) :
  fst (penalise factor d st) = (fst st * factor)%float.
Proof. reflexivity. Qed.

Lemma penalise_lowered (f factor : float) (d : detail) (st : bucket) :
  factor = 0%float \/ factor = f -> lowered f (fst st) (fst (penalise factor d st)).
Proof.
  intros [-> | ->]; rewrite penalise_fst.
  - apply lowered_hard, lowered_refl.
  - apply lowered_soft, lowered_refl.
Qed.

Lemma for_each_app {A S : Type} (body : A -> S -> result S) (l1 l2 : list A) (s : S) :
  for_each body (l1 ++ l2) s = (s' <- for_each body l1 s ;; for_each body l2 s').
Proof.
  revert s. induction l1 as [|a l1 IH]; intro s; simpl.
  - reflexivity.
  - destruct (body a s) as [s1|e]; simpl.
    + apply IH.
    + reflexivity.
Qed.

Lemma for_each_lowered {A : Type} (f : float) (body : A -> bucket -> result bucket)
      (l : list A) :
  (forall x st st', body x st = Ok st' -> lowered f (fst st) (fst st')) ->
  forall st st', for_each body l st = Ok st' -> lowered f (fst st) (fst st').
Proof.
  intro Hbody. induction l as [|x l IH]; intros st st' H; simpl in H.
  - injection H as <-. apply lowered_refl.
  - destruct (body x st) as [s1|e] eqn:E; simpl in H; [|discriminate H].
    eapply lowered_trans; [exact (Hbody _ _ _ E) | exact (IH _ _ H)].
Qed.

Lemma check_each_cons (bad : json -> bool) (factor : float) (d : json -> detail)
      (x : json) (items : list json) (st : bucket) :
  check_each bad factor d (x :: items) st =
  check_each bad factor d items (if bad x then penalise factor (d x) st else st).
Proof. reflexivity. Qed.

Lemma check_each_app (bad : json -> bool) (factor : float) (d : json -> detail)
      (l1 l2 : list json) (st : bucket) :
  check_each bad factor d (l1 ++ l2) st =
  check_each bad factor d l2 (check_each bad factor d l1 st).
Proof. unfold check_each. apply fold_left_app. Qed.

Lemma check_each_lowered (f : float) (bad : json -> bool) (factor : float)
      (d : json -> detail) (items : list json) :
  factor = 0%float \/ factor = f ->
  forall st, lowered f (fst st) (fst (check_each bad factor d items st)).
Proof.
  intro Hf. induction items as [|x items IH]; intro st.
  - apply lowered_refl.
  - rewrite check_each_cons.
    eapply lowered_trans; [|apply IH].
    destruct (bad x).
    + apply penalise_lowered; exact Hf.
    + apply lowered_refl.
Qed.

Lemma check_each_r_lowered (f : float) (bad : json -> result bool) (factor : float)
      (d : json -> detail) (items : list json) :
  factor = 0%float \/ factor = f ->
  forall st st', check_each_r bad factor d items st = Ok st' ->
                 lowered f (fst st) (fst st').
Proof.
  intro Hf. unfold check_each_r.
  induction items as [|x items IH]; intros st st' H; simpl in H.
  - injection H as <-. apply lowered_refl.
  - destruct (bad x) as [b|e]; simpl in H; [|discriminate].
    eapply lowered_trans; [|apply (IH _ _ H)].
    destruct b.
    + apply penalise_lowered; exact Hf.
    + apply lowered_refl.
Qed.

Lemma gate_fold_lowered (f : float) (t : json) (cbt : list (list string))
      (idx : list nat) :
  forall st : bucket,
    lowered f (fst st)
      (fst (fold_left
              (fun st i =>
                 if Py.in_strs t (nth i cbt [])
                 then penalise 0%float (ApprovalGateViolated t i) st else st)
              idx st)).
Proof.
  induction idx as [|i idx IH]; intro st; simpl.
  - apply lowered_refl.
  - eapply lowered_trans; [|apply IH].
    destruct (Py.in_strs t (nth i cbt [])).
    + apply penalise_lowered. left. reflexivity.
    + apply lowered_refl.
Qed.

Lemma gate_tool_lowered (f : float) (t : json) (bound : nat)
      (cbt : list (list string)) (st : bucket) :
  lowered f (fst st) (fst (gate_tool t bound cbt st)).
Proof. unfold gate_tool. apply gate_fold_lowered. Qed.

(** Inversion of a sequence of statements that returned. *)
Ltac inv_bind H :=
  match type of H with
  | bind ?c _ = Ok _ =>
      let v := fresh "v" in
      let E := fresh "E" in
      destruct c as [v|?] eqn:E; simpl in H; [|discriminate H]
  end.

Section GraderLowers.
Variable B : builtins.

Lemma must_call_check_lowered (expect : json) (all_calls : list string)
      (st st' : bucket) :
  must_call_check expect all_calls st = Ok st' ->
  lowered 0.85%float (fst st) (fst st').
Proof.
  unfold must_call_check. intro H. inv_bind H. inv_bind H.
  injection H as <-. apply check_each_lowered. left. reflexivity.
Qed.

Lemma must_not_call_check_lowered (expect : json) (all_calls : list string)
      (st st' : bucket) :
  must_not_call_check expect all_calls st = Ok st' ->
  lowered 0.85%float (fst st) (fst st').
Proof.
  unfold must_not_call_check. intro H. inv_bind H. inv_bind H.
  injection H as <-. apply check_each_lowered. left. reflexivity.
Qed.

Lemma should_call_check_lowered (expect : json) (all_calls : list string)
      (st st' : bucket) :
  should_call_check expect all_calls st = Ok st' ->
  lowered 0.85%float (fst st) (fst st').
Proof.
  unfold should_call_check. intro H. inv_bind H. inv_bind H.
  injection H as <-. apply check_each_lowered. right. reflexivity.
Qed.

Lemma gate_loop_lowered (f : float) (approval_turn : json)
      (cbt : list (list string)) (tools : list json) :
  forall st st',
    for_each
      (fun t st =>
         k <- Num.int B approval_turn ;;
         let bound := Z.to_nat (Z.min k (Z.of_nat (List.length cbt))) in
         Ok (gate_tool t bound cbt st))
      tools st = Ok st' ->
    lowered f (fst st) (fst st').
Proof.
  induction tools as [|t tools IH]; intros st st' H; simpl in H.
  - injection H as <-. apply lowered_refl.
  - destruct (Num.int B approval_turn) as [k|e]; simpl in H; [|discriminate H].
    eapply lowered_trans; [apply gate_tool_lowered | apply (IH _ _ H)].
Qed.

Lemma approval_gate_check_lowered (f : float) (approval_turn must_not_before : json)
      (cbt : list (list string)) (st st' : bucket) :
  approval_gate_check B approval_turn must_not_before cbt st = Ok st' ->
  lowered f (fst st) (fst st').
Proof.
  unfold approval_gate_check. intro H.
  destruct (negb (Py.is_none approval_turn) && Py.truthy must_not_before).
  - inv_bind H. eapply gate_loop_lowered. exact H.
  - injection H as <-. apply lowered_refl.
Qed.

Lemma must_call_after_check_lowered (f : float) (approval_turn must_after : json)
      (cbt : list (list string)) (st st' : bucket) :
  must_call_after_check B approval_turn must_after cbt st = Ok st' ->
  lowered f (fst st) (fst st').
Proof.
  unfold must_call_after_check. intro H.
  destruct (negb (Py.is_none approval_turn) && Py.truthy must_after).
  - inv_bind H. inv_bind H. inv_bind H. injection H as <-.
    apply check_each_lowered. left. reflexivity.
  - injection H as <-. apply lowered_refl.
Qed.

Lemma trajectory_checks_lowered (expect : json) (turns : list TurnResult)
      (st st' : bucket) :
  trajectory_checks B expect turns st = Ok st' ->
  lowered 0.85%float (fst st) (fst st').
Proof.
  unfold trajectory_checks. intro H.
  inv_bind H. apply must_call_check_lowered in E.
  inv_bind H. apply must_not_call_check_lowered in E0.
  inv_bind H. apply should_call_check_lowered in E1.
  inv_bind H. inv_bind H.
  inv_bind H. apply (approval_gate_check_lowered 0.85%float) in E4.
  inv_bind H. apply (must_call_after_check_lowered 0.85%float) in H.
  eauto using lowered_trans.
Qed.

Lemma must_include_check_lowered (expect : json) (text : string) (st st' : bucket) :
  must_include_check expect text st = Ok st' ->
  lowered 0.9%float (fst st) (fst st').
Proof.
  unfold must_include_check. intro H. inv_bind H. inv_bind H.
  eapply check_each_r_lowered; [|exact H]. left. reflexivity.
Qed.

Lemma should_include_check_lowered (expect : json) (text : string) (st st' : bucket) :
  should_include_check expect text st = Ok st' ->
  lowered 0.9%float (fst st) (fst st').
Proof.
  unfold should_include_check. intro H. inv_bind H. inv_bind H.
  eapply check_each_r_lowered; [|exact H]. right. reflexivity.
Qed.

Lemma include_after_check_lowered (expect : json) (turns : list TurnResult)
      (st st' : bucket) :
  include_after_check B expect turns st = Ok st' ->
  lowered 0.9%float (fst st) (fst st').
Proof.
  unfold include_after_check. intro H. inv_bind H. inv_bind H.
  destruct (negb (Py.is_none v) && Py.truthy v0).
  - inv_bind H.
    destruct (v1 <? Z.of_nat (List.length turns))%Z.
    + inv_bind H. inv_bind H.
      eapply check_each_r_lowered; [|exact H]. left. reflexivity.
    + injection H as <-. apply lowered_refl.
  - injection H as <-. apply lowered_refl.
Qed.

Lemma questions_check_lowered (key : string) (factor : float)
      (d : json -> nat -> detail) (expect : json) (text : string)
      (st st' : bucket) :
  factor = 0%float \/ factor = 0.9%float ->
  questions_check B key factor d expect text st = Ok st' ->
  lowered 0.9%float (fst st) (fst st').
Proof.
  unfold questions_check. intros Hf H. inv_bind H.
  destruct (Py.truthy v).
  - inv_bind H. inv_bind H.
    destruct (Z.of_nat (_count_questions text) <? v1)%Z.
    + inv_bind H. injection H as <-. apply penalise_lowered. exact Hf.
    + injection H as <-. apply lowered_refl.
  - injection H as <-. apply lowered_refl.
Qed.

Lemma content_checks_lowered (expect : json) (turns : list TurnResult)
      (st st' : bucket) :
  content_checks B expect turns st = Ok st' ->
  lowered 0.9%float (fst st) (fst st').
Proof.
  unfold content_checks. intro H.
  inv_bind H. apply must_include_check_lowered in E.
  inv_bind H. apply should_include_check_lowered in E0.
  inv_bind H. apply include_after_check_lowered in E1.
  inv_bind H. apply questions_check_lowered in E2; [|left; reflexivity].
  apply questions_check_lowered in H; [|right; reflexivity].
  eauto using lowered_trans.
Qed.

(** The safety bucket is [1.0] or [0.0], the style bucket [1.0] or [0.9]. *)
Lemma safety_check_values (expect : json) (text : string) (l : list detail)
      (st' : bucket) :
  safety_check B expect text (1%float, l) = Ok st' ->
  fst st' = 1%float \/ fst st' = 0%float.
Proof.
  unfold safety_check. intro H. inv_bind H.
  destruct (Py.truthy v).
  - inv_bind H. injection H as <-. destruct v0; [right|left]; reflexivity.
  - injection H as <-. left. reflexivity.
Qed.

Lemma style_check_values (expect : json) (text : string) (l : list detail)
      (st' : bucket) :
  style_check expect text (1%float, l) = Ok st' ->
  fst st' = 1%float \/ fst st' = 0.9%float.
Proof.
  unfold style_check. intro H. inv_bind H. inv_bind H. injection H as <-.
  destruct (Py.truthy v0 && negb (_has_numbered_steps text)); [right|left];
    reflexivity.
Qed.

End GraderLowers.

(** ** The values of a bucket are finitely many *)

Lemma orbit_ok_fixed (f : float) (k : nat) :
  forall x, orbit_ok f k x = true ->
            (iterate f k x * f)%float = iterate f k x.
Proof.
  induction k as [|k IH]; intros x H; simpl in H;
    apply andb_prop in H; destruct H as [_ H]; simpl.
  - apply FloatAxioms.Leibniz.eqb_spec. exact H.
  - apply IH. exact H.
Qed.

Lemma iterate_add (f : float) (n m : nat) (x : float) :
  iterate f (n + m) x = iterate f m (iterate f n x).
Proof.
  revert x. induction n as [|n IH]; intro x; simpl.
  - reflexivity.
  - apply IH.
Qed.

Lemma orbit_list_iterate (f : float) (k : nat) :
  forall x n, n <= k -> In (iterate f n x) (orbit_list f k x).
Proof.
  induction k as [|k IH]; intros x n Hn.
  - replace n with 0 by lia. left. reflexivity.
  - destruct n as [|n].
    + left. reflexivity.
    + simpl. right. apply IH. lia.
Qed.

Lemma score_value_listed (f : float) (k : nat) (x : float) :
  orbit_ok f k 1%float = true ->
  score_value f x -> In x (0%float :: orbit_list f k 1%float).
Proof.
  intros Hok [-> | [n ->]].
  - left. reflexivity.
  - right. rewrite decay_iterate.
    destruct (Nat.le_gt_cases n k) as [Hle | Hgt].
    + apply orbit_list_iterate. exact Hle.
    + replace n with (k + (n - k)) by lia.
      rewrite iterate_add, iterate_fixed.
      * apply orbit_list_iterate. lia.
      * apply orbit_ok_fixed. exact Hok.
Qed.

Lemma if_true (a b : bool) : (if a then b else false) = true -> a = true /\ b = true.
Proof. destruct a; intro H; [split; [reflexivity | exact H] | discriminate H]. Qed.

Lemma tail_ok_spec (a s y : float) :
  tail_ok (0.9 * 0.1)%float a = true ->
  s = 1%float \/ s = 0%float -> y = 1%float \/ y = 0.9%float ->
  in_unit (a + s * 0.1 + y * 0.1)%float = true.
Proof.
  unfold tail_ok. cbv zeta. intro H.
  apply if_true in H. destruct H as [H1 H].
  apply if_true in H. destruct H as [H2 H].
  apply if_true in H. destruct H as [H3 H].
  apply if_true in H. destruct H as [H4 H].
  apply if_true in H. destruct H as [H5 H].
  apply if_true in H. destruct H as [H6 H].
  apply if_true in H. destruct H as [H7 H8].
  unfold in_unit.
  intros [-> | ->] [-> | ->].
  - change (1 * 0.1)%float with 0.1%float. rewrite H1, H2. reflexivity.
  - change (1 * 0.1)%float with 0.1%float. rewrite H3, H4. reflexivity.
  - change (0 * 0.1)%float with 0%float.
    change (1 * 0.1)%float with 0.1%float. rewrite H5, H6. reflexivity.
  - change (0 * 0.1)%float with 0%float. rewrite H7, H8. reflexivity.
Qed.

Lemma sums_ok_spec (y9 u : float) (vs : list float) (v : float) :
  sums_ok y9 u vs = true -> In v vs -> tail_ok y9 (u + v)%float = true.
Proof.
  induction vs as [|v0 vs IH]; simpl; intros H Hin.
  - destruct Hin.
  - apply if_true in H. destruct H as [H0 H]. destruct Hin as [-> | Hin].
    + exact H0.
    + exact (IH H Hin).
Qed.

Lemma pairs_ok_spec (y9 : float) (us vs : list float) (u v : float) :
  pairs_ok y9 us vs = true -> In u us -> In v vs ->
  tail_ok y9 (u + v)%float = true.
Proof.
  induction us as [|u0 us IH]; simpl; intros H Hu Hv.
  - destruct Hu.
  - apply if_true in H. destruct H as [H0 H]. destruct Hu as [-> | Hu].
    + exact (sums_ok_spec _ _ _ _ H0 Hv).
    + exact (IH H Hu Hv).
Qed.

Lemma totals_ok_spec (ts cs : list float) :
  totals_ok ts cs = true ->
  forall t c s y,
    In t ts -> In c cs ->
    s = 1%float \/ s = 0%float -> y = 1%float \/ y = 0.9%float ->
    in_unit (t * 0.4 + c * 0.4 + s * 0.1 + y * 0.1)%float = true.
Proof.
  unfold totals_ok. intros H t c s y Ht Hc Hs Hy.
  apply tail_ok_spec; [|exact Hs | exact Hy].
  apply (pairs_ok_spec _ _ _ _ _ H).
  - apply (in_map (fun t => (t * 0.4)%float)). exact Ht.
  - apply (in_map (fun c => (c * 0.4)%float)). exact Hc.
Qed.

Lemma totals_ok_default : totals_ok traj_values content_values = true.
Proof. vm_cast_no_check (eq_refl true). Qed.

Lemma default_total_in_unit (t c s y : float) :
  score_value 0.85%float t -> score_value 0.9%float c ->
  s = 1%float \/ s = 0%float -> y = 1%float \/ y = 0.9%float ->
  in_unit (t * 0.4 + c * 0.4 + s * 0.1 + y * 0.1)%float = true.
Proof.
  intros Ht Hc Hs Hy.
  apply (totals_ok_spec traj_values content_values totals_ok_default).
  - exact (score_value_listed _ traj_orbit_length _ orbit_085 Ht).
  - exact (score_value_listed _ content_orbit_length _ orbit_09 Hc).
  - exact Hs.
  - exact Hy.
Qed.

(** ** What a returned grade was computed from *)

Lemma grade_inv (B : builtins) (test : json) (turns : list TurnResult)
      (weights : json) (g : Grade.t) :
  _grade_test B test turns weights = Ok g ->
  exists expect t c s y total,
    Py.get_default test "expect" (JObj []) = Ok expect
    /\ trajectory_checks B expect turns (1%float, []) = Ok t
    /\ content_checks B expect turns (1%float, snd t) = Ok c
    /\ safety_check B expect (final_text_of turns) (1%float, snd c) = Ok s
    /\ style_check expect (final_text_of turns) (1%float, snd s) = Ok y
    /\ weighted_total B weights (fst t) (fst c) (fst s) (fst y) = Ok total
    /\ Grade.scores g = {| Scores.trajectory := fst t;
                           Scores.content := fst c;
                           Scores.safety := fst s;
                           Scores.style := fst y;
                           Scores.total := total |}
    /\ Grade.details g = snd y
    /\ Grade.final_text g = final_text_of turns
    /\ Grade.tool_calls g = flat_map tool_calls turns.
Proof.
  unfold _grade_test. intro H.
  inv_bind H. inv_bind H. inv_bind H. inv_bind H. inv_bind H. inv_bind H.
  inv_bind H. inv_bind H. injection H as <-.
  exists v, v0, v1, v2, v3, v4. simpl. repeat split; assumption.
Qed.

Lemma weighted_total_default (B : builtins) (weights : json) (t c s y total : float) :
  default_weighting B weights ->
  weighted_total B weights t c s y = Ok total ->
  total = (t * 0.4 + c * 0.4 + s * 0.1 + y * 0.1)%float.
Proof.
  intros (Ht & Hc & Hs & Hy). unfold weighted_total.
  rewrite Ht, Hc, Hs, Hy. simpl. intro H. injection H as <-. reflexivity.
Qed.

Lemma traj_value_of_grade (B : builtins) (expect : json) (turns : list TurnResult)
      (l : list detail) (t : bucket) :
  trajectory_checks B expect turns (1%float, l) = Ok t ->
  score_value 0.85%float (fst t).
Proof.
  intro H. apply trajectory_checks_lowered in H.
  eapply (score_value_lowered _ traj_orbit_length orbit_085 zero_traj_factor);
    [apply score_value_one | exact H].
Qed.

Lemma content_value_of_grade (B : builtins) (expect : json) (turns : list TurnResult)
      (l : list detail) (c : bucket) :
  content_checks B expect turns (1%float, l) = Ok c ->
  score_value 0.9%float (fst c).
Proof.
  intro H. apply content_checks_lowered in H.
  eapply (score_value_lowered _ content_orbit_length orbit_09 zero_soft_factor);
    [apply score_value_one | exact H].
Qed.

(** ** C8: the range of the scores *)

(** C8, as stated, fails for the total: the weights are taken as given, and
    a weight of 2.0 on the trajectory puts the total of a flawless scenario
    at 2.6, outside [0, 1]. *)
Lemma total_outside_unit_interval :
  exists g,
    _grade_test ref_builtins (scenario []) [] heavy_weights = Ok g
    /\ Scores.total (Grade.scores g) = 2.6%float
    /\ in_unit (Scores.total (Grade.scores g)) = false.
Proof.
  eexists. split; [vm_compute; reflexivity|].
  split; vm_compute; reflexivity.
Qed.

(** C8 (amended): whenever grading returns, each of the four sub-scores
    (trajectory, content, safety, style) lies in [0, 1]; each is 1.0 lowered
    by multiplications by 0.0 or by its soft factor (0.85 for the
    trajectory, 0.9 for the others), and each such multiplication yields a
    value no larger than the one it is applied to.  The total lies in [0, 1]
    when the four weights are the default ones; for other weights it is the
    weighted sum and need not. *)
Theorem sub_scores_in_unit_interval (B : builtins) (test : json)
        (turns : list TurnResult) (weights : json) (g : Grade.t) :
  _grade_test B test turns weights = Ok g ->
  (in_unit (Scores.trajectory (Grade.scores g)) = true
   /\ in_unit (Scores.content (Grade.scores g)) = true
   /\ in_unit (Scores.safety (Grade.scores g)) = true
   /\ in_unit (Scores.style (Grade.scores g)) = true)
  /\ (lowered 0.85%float 1%float (Scores.trajectory (Grade.scores g))
      /\ lowered 0.9%float 1%float (Scores.content (Grade.scores g))
      /\ lowered 0.9%float 1%float (Scores.safety (Grade.scores g))
      /\ lowered 0.9%float 1%float (Scores.style (Grade.scores g)))
  /\ (forall x, lowered 0.85%float 1%float x ->
                PrimFloat.leb (x * 0)%float x = true
                /\ PrimFloat.leb (x * 0.85)%float x = true)
  /\ (forall x, lowered 0.9%float 1%float x ->
                PrimFloat.leb (x * 0)%float x = true
                /\ PrimFloat.leb (x * 0.9)%float x = true)
  /\ (default_weighting B weights ->
      in_unit (Scores.total (Grade.scores g)) = true).
Proof.
  intro H.
  destruct (grade_inv _ _ _ _ _ H)
    as (expect & t & c & s & y & total & _ & Ht & Hc & Hs & Hy & Htot & Hsc & _).
  rewrite Hsc. simpl.
  pose proof (traj_value_of_grade _ _ _ _ _ Ht) as Vt.
  pose proof (content_value_of_grade _ _ _ _ _ Hc) as Vc.
  apply safety_check_values in Hs. apply style_check_values in Hy.
  assert (Ls : lowered 0.9%float 1%float (fst s)).
  { destruct Hs as [-> | ->].
    - apply lowered_refl.
    - change 0%float with (1 * 0)%float. apply lowered_hard, lowered_refl. }
  assert (Ly : lowered 0.9%float 1%float (fst y)).
  { destruct Hy as [-> | ->].
    - apply lowered_refl.
    - change 0.9%float with (1 * 0.9)%float. apply lowered_soft, lowered_refl. }
  assert (S9 : forall x, lowered 0.9%float 1%float x -> score_value 0.9%float x).
  { intros x Hx.
    eapply (score_value_lowered _ content_orbit_length orbit_09 zero_soft_factor);
      [apply score_value_one | exact Hx]. }
  assert (S85 : forall x, lowered 0.85%float 1%float x -> score_value 0.85%float x).
  { intros x Hx.
    eapply (score_value_lowered _ traj_orbit_length orbit_085 zero_traj_factor);
      [apply score_value_one | exact Hx]. }
  repeat split.
  - exact (score_value_in_unit _ _ orbit_085 zero_traj_factor _ Vt).
  - exact (score_value_in_unit _ _ orbit_09 zero_soft_factor _ Vc).
  - exact (score_value_in_unit _ _ orbit_09 zero_soft_factor _ (S9 _ Ls)).
  - exact (score_value_in_unit _ _ orbit_09 zero_soft_factor _ (S9 _ Ly)).
  - apply trajectory_checks_lowered in Ht. exact Ht.
  - apply content_checks_lowered in Hc. exact Hc.
  - exact Ls.
  - exact Ly.
  - exact (score_value_hard_le _ _ orbit_085 zero_traj_factor _ (S85 _ H0)).
  - exact (score_value_soft_le _ _ orbit_085 zero_traj_factor _ (S85 _ H0)).
  - exact (score_value_hard_le _ _ orbit_09 zero_soft_factor _ (S9 _ H0)).
  - exact (score_value_soft_le _ _ orbit_09 zero_soft_factor _ (S9 _ H0)).
  - intro Hw. rewrite (weighted_total_default _ _ _ _ _ _ _ Hw Htot).
    apply default_total_in_unit; assumption.
Qed.

Lemma sub_scores_in_unit_interval_witness :
  exists g,
    _grade_test ref_builtins
                (scenario [("should_call_tools", JList [JStr "kb_search"])])
                [turn_of "Please restart the client." []] default_weights = Ok g
    /\ in_unit (Scores.trajectory (Grade.scores g)) = true.
Proof.
  eexists. split.
  - vm_compute. reflexivity.
  - refine (proj1 (proj1 (sub_scores_in_unit_interval
                            ref_builtins
                            (scenario [("should_call_tools", JList [JStr "kb_search"])])
                            [turn_of "Please restart the client." []]
                            default_weights _ _))).
    vm_compute. reflexivity.
Defined.

(** ** C1: the approval gate *)

Lemma in_strs_In (s : string) (l : list string) :
  Py.in_strs (JStr s) l = true <-> In s l.
Proof.
  unfold Py.in_strs. rewrite existsb_exists. split.
  - intros (x & Hx & Heq). simpl in Heq. apply String.eqb_eq in Heq.
    subst x. exact Hx.
  - intro H. exists s. split; [exact H|]. simpl. apply String.eqb_refl.
Qed.

Lemma gate_fold_quiet (t : json) (cbt : list (list string)) (idx : list nat) :
  (forall i, In i idx -> Py.in_strs t (nth i cbt []) = false) ->
  forall st : bucket,
    fold_left
      (fun st i =>
         if Py.in_strs t (nth i cbt [])
         then penalise 0%float (ApprovalGateViolated t i) st else st)
      idx st = st.
Proof.
  induction idx as [|i idx IH]; intros Hq st; simpl.
  - reflexivity.
  - rewrite (Hq i) by (left; reflexivity).
    apply IH. intros j Hj. apply Hq. right. exact Hj.
Qed.

Lemma gate_tool_hits (t : json) (bound i : nat) (cbt : list (list string))
      (st : bucket) :
  score_value 0.85%float (fst st) ->
  i < bound ->
  Py.in_strs t (nth i cbt []) = true ->
  fst (gate_tool t bound cbt st) = 0%float.
Proof.
  intros Hv Hi Hin. unfold gate_tool.
  replace (seq 0 bound) with (seq 0 i ++ i :: seq (S i) (bound - S i)).
  - rewrite fold_left_app. simpl. rewrite Hin.
    apply (lowered_from_zero 0.85%float zero_traj_factor).
    eapply lowered_trans; [|apply gate_fold_lowered].
    rewrite penalise_fst.
    rewrite (score_value_mul_zero 0.85%float _ orbit_085 zero_traj_factor).
    + apply lowered_refl.
    + eapply (score_value_lowered 0.85%float _ orbit_085 zero_traj_factor);
        [exact Hv | apply gate_fold_lowered].
  - change (i :: seq (S i) (bound - S i)) with (seq i (S (bound - S i))).
    replace (S (bound - S i)) with (bound - i) by lia.
    rewrite <- seq_app. f_equal. lia.
Qed.

Lemma turn_calls_nth (turns : list TurnResult) (i : nat) (tr : TurnResult) :
  nth_error turns i = Some tr ->
  nth i (map tool_calls turns) [] = tool_calls tr.
Proof.
  intro H. apply nth_error_nth. apply map_nth_error. exact H.
Qed.

Section ApprovalGate.
Variable B : builtins.

Lemma approval_gate_check_hits (approval_turn : json) (k : Z)
      (tools : list json) (T : string) (turns : list TurnResult)
      (i : nat) (tr : TurnResult) (st st' : bucket) :
  Num.int B approval_turn = Ok k ->
  In (JStr T) tools ->
  (Z.of_nat i < k)%Z ->
  nth_error turns i = Some tr ->
  In T (tool_calls tr) ->
  score_value 0.85%float (fst st) ->
  approval_gate_check B approval_turn (JList tools) (map tool_calls turns) st
    = Ok st' ->
  fst st' = 0%float.
Proof.
  intros Hk HT Hi Hnth Hcall Hv H.
  unfold approval_gate_check in H.
  assert (Hnone : Py.is_none approval_turn = false).
  { destruct approval_turn; try reflexivity. discriminate Hk. }
  rewrite Hnone in H.
  destruct tools as [|t0 tools0] eqn:Etools; [destruct HT|].
  rewrite <- Etools in *. clear Etools t0 tools0.
  replace (Py.truthy (JList tools)) with true in H
    by (destruct tools; [destruct HT | reflexivity]).
  simpl in H.
  apply in_split in HT. destruct HT as (l1 & l2 & ->).
  rewrite for_each_app in H. inv_bind H.
  apply (gate_loop_lowered B 0.85%float) in E.
  simpl in H. rewrite Hk in H. simpl in H.
  apply (for_each_lowered 0.85%float) in H.
  2:{ intros x s1 s2 Hx. injection Hx as <-. apply gate_tool_lowered. }
  apply (lowered_from_zero 0.85%float zero_traj_factor).
  replace 0%float with
    (fst (gate_tool (JStr T)
            (Z.to_nat (Z.min k (Z.of_nat (List.length (map tool_calls turns)))))
            (map tool_calls turns) v)); [exact H|].
  apply gate_tool_hits with (i := i).
  - eapply (score_value_lowered 0.85%float _ orbit_085 zero_traj_factor); eassumption.
  - rewrite length_map.
    assert (i < List.length turns) by (apply nth_error_Some; congruence).
    lia.
  - rewrite (turn_calls_nth _ _ _ Hnth). apply in_strs_In. exact Hcall.
Qed.

End ApprovalGate.

Lemma dict_get_default_found (d : obj) (k : string) (v dflt : json) :
  Py.dict_find k d = Some v -> Py.dict_get_default d k dflt = v.
Proof. intro H. unfold Py.dict_get_default. rewrite H. reflexivity. Qed.

Lemma dict_get_default_missing (d : obj) (k : string) (dflt : json) :
  Py.dict_find k d = None -> Py.dict_get_default d k dflt = dflt.
Proof. intro H. unfold Py.dict_get_default. rewrite H. reflexivity. Qed.

Lemma get_default_found (d : obj) (k : string) (v dflt : json) :
  Py.dict_find k d = Some v -> Py.get_default (JObj d) k dflt = Ok v.
Proof. intro H. unfold Py.get_default, Py.dict_get_default. rewrite H. reflexivity. Qed.

(** C1: with [approval_turn] = k and a tool T listed in
    [must_not_call_tools_before_approval], a returned grade has trajectory
    0.0 when T is among the tool calls of a turn of index below k; when T is
    called in no turn of index below k, the gate's loop for T leaves the
    bucket as it was, and so does the whole gate when T is the only tool
    listed. *)
Theorem approval_gate_zeroes_trajectory (B : builtins) (test : json) (e : obj)
        (turns : list TurnResult) (weights : json) (g : Grade.t)
        (approval_turn : json) (k : Z) (listed : list json) (T : string) :
  Py.get_default test "expect" (JObj []) = Ok (JObj e) ->
  Py.dict_find "approval_turn" e = Some approval_turn ->
  Num.int B approval_turn = Ok k ->
  Py.dict_find "must_not_call_tools_before_approval" e = Some (JList listed) ->
  In (JStr T) listed ->
  _grade_test B test turns weights = Ok g ->
  ((exists i tr, (Z.of_nat i < k)%Z /\ nth_error turns i = Some tr
                 /\ In T (tool_calls tr)) ->
   Scores.trajectory (Grade.scores g) = 0%float)
  /\ ((forall i tr, (Z.of_nat i < k)%Z -> nth_error turns i = Some tr ->
                    ~ In T (tool_calls tr)) ->
      forall st : bucket,
        gate_tool (JStr T)
                  (Z.to_nat (Z.min k (Z.of_nat (List.length (map tool_calls turns)))))
                  (map tool_calls turns) st = st
        /\ approval_gate_check B approval_turn (JList [JStr T])
                               (map tool_calls turns) st = Ok st).
Proof.
  intros Hexp Hat Hk Hlist HT Hg. split.
  - intros (i & tr & Hi & Hnth & Hcall).
    destruct (grade_inv _ _ _ _ _ Hg)
      as (expect & t & c & s & y & total & Hexp' & Ht & _ & _ & _ & _ & Hsc & _).
    rewrite Hexp in Hexp'. injection Hexp' as <-.
    rewrite Hsc. simpl.
    unfold trajectory_checks in Ht.
    inv_bind Ht. apply must_call_check_lowered in E.
    inv_bind Ht. apply must_not_call_check_lowered in E0.
    inv_bind Ht. apply should_call_check_lowered in E1.
    rewrite (dict_get_default_found _ _ _ _ Hat) in Ht.
    rewrite (dict_get_default_found _ _ _ _ Hlist) in Ht.
    inv_bind Ht.
    apply (must_call_after_check_lowered B 0.85%float) in Ht.
    assert (Hz : fst v2 = 0%float).
    { eapply approval_gate_check_hits; try eassumption.
      eapply (score_value_lowered 0.85%float _ orbit_085 zero_traj_factor);
        [apply score_value_one|].
      simpl in E. eauto using lowered_trans. }
    rewrite Hz in Ht.
    exact (lowered_from_zero 0.85%float zero_traj_factor _ Ht).
  - intros Hquiet st.
    assert (Hq : gate_tool (JStr T)
                   (Z.to_nat (Z.min k (Z.of_nat (List.length (map tool_calls turns)))))
                   (map tool_calls turns) st = st).
    { unfold gate_tool. apply gate_fold_quiet. intros i Hi.
      apply in_seq in Hi. rewrite length_map in Hi.
      destruct (nth_error turns i) as [tr|] eqn:Hnth.
      - rewrite (turn_calls_nth _ _ _ Hnth).
        destruct (Py.in_strs (JStr T) (tool_calls tr)) eqn:Hin; [|reflexivity].
        apply in_strs_In in Hin. exfalso.
        apply (Hquiet i tr); [lia | exact Hnth | exact Hin].
      - apply nth_error_None in Hnth. lia. }
    split; [exact Hq|].
    unfold approval_gate_check.
    replace (Py.is_none approval_turn) with false
      by (destruct approval_turn; try reflexivity; discriminate Hk).
    simpl. rewrite Hk. simpl. rewrite Hq. reflexivity.
Qed.

Lemma approval_gate_zeroes_trajectory_witness :
  exists g,
    _grade_test ref_builtins (scenario gate_expect) early_call_turns default_weights
      = Ok g
    /\ Scores.trajectory (Grade.scores g) = 0%float.
Proof.
  eexists. split.
  - vm_compute. reflexivity.
  - refine (proj1 (approval_gate_zeroes_trajectory
                     ref_builtins (scenario gate_expect) gate_expect
                     early_call_turns default_weights _
                     (JInt 1) 1%Z [JStr "create_ticket"] "create_ticket"
                     eq_refl eq_refl eq_refl eq_refl _ _) _).
    + left. reflexivity.
    + vm_compute. reflexivity.
    + exists 0, (turn_of "Ticket created." ["create_ticket"]).
      split; [lia|]. split; [reflexivity|]. left. reflexivity.
Defined.

(** ** C7: two missed recommended tools *)

Lemma no_constraint_get (e : obj) (k : string) :
  no_constraint e k -> Py.dict_get_default e k (JList []) = JList [].
Proof.
  intros [H | H].
  - apply dict_get_default_missing. exact H.
  - apply dict_get_default_found. exact H.
Qed.

Lemma not_in_strs (s : string) (l : list string) :
  ~ In s l -> Py.in_strs (JStr s) l = false.
Proof.
  intro H. destruct (Py.in_strs (JStr s) l) eqn:E; [|reflexivity].
  apply in_strs_In in E. contradiction.
Qed.

Lemma float_neq (x y : float) : Prim2SF x <> Prim2SF y -> x <> y.
Proof. intros H Heq. apply H. rewrite Heq. reflexivity. Qed.

(** C7, as stated, fails: in binary64 the product 1.0 * 0.85 * 0.85 is
    0.7224999999999999 (0x1.71eb851eb851ep-1), one unit in the last place
    below the float that 0.7225 denotes. *)
Lemma two_misses_not_07225 :
  exists g,
    _grade_test ref_builtins (scenario two_recommended) no_call_turns default_weights
      = Ok g
    /\ Scores.trajectory (Grade.scores g) <> 0.7225%float
    /\ PrimFloat.eqb (Scores.trajectory (Grade.scores g)) 0.7225%float = false.
Proof.
  eexists. split; [vm_compute; reflexivity|]. split.
  - apply float_neq. vm_compute. discriminate.
  - vm_compute. reflexivity.
Qed.

(** C7 (amended): when [should_call_tools] lists exactly two tool names,
    neither of which is called in any turn, and the other trajectory keys
    impose nothing, a returned grade has as trajectory the binary64 product
    (1.0 * 0.85) * 0.85, which is 0x1.71eb851eb851ep-1
    (0.7224999999999999) and not the float 0.7225. *)
Theorem two_missed_recommended_tools (B : builtins) (test : json) (e : obj)
        (turns : list TurnResult) (weights : json) (g : Grade.t) (a b : string) :
  Py.get_default test "expect" (JObj []) = Ok (JObj e) ->
  Py.dict_find "should_call_tools" e = Some (JList [JStr a; JStr b]) ->
  ~ In a (flat_map tool_calls turns) ->
  ~ In b (flat_map tool_calls turns) ->
  no_constraint e "must_call_tools" ->
  no_constraint e "must_not_call_tools" ->
  no_constraint e "must_not_call_tools_before_approval" ->
  no_constraint e "must_call_tools_after_approval" ->
  _grade_test B test turns weights = Ok g ->
  Scores.trajectory (Grade.scores g) = (1 * 0.85 * 0.85)%float
  /\ Scores.trajectory (Grade.scores g) = 0x1.71eb851eb851ep-1%float
  /\ Scores.trajectory (Grade.scores g) <> 0.7225%float.
Proof.
  intros Hexp Hshould Ha Hb N1 N2 N3 N4 Hg.
  destruct (grade_inv _ _ _ _ _ Hg)
    as (expect & t & c & s & y & total & Hexp' & Ht & _ & _ & _ & _ & Hsc & _).
  rewrite Hexp in Hexp'. injection Hexp' as <-.
  rewrite Hsc. simpl.
  assert (Htraj : fst t = (1 * 0.85 * 0.85)%float).
  { unfold trajectory_checks, must_call_check, must_not_call_check,
      should_call_check, approval_gate_check, must_call_after_check in Ht.
    simpl in Ht.
    rewrite (no_constraint_get _ _ N1), (no_constraint_get _ _ N2),
      (no_constraint_get _ _ N3), (no_constraint_get _ _ N4),
      (dict_get_default_found _ _ _ _ Hshould) in Ht.
    simpl in Ht.
    rewrite (not_in_strs _ _ Ha), (not_in_strs _ _ Hb) in Ht. simpl in Ht.
    rewrite !andb_false_r in Ht. simpl in Ht.
    injection Ht as <-. reflexivity. }
  rewrite Htraj. split; [reflexivity|]. split.
  - vm_compute. reflexivity.
  - apply float_neq. vm_compute. discriminate.
Qed.

Lemma two_missed_recommended_tools_witness :
  exists g,
    _grade_test ref_builtins (scenario two_recommended) no_call_turns default_weights
      = Ok g
    /\ Scores.trajectory (Grade.scores g) = (1 * 0.85 * 0.85)%float.
Proof.
  eexists. split.
  - vm_compute. reflexivity.
  - refine (proj1 (two_missed_recommended_tools
                     ref_builtins (scenario two_recommended) two_recommended
                     no_call_turns default_weights _ "kb_search" "create_ticket"
                     eq_refl eq_refl _ _ _ _ _ _ _)).
    + simpl. tauto.
    + simpl. tauto.
    + left. reflexivity.
    + left. reflexivity.
    + left. reflexivity.
    + left. reflexivity.
    + vm_compute. reflexivity.
Defined.

(** ** C4: the empty expectation *)

(** C4: a scenario whose expectation has no keys is graded, whatever the
    turns are, with trajectory = content = safety = style = 1.0 and, under
    the default weights, total = 1.0; no detail is reported. *)
Theorem empty_expectation_perfect_score (B : builtins) (test : json)
        (turns : list TurnResult) :
  Py.get_default test "expect" (JObj []) = Ok (JObj []) ->
  exists g,
    _grade_test B test turns default_weights = Ok g
    /\ Grade.scores g = {| Scores.trajectory := 1%float;
                           Scores.content := 1%float;
                           Scores.safety := 1%float;
                           Scores.style := 1%float;
                           Scores.total := 1%float |}
    /\ Grade.details g = [].
Proof.
  intro H. destruct test as [| | | | | |d]; try discriminate H.
  unfold _grade_test. rewrite H. simpl.
  eexists. split; [reflexivity|]. split; reflexivity.
Qed.

Lemma empty_expectation_perfect_score_witness :
  exists g,
    _grade_test ref_builtins (scenario []) early_call_turns default_weights = Ok g
    /\ Scores.total (Grade.scores g) = 1%float.
Proof.
  destruct (empty_expectation_perfect_score
              ref_builtins (scenario []) early_call_turns eq_refl)
    as (g & Hg & Hs & _).
  exists g. split; [exact Hg|]. rewrite Hs. reflexivity.
Defined.

(** ** C3 and C10: the structured scan and the fallback *)

Lemma append_name_app (v : json) (acc : list string) :
  append_name v acc = acc ++ append_name v [].
Proof.
  unfold append_name. destruct v; try (symmetry; apply app_nil_r).
  destruct (Py.dict_get d "name"); try (symmetry; apply app_nil_r).
  reflexivity.
Qed.

Lemma fallback_step_names (st : list string * list string) (d : obj) :
  fallback_step st d =
  (fst st ++ name_under "functionCall" d, snd st ++ name_under "functionResponse" d).
Proof.
  destruct st as [c r]. unfold fallback_step, name_under. simpl.
  f_equal.
  - destruct (Py.dict_mem "functionCall" d).
    + apply append_name_app.
    + symmetry. apply app_nil_r.
  - destruct (Py.dict_mem "functionResponse" d).
    + apply append_name_app.
    + symmetry. apply app_nil_r.
Qed.

Lemma fallback_fold_names (ds : list obj) :
  forall st,
    fold_left fallback_step ds st =
    (fst st ++ flat_map (name_under "functionCall") ds,
     snd st ++ flat_map (name_under "functionResponse") ds).
Proof.
  induction ds as [|d ds IH]; intro st.
  - simpl. rewrite !app_nil_r. destruct st; reflexivity.
  - simpl fold_left. rewrite IH, fallback_step_names. simpl.
    rewrite <- !app_assoc. reflexivity.
Qed.

Lemma fallback_scan_names (events : list json) (calls responses : list string) :
  fallback_scan events (calls, responses) =
  (calls ++ walked_names "functionCall" (JList events),
   responses ++ walked_names "functionResponse" (JList events)).
Proof. unfold fallback_scan. apply fallback_fold_names. Qed.

Lemma extract_after_scan (events : list json) (calls responses : list string) :
  structured_scan events ([], []) = Ok (calls, responses) ->
  _extract_function_calls_and_responses events =
  Ok (if is_nil calls || is_nil responses
      then (calls ++ walked_names "functionCall" (JList events),
            responses ++ walked_names "functionResponse" (JList events))
      else (calls, responses)).
Proof.
  intro H. unfold _extract_function_calls_and_responses. rewrite H. simpl.
  destruct (is_nil calls || is_nil responses).
  - rewrite fallback_scan_names. reflexivity.
  - reflexivity.
Qed.

(** C3: when the structured scan raises, so does the extractor; when it
    ends with the two lists [calls] and [responses], the extractor runs the
    unconstrained descent exactly when one of the two is empty, and then
    returns each list followed by what the descent collects for it;
    otherwise it returns the two lists of the structured scan as they are. *)
Theorem fallback_runs_iff_a_list_is_empty (events : list json) :
  match structured_scan events ([], []) with
  | Ok (calls, responses) =>
      _extract_function_calls_and_responses events =
      Ok (if is_nil calls || is_nil responses
          then (calls ++ walked_names "functionCall" (JList events),
                responses ++ walked_names "functionResponse" (JList events))
          else (calls, responses))
  | Raise e => _extract_function_calls_and_responses events = Raise e
  end.
Proof.
  destruct (structured_scan events ([], [])) as [[calls responses]|e] eqn:E.
  - apply extract_after_scan. exact E.
  - unfold _extract_function_calls_and_responses. rewrite E. reflexivity.
Qed.

Lemma occ_flat_map_le {A : Type} (n : string) (f g : A -> list string) (l : list A) :
  (forall x, In x l -> occurrences (f x) n <= occurrences (g x) n) ->
  occurrences (flat_map f l) n <= occurrences (flat_map g l) n.
Proof.
  induction l as [|a l IH]; intro H; simpl.
  - lia.
  - rewrite !count_occ_app.
    pose proof (H a (or_introl eq_refl)).
    assert (occurrences (flat_map f l) n <= occurrences (flat_map g l) n)
      by (apply IH; intros x Hx; apply H; right; exact Hx).
    lia.
Qed.

Lemma occ_flat_map_in {A : Type} (n : string) (f : A -> list string) (l : list A)
      (x : A) :
  In x l -> occurrences (f x) n <= occurrences (flat_map f l) n.
Proof.
  induction l as [|a l IH]; intro H; simpl.
  - destruct H.
  - rewrite count_occ_app. destruct H as [-> | H].
    + lia.
    + specialize (IH H). lia.
Qed.

Lemma walked_names_obj (key : string) (d : obj) :
  walked_names key (JObj d) =
  name_under key d ++ flat_map (fun kv => walked_names key (snd kv)) d.
Proof.
  unfold walked_names. simpl. f_equal.
  induction d as [|kv d IH]; simpl.
  - reflexivity.
  - rewrite flat_map_app, IH. reflexivity.
Qed.

Lemma walked_names_list (key : string) (l : list json) :
  walked_names key (JList l) = flat_map (walked_names key) l.
Proof.
  unfold walked_names. simpl.
  induction l as [|v l IH]; simpl.
  - reflexivity.
  - rewrite flat_map_app, IH. reflexivity.
Qed.

Lemma dict_find_In (k : string) (d : obj) (v : json) :
  Py.dict_find k d = Some v -> In (k, v) d.
Proof.
  induction d as [|[k' v'] d IH]; simpl; intro H.
  - discriminate H.
  - destruct (String.eqb k k') eqn:E.
    + apply String.eqb_eq in E. injection H as ->. subst k'. left. reflexivity.
    + right. apply IH. exact H.
Qed.

Lemma truthy_dict_get (d : obj) (k : string) :
  Py.truthy (Py.dict_get d k) = true ->
  Py.dict_find k d = Some (Py.dict_get d k).
Proof.
  unfold Py.dict_get, Py.dict_get_default.
  destruct (Py.dict_find k d) as [v|]; simpl; intro H.
  - reflexivity.
  - discriminate H.
Qed.

(** A value stored in a dict is walked when the dict is. *)
Lemma walked_names_member (key n : string) (d : obj) (k : string) (v : json) :
  Py.dict_find k d = Some v ->
  occurrences (walked_names key v) n <= occurrences (walked_names key (JObj d)) n.
Proof.
  intro H. apply dict_find_In in H.
  rewrite walked_names_obj, count_occ_app.
  pose proof (occ_flat_map_in n (fun kv => walked_names key (snd kv)) d (k, v) H).
  simpl in H0. lia.
Qed.

Lemma standard_names_walked (key n : string) (p : json) :
  occurrences (standard_names key p) n <= occurrences (walked_names key p) n.
Proof.
  destruct p as [| | | | | |d]; simpl; try lia.
  rewrite walked_names_obj, count_occ_app. unfold name_under, Py.dict_mem.
  destruct (Py.truthy (Py.dict_get d key)) eqn:E; simpl; [|lia].
  rewrite (truthy_dict_get _ _ E). lia.
Qed.

Lemma iter_standard_names (key n : string) (v : json) (ps : list json) :
  Py.iter v = Ok ps ->
  occurrences (flat_map (standard_names key) ps) n
  <= occurrences (walked_names key v) n.
Proof.
  destruct v; simpl; intro H; try discriminate H; injection H as <-.
  - assert (Hnone : forall cs, flat_map (standard_names key)
                       (map (fun c => JStr (String c EmptyString)) cs) = []).
    { induction cs as [|c cs IH]; simpl; [reflexivity | exact IH]. }
    rewrite Hnone. simpl. lia.
  - rewrite walked_names_list. apply occ_flat_map_le.
    intros p _. apply standard_names_walked.
  - assert (Hnone : forall kvs : obj, flat_map (standard_names key)
                       (map (fun kv => JStr (fst kv)) kvs) = []).
    { induction kvs as [|kv kvs IH]; simpl; [reflexivity | exact IH]. }
    rewrite Hnone. simpl. lia.
Qed.

(** The parts of an event lie inside the event: what the structured scan
    finds under a standard key, the descent finds too. *)
Lemma event_parts_walked (key n : string) (ev : json) (ps : list json) :
  event_parts ev = Ok ps ->
  occurrences (flat_map (standard_names key) ps) n
  <= occurrences (walked_names key ev) n.
Proof.
  unfold event_parts. destruct ev as [| | | | | |d]; simpl; try discriminate.
  unfold Py.or_.
  destruct (Py.truthy (Py.dict_get_default d "content" JNull)) eqn:Ec.
  - pose proof (truthy_dict_get d "content" Ec) as Hc.
    fold (Py.dict_get d "content") in *.
    destruct (Py.dict_get d "content") as [| | | | | |cd]; simpl; try discriminate.
    destruct (Py.truthy (Py.dict_get_default cd "parts" JNull)) eqn:Ep.
    + pose proof (truthy_dict_get cd "parts" Ep) as Hp.
      fold (Py.dict_get cd "parts") in *.
      intro H. apply (iter_standard_names key n) in H.
      pose proof (walked_names_member key n cd "parts" _ Hp).
      pose proof (walked_names_member key n d "content" _ Hc).
      lia.
    + simpl. intro H. injection H as <-. simpl. lia.
  - simpl. intro H. injection H as <-. simpl. lia.
Qed.

Lemma structured_names_walked (key n : string) (events : list json) :
  occurrences (structured_names key events) n
  <= occurrences (walked_names key (JList events)) n.
Proof.
  rewrite walked_names_list. unfold structured_names.
  apply occ_flat_map_le. intros ev _.
  destruct (event_parts ev) as [ps|e] eqn:E.
  - apply event_parts_walked. exact E.
  - simpl. lia.
Qed.

Lemma scan_part_inv (p : json) (c r c' r' : list string) :
  scan_part p (c, r) = Ok (c', r') ->
  exists d,
    p = JObj d
    /\ c' = c ++ append_name (Py.or_ (Py.dict_get d "functionCall")
                                     (Py.dict_get d "function_call")) []
    /\ r' = r ++ append_name (Py.or_ (Py.dict_get d "functionResponse")
                                     (Py.dict_get d "function_response")) [].
Proof.
  destruct p as [| | | | | |d]; simpl; try discriminate.
  intro H. injection H as <- <-. exists d.
  split; [reflexivity|]. split; apply append_name_app.
Qed.

Lemma standard_names_or (key n : string) (d : obj) (alt : json) :
  occurrences (standard_names key (JObj d)) n
  <= occurrences (append_name (Py.or_ (Py.dict_get d key) alt) []) n.
Proof.
  simpl. unfold Py.or_.
  destruct (Py.truthy (Py.dict_get d key)); [lia|].
  simpl. lia.
Qed.

Lemma occurrences_app (l1 l2 : list string) (n : string) :
  occurrences (l1 ++ l2) n = occurrences l1 n + occurrences l2 n.
Proof. apply count_occ_app. Qed.

#[local] Arguments scan_part : simpl never.
#[local] Arguments event_parts : simpl never.

Lemma scan_parts_count (n : string) (ps : list json) :
  forall c r c' r',
    scan_parts ps (c, r) = Ok (c', r') ->
    occurrences c n + occurrences (flat_map (standard_names "functionCall") ps) n
    <= occurrences c' n
    /\ occurrences r n
       + occurrences (flat_map (standard_names "functionResponse") ps) n
       <= occurrences r' n.
Proof.
  induction ps as [|p ps IH]; intros c r c' r' H; simpl in H.
  - injection H as <- <-. simpl. lia.
  - destruct (scan_part p (c, r)) as [[c1 r1]|e] eqn:E; simpl in H;
      [|discriminate H].
    apply scan_part_inv in E. destruct E as (d & -> & -> & ->).
    apply IH in H. destruct H as [Hc Hr].
    cbn [flat_map]. rewrite !occurrences_app in *.
    pose proof (standard_names_or "functionCall" n d
                  (Py.dict_get d "function_call")).
    pose proof (standard_names_or "functionResponse" n d
                  (Py.dict_get d "function_response")).
    lia.
Qed.

Lemma structured_scan_count (n : string) (events : list json) :
  forall c r c' r',
    structured_scan events (c, r) = Ok (c', r') ->
    occurrences c n + occurrences (structured_names "functionCall" events) n
    <= occurrences c' n
    /\ occurrences r n + occurrences (structured_names "functionResponse" events) n
       <= occurrences r' n.
Proof.
  induction events as [|ev events IH]; intros c r c' r' H; simpl in H.
  - injection H as <- <-. simpl. lia.
  - destruct (event_parts ev) as [ps|e] eqn:E; simpl in H; [|discriminate H].
    destruct (scan_parts ps (c, r)) as [[c1 r1]|e] eqn:E1; simpl in H;
      [|discriminate H].
    apply (scan_parts_count n) in E1. apply IH in H.
    unfold structured_names in *. cbn [flat_map]. rewrite E.
    rewrite !occurrences_app. lia.
Qed.

Lemma In_occurrences (l : list string) (n : string) :
  In n l -> 1 <= occurrences l n.
Proof. intro H. apply (count_occ_In string_dec) in H. lia. Qed.

(** C10: when the structured scan finds names of tool invocations under
    the key 'functionCall' and no name of a tool response, the fallback
    runs and appends to the calls as well: every such name occurs in the
    returned [tool_calls] at least twice as often as the structured scan
    found it, so at least twice.  The same holds with 'functionResponse'
    and the responses when the structured scan finds no call. *)
Theorem fallback_counts_twice (events : list json) (calls responses : list string)
        (n : string) :
  structured_scan events ([], []) = Ok (calls, responses) ->
  (responses = [] ->
   In n (structured_names "functionCall" events) ->
   exists calls' responses',
     _extract_function_calls_and_responses events = Ok (calls', responses')
     /\ 2 * occurrences (structured_names "functionCall" events) n
        <= occurrences calls' n
     /\ 2 <= occurrences calls' n)
  /\ (calls = [] ->
      In n (structured_names "functionResponse" events) ->
      exists calls' responses',
        _extract_function_calls_and_responses events = Ok (calls', responses')
        /\ 2 * occurrences (structured_names "functionResponse" events) n
           <= occurrences responses' n
        /\ 2 <= occurrences responses' n).
Proof.
  intro H.
  pose proof (extract_after_scan events calls responses H) as Hx.
  apply (structured_scan_count n) in H. destruct H as [Hc Hr].
  split; intros -> Hin; apply In_occurrences in Hin.
  - rewrite orb_true_r in Hx. eexists. eexists. split; [exact Hx|].
    rewrite occurrences_app.
    pose proof (structured_names_walked "functionCall" n events).
    lia.
  - simpl in Hx. eexists. eexists. split; [exact Hx|].
    rewrite occurrences_app.
    pose proof (structured_names_walked "functionResponse" n events).
    lia.
Qed.

Lemma fallback_counts_twice_witness :
  exists calls' responses',
    _extract_function_calls_and_responses lone_call_events = Ok (calls', responses')
    /\ 2 <= occurrences calls' "kb_search".
Proof.
  destruct (proj1 (fallback_counts_twice lone_call_events ["kb_search"] []
                     "kb_search" eq_refl) eq_refl (or_introl eq_refl))
    as (c & r & He & _ & H2).
  exists c, r. split; assumption.
Defined.

(** ** C6: the final assistant text *)

Lemma find_app {A : Type} (keep : A -> bool) (l1 l2 : list A) :
  find keep (l1 ++ l2) =
  match find keep l1 with
  | Some x => Some x
  | None => find keep l2
  end.
Proof.
  induction l1 as [|a l1 IH]; simpl.
  - reflexivity.
  - destruct (keep a); [reflexivity | exact IH].
Qed.

Lemma first_text_find (ps : list json) (r : option string) :
  first_text ps = Ok r -> find not_blank (flat_map text_of_part ps) = r.
Proof.
  induction ps as [|p ps IH]; simpl; intro H.
  - injection H as <-. reflexivity.
  - destruct p as [| | | | | |d]; simpl in H; try discriminate H.
    fold (Py.dict_get d "text") in H.
    rewrite find_app. unfold text_of_part at 1.
    destruct (Py.dict_get d "text") as [| | | |s| |]; simpl in *;
      try (apply IH; exact H).
    fold (not_blank s) in *. destruct (not_blank s).
    + injection H as <-. reflexivity.
    + apply IH. exact H.
Qed.

Lemma first_text_total (ps : list json) :
  forallb is_obj ps = true -> exists r, first_text ps = Ok r.
Proof.
  induction ps as [|p ps IH]; simpl; intro H.
  - exists None. reflexivity.
  - apply andb_prop in H. destruct H as [Hp Hps].
    destruct p as [| | | | | |d]; try discriminate Hp. simpl.
    destruct (IH Hps) as [r Hr].
    destruct (Py.dict_get_default d "text" JNull) as [| | | |s| |];
      try (exists r; exact Hr).
    destruct (Str.nonempty (Str.strip s)).
    + exists (Some s). reflexivity.
    + exists r. exact Hr.
Qed.

Lemma scan_text_first (evs : list json) (t : string) :
  scan_text evs = Ok t -> t = first_such not_blank (flat_map event_texts evs).
Proof.
  unfold first_such. revert t.
  induction evs as [|ev evs IH]; intros t H; simpl in H.
  - injection H as <-. reflexivity.
  - destruct (event_parts ev) as [ps|e] eqn:E; simpl in H; [|discriminate H].
    destruct (first_text ps) as [r|e] eqn:E1; simpl in H; [|discriminate H].
    apply first_text_find in E1.
    cbn [flat_map]. rewrite find_app. unfold event_texts at 1. rewrite E, E1.
    destruct r as [s|].
    + injection H as <-. reflexivity.
    + apply IH. exact H.
Qed.

Lemma scan_text_total (evs : list json) :
  forallb well_shaped evs = true -> exists t, scan_text evs = Ok t.
Proof.
  induction evs as [|ev evs IH]; simpl; intro H.
  - exists "". reflexivity.
  - apply andb_prop in H. destruct H as [Hev Hevs].
    unfold well_shaped in Hev.
    destruct (event_parts ev) as [ps|e]; [|discriminate Hev]. simpl.
    destruct (first_text_total ps Hev) as [r ->]. simpl.
    destruct r as [s|].
    + exists s. reflexivity.
    + apply IH. exact Hevs.
Qed.

Lemma forallb_rev {A : Type} (f : A -> bool) (l : list A) :
  forallb f l = true -> forallb f (rev l) = true.
Proof.
  rewrite !forallb_forall. intros H x Hx. apply H. apply in_rev. exact Hx.
Qed.

(** C6, as stated, fails: a text of white space only is not empty, yet the
    scan passes over it.  Here the last event carries two spaces and the
    event before it "hello": the code returns "hello", the first non-empty
    text in scan order is the two spaces. *)
Lemma blank_text_is_skipped :
  _last_assistant_text blank_last_events = Ok "hello"
  /\ first_nonempty_text blank_last_events = "  "
  /\ _last_assistant_text blank_last_events
     <> Ok (first_nonempty_text blank_last_events).
Proof.
  split; [reflexivity|]. split; [reflexivity|].
  vm_compute. discriminate.
Qed.

(** C6 (amended): the extracted assistant text is the first text part that
    is not blank (that has a character other than white space), met when
    the events are scanned in reverse order and the parts of each event in
    their own order, and the empty string when there is none: this is what
    the scan returns whenever it returns, and it does return when every
    event is well shaped.  In particular, when the third-to-last event
    carries such a text and the two later events carry none, that text is
    returned. *)
Theorem last_assistant_text_is_first_said (events : list json) :
  (forall t, _last_assistant_text events = Ok t -> t = first_text_said events)
  /\ (forallb well_shaped events = true ->
      _last_assistant_text events = Ok (first_text_said events))
  /\ (forall pre e3 e2 e1 s,
        events = pre ++ [e3; e2; e1] ->
        forallb well_shaped events = true ->
        find not_blank (event_texts e1) = None ->
        find not_blank (event_texts e2) = None ->
        find not_blank (event_texts e3) = Some s ->
        _last_assistant_text events = Ok s).
Proof.
  assert (H1 : forall t, _last_assistant_text events = Ok t ->
                         t = first_text_said events).
  { intros t H. apply scan_text_first in H. exact H. }
  assert (H2 : forallb well_shaped events = true ->
               _last_assistant_text events = Ok (first_text_said events)).
  { intro Hw. apply forallb_rev in Hw.
    destruct (scan_text_total _ Hw) as [t Ht].
    unfold _last_assistant_text. rewrite Ht. f_equal. apply H1. exact Ht. }
  split; [exact H1|]. split; [exact H2|].
  intros pre e3 e2 e1 s -> Hw He1 He2 He3.
  rewrite (H2 Hw). f_equal.
  unfold first_text_said, first_such, texts_in_scan_order.
  rewrite rev_app_distr. simpl.
  rewrite !find_app, He1, He2, He3. reflexivity.
Qed.

Lemma last_assistant_text_is_first_said_witness :
  _last_assistant_text text_then_tools_events = Ok "Please restart the client.".
Proof.
  exact (proj2 (proj2 (last_assistant_text_is_first_said text_then_tools_events))
           [] _ _ _ "Please restart the client."
           eq_refl eq_refl eq_refl eq_refl eq_refl).
Defined.

(** ** C2: a failure inside a scenario ends the run *)

Lemma io_bind_ok {A B : Type} (tr : list effect) (a : A) (k : A -> io B) :
  io_bind (tr, Ok a) k = (tr ++ trace (k a), outcome (k a)).
Proof. simpl. destruct (k a). reflexivity. Qed.

Lemma io_bind_assoc {A B C : Type} (c : io A) (k : A -> io B) (h : B -> io C) :
  io_bind (io_bind c k) h = io_bind c (fun a => io_bind (k a) h).
Proof.
  destruct c as [tr [a|e]]; [|reflexivity]. simpl.
  destruct (k a) as [tr1 [b|e]]; simpl.
  - destruct (h b) as [tr2 r]. rewrite app_assoc. reflexivity.
  - reflexivity.
Qed.

Lemma io_bind_ext {A B : Type} (c : io A) (k k' : A -> io B) :
  (forall a, k a = k' a) -> io_bind c k = io_bind c k'.
Proof.
  intro H. destruct c as [tr [a|e]]; [|reflexivity]. simpl. rewrite H.
  reflexivity.
Qed.

Lemma io_bind_lift_ok {A B : Type} (a : A) (k : A -> io B) :
  io_bind (lift (Ok a)) k = k a.
Proof. unfold lift. simpl. destruct (k a). reflexivity. Qed.

Section Runs.
Variable T : transport.
Variable B : builtins.

Lemma run_scenarios_app (w : json) (pre rest : list json) :
  forall i st,
    run_scenarios T B w i (pre ++ rest) st =
    (st' <~ run_scenarios T B w i pre st ;;
     run_scenarios T B w (i + List.length pre) rest st').
Proof.
  induction pre as [|t pre IH]; intros i st.
  - simpl. rewrite Nat.add_0_r. destruct (run_scenarios T B w i rest st).
    reflexivity.
  - cbn [app run_scenarios List.length]. rewrite !io_bind_assoc.
    apply io_bind_ext. intro g. rewrite !io_bind_assoc.
    apply io_bind_ext. intro p. rewrite IH.
    replace (i + S (List.length pre)) with (S i + List.length pre) by lia.
    reflexivity.
Qed.

Lemma run_scenarios_raise (w : json) (i : nat) (t : json) (rest : list json)
      (st : list Grade.t * nat) (e : exn) :
  outcome (run_scenario T B w i t) = Raise e ->
  run_scenarios T B w i (t :: rest) st = (trace (run_scenario T B w i t), Raise e).
Proof.
  intro H. cbn [run_scenarios].
  destruct (run_scenario T B w i t) as [tr r]. simpl in H. subst r.
  reflexivity.
Qed.

Lemma run_turns_app (i : nat) (l1 l2 : list json) :
  forall j acc,
    run_turns T i j (l1 ++ l2) acc =
    (acc1 <~ run_turns T i j l1 acc ;;
     run_turns T i (j + List.length l1) l2 acc1).
Proof.
  induction l1 as [|turn l1 IH]; intros j acc.
  - simpl. rewrite Nat.add_0_r. destruct (run_turns T i j l2 acc). reflexivity.
  - cbn [app run_turns List.length]. rewrite !io_bind_assoc.
    apply io_bind_ext. intro text. rewrite !io_bind_assoc.
    apply io_bind_ext. intro r. rewrite IH.
    replace (j + S (List.length l1)) with (S j + List.length l1) by lia.
    reflexivity.
Qed.

End Runs.

(** C2, as stated, fails: nothing in [main] catches an exception.  With two
    scenarios and a transport that refuses the first session only, the run
    posts that one request and raises; the second scenario, whose session
    would have been created, is never started, and no report is written. *)
Lemma refused_session_ends_run :
  main first_session_refused ref_builtins two_scenarios_spec
  = ([PostSession 0], Raise RequestException)
  /\ session_created first_session_refused 1 = true.
Proof. split; vm_compute; reflexivity. Qed.

(** C2 (amended): a transport failure in a scenario ends the whole run.  A
    refused session, or a failed remote call of a turn, makes the scenario
    raise right after that request; and when a scenario raises, [main]
    raises the same exception after the effects of the scenarios before it
    and of the failing one: that scenario receives no grade, no later
    scenario is started, and no summary or report is produced. *)
Theorem failure_in_scenario_aborts_run (T : transport) (B : builtins) :
  (forall w i t,
      session_created T i = false ->
      run_scenario T B w i t = ([PostSession i], Raise RequestException))
  /\ (forall w i t tpre turn trest tr1 acc text,
         session_created T i = true ->
         (tv <- Py.get_default t "turns" (JList []) ;; Py.iter tv)
         = Ok (tpre ++ turn :: trest) ->
         run_turns T i 0 tpre [] = (tr1, Ok acc) ->
         Py.subscript turn "user" = Ok text ->
         run_response T i (List.length tpre) text = None ->
         run_scenario T B w i t
         = (PostSession i :: tr1 ++ [PostRun i (List.length tpre) text],
            Raise RequestException))
  /\ (forall spec cfg pre t rest tr st e,
         load_spec spec = Ok cfg ->
         Py.iter (cfg_tests cfg) = Ok (pre ++ t :: rest) ->
         run_scenarios T B (cfg_weights cfg) 0 pre ([], 0) = (tr, Ok st) ->
         outcome (run_scenario T B (cfg_weights cfg) (List.length pre) t) = Raise e ->
         main T B spec
         = (tr ++ trace (run_scenario T B (cfg_weights cfg) (List.length pre) t),
            Raise e)).
Proof.
  split; [|split].
  - intros w i t H. unfold run_scenario, _create_session. simpl.
    rewrite H. reflexivity.
  - intros w i t tpre turn trest tr1 acc text Hs Hturns Hpre Huser Hresp.
    unfold run_scenario, _create_session. simpl. rewrite Hs. simpl.
    rewrite Hturns, run_turns_app, Hpre, io_bind_ok.
    cbn [run_turns plus]. unfold lift at 1. rewrite Huser, io_bind_ok.
    unfold _run_turn. simpl. rewrite Hresp. simpl. reflexivity.
  - intros spec cfg pre t rest tr st e Hload Hiter Hpre Hfail.
    unfold main. rewrite Hload, io_bind_lift_ok, Hiter, io_bind_lift_ok.
    rewrite run_scenarios_app, Hpre. simpl plus.
    rewrite io_bind_ok, (run_scenarios_raise T B _ _ _ _ _ _ Hfail).
    reflexivity.
Qed.

Lemma failure_in_scenario_aborts_run_witness :
  main first_session_refused ref_builtins two_scenarios_spec
  = ([PostSession 0], Raise RequestException).
Proof.
  pose proof (failure_in_scenario_aborts_run first_session_refused ref_builtins)
    as (Hsession & _ & Hmain).
  refine (Hmain two_scenarios_spec _ [] (JObj [("name", JStr "first")])
                [JObj [("name", JStr "second")]] [] ([], 0) RequestException
                eq_refl eq_refl eq_refl _).
  rewrite (Hsession _ 0 _ eq_refl). reflexivity.
Defined.

(** ** C5: where an invalid pattern surfaces *)

Lemma no_re_error_raise {A B : Type} (e : exn) :
  no_re_error (@Raise A e) -> no_re_error (@Raise B e).
Proof. intros H H'. apply H. injection H' as ->. reflexivity. Qed.

Lemma no_re_error_bind {A B : Type} (c : result A) (k : A -> result B) :
  no_re_error c -> (forall a, no_re_error (k a)) -> no_re_error (bind c k).
Proof.
  intros Hc Hk. destruct c as [a|e]; simpl.
  - apply Hk.
  - exact (no_re_error_raise e Hc).
Qed.

Lemma no_re_error_get (v : json) (k : string) (dflt : json) :
  no_re_error (Py.get_default v k dflt).
Proof. destruct v; discriminate. Qed.

Lemma no_re_error_iter (v : json) : no_re_error (Py.iter v).
Proof. destruct v; discriminate. Qed.

Lemma no_re_error_subscript (v : json) (k : string) :
  no_re_error (Py.subscript v k).
Proof.
  destruct v; try discriminate. simpl.
  destruct (Py.dict_find k d); discriminate.
Qed.

Lemma no_re_error_event_parts (ev : json) : no_re_error (event_parts ev).
Proof.
  unfold event_parts.
  apply no_re_error_bind; [apply no_re_error_get|]. intro c.
  apply no_re_error_bind; [apply no_re_error_get|]. intro ps.
  apply no_re_error_iter.
Qed.

Lemma no_re_error_first_text (ps : list json) : no_re_error (first_text ps).
Proof.
  induction ps as [|p ps IH]; simpl.
  - discriminate.
  - apply no_re_error_bind; [apply no_re_error_get|]. intro txt.
    destruct txt; try exact IH.
    destruct (Str.nonempty (Str.strip s)); [discriminate | exact IH].
Qed.

Lemma no_re_error_scan_text (evs : list json) : no_re_error (scan_text evs).
Proof.
  induction evs as [|ev evs IH]; simpl.
  - discriminate.
  - apply no_re_error_bind; [apply no_re_error_event_parts|]. intro ps.
    apply no_re_error_bind; [apply no_re_error_first_text|]. intros [s|].
    + discriminate.
    + exact IH.
Qed.

Lemma no_re_error_scan_parts (ps : list json) :
  forall st, no_re_error (scan_parts ps st).
Proof.
  induction ps as [|p ps IH]; intro st; simpl.
  - discriminate.
  - apply no_re_error_bind; [|intro st'; apply IH].
    destruct st as [c r]. unfold scan_part.
    repeat (apply no_re_error_bind; [apply no_re_error_get|]; intro).
    discriminate.
Qed.

Lemma no_re_error_structured_scan (events : list json) :
  forall st, no_re_error (structured_scan events st).
Proof.
  induction events as [|ev events IH]; intro st; simpl.
  - discriminate.
  - apply no_re_error_bind; [apply no_re_error_event_parts|]. intro ps.
    apply no_re_error_bind; [apply no_re_error_scan_parts|]. intro st'.
    apply IH.
Qed.

Lemma no_re_error_extract (events : list json) :
  no_re_error (_extract_function_calls_and_responses events).
Proof.
  unfold _extract_function_calls_and_responses.
  apply no_re_error_bind; [apply no_re_error_structured_scan|].
  intros [c r]. destruct (is_nil c || is_nil r); discriminate.
Qed.

Lemma no_re_error_load_spec (spec : json) : no_re_error (load_spec spec).
Proof.
  unfold load_spec.
  apply no_re_error_bind; [apply no_re_error_subscript|]. intro a.
  apply no_re_error_bind; [apply no_re_error_get|]. intro b.
  apply no_re_error_bind; [destruct b; discriminate|]. intro c.
  apply no_re_error_bind; [apply no_re_error_get|]. intro w.
  apply no_re_error_bind; [apply no_re_error_subscript|]. intro ts.
  apply no_re_error_bind; [apply no_re_error_get|]. intro rp.
  discriminate.
Qed.

Section TurnRequests.
Variable T : transport.

Lemma run_turn_shape (i j : nat) (text : json) :
  exists r,
    _run_turn T i j text = ([PostRun i j text], r)
    /\ no_re_error r
    /\ (forall tr, r = Ok tr -> user tr = text).
Proof.
  unfold _run_turn. simpl.
  destruct (run_response T i j text) as [events|].
  - eexists. split; [reflexivity|]. split.
    + apply no_re_error_bind;
        [unfold _last_assistant_text; apply no_re_error_scan_text|]. intro txt.
      apply no_re_error_bind; [apply no_re_error_extract|]. intro cr.
      discriminate.
    + intros tr H.
      destruct (_last_assistant_text events); simpl in H; [|discriminate H].
      destruct (_extract_function_calls_and_responses events); simpl in H;
        [|discriminate H].
      injection H as <-. reflexivity.
  - eexists. split; [reflexivity|]. split; [discriminate|]. discriminate.
Qed.

Lemma posts_of_cons (i j : nat) (tr : TurnResult) (trs : list TurnResult) :
  posts_of i j (tr :: trs) = PostRun i j (user tr) :: posts_of i (S j) trs.
Proof. reflexivity. Qed.

Lemma run_turns_result (i : nat) (turns : list json) :
  forall j acc tr r,
    run_turns T i j turns acc = (tr, r) ->
    no_re_error r
    /\ (forall res, r = Ok res ->
          exists new, res = acc ++ new
                      /\ List.length new = List.length turns
                      /\ tr = posts_of i j new).
Proof.
  induction turns as [|turn turns IH]; intros j acc tr r H.
  - simpl in H. injection H as <- <-. split; [discriminate|].
    intros res Hres. injection Hres as <-. exists [].
    rewrite app_nil_r. repeat split.
  - cbn [run_turns] in H.
    pose proof (no_re_error_subscript turn "user") as Hsub.
    destruct (Py.subscript turn "user") as [text|e].
    + rewrite io_bind_lift_ok in H.
      destruct (run_turn_shape i j text) as (r1 & Hrun & Hno & Huser).
      rewrite Hrun in H. destruct r1 as [t1|e].
      * rewrite io_bind_ok in H.
        destruct (run_turns T i (S j) turns (acc ++ [t1])) as [tr2 r2] eqn:E.
        simpl in H. injection H as <- <-.
        destruct (IH _ _ _ _ E) as [Hno2 Hok2]. split; [exact Hno2|].
        intros res Hres. destruct (Hok2 res Hres) as (new & -> & Hlen & ->).
        exists (t1 :: new). rewrite <- app_assoc. split; [reflexivity|].
        split; [simpl; lia|].
        rewrite posts_of_cons, (Huser t1 eq_refl). reflexivity.
      * simpl in H. injection H as <- <-.
        split; [exact (no_re_error_raise e Hno)|]. discriminate.
    + unfold lift in H. simpl in H. injection H as <- <-.
      split; [exact (no_re_error_raise e Hsub)|]. discriminate.
Qed.

End TurnRequests.

Lemma any_search_reaches_invalid (B : builtins) (text : string)
      (pre : list string) (p : string) (post : list json) :
  (forall q, In q pre -> re_search_ignorecase B q text = Some false) ->
  re_search_ignorecase B p text = None ->
  any_search B text (map JStr pre ++ JStr p :: post) = Raise ReError.
Proof.
  intros Hpre Hp. induction pre as [|q pre IH]; simpl.
  - rewrite Hp. reflexivity.
  - rewrite (Hpre q (or_introl eq_refl)). apply IH.
    intros q' Hq'. apply Hpre. right. exact Hq'.
Qed.

Lemma safety_check_reaches_invalid (B : builtins) (e : obj) (text : string)
      (pre : list string) (p : string) (post : list json) (st : bucket) :
  Py.dict_find "must_not_include_patterns" e
  = Some (JList (map JStr pre ++ JStr p :: post)) ->
  (forall q, In q pre -> re_search_ignorecase B q text = Some false) ->
  re_search_ignorecase B p text = None ->
  safety_check B (JObj e) text st = Raise ReError.
Proof.
  intros Hfind Hpre Hp. unfold safety_check.
  rewrite (get_default_found _ _ _ _ Hfind). simpl bind.
  unfold _match_any_regex. simpl Py.iter. simpl bind.
  rewrite (any_search_reaches_invalid B text pre p post Hpre Hp).
  destruct (map JStr pre ++ JStr p :: post) eqn:E.
  - destruct pre; discriminate E.
  - reflexivity.
Qed.

(** C5, as stated, fails: loading checks no pattern.  The scenario file
    with the unclosed group "(" as its disallowed pattern loads; the run
    creates the session, runs the turn, and only then, while grading,
    raises [re.error]. *)
Lemma invalid_pattern_raised_while_grading :
  is_ok (load_spec bad_pattern_spec) = true
  /\ main greeting_transport ref_builtins bad_pattern_spec
     = ([PostSession 0; PostRun 0 0 (JStr "hi")], Raise ReError)
  /\ _grade_test ref_builtins bad_pattern_scenario [turn_of "Hello." []]
                 default_weights
     = Raise ReError.
Proof. repeat split; vm_compute; reflexivity. Qed.

(** C5 (amended): an entry of [must_not_include_patterns] that is not a
    valid regular expression is not detected when the scenario file is
    loaded: loading never raises [re.error].  A scenario raises it only
    from grading, after its session was created and every one of its turns
    was run; and grading does raise it when the trajectory and content
    checks return and the search over the patterns reaches the invalid
    entry, that is, when no pattern before it matches the final text. *)
Theorem invalid_pattern_surfaces_in_grading (T : transport) (B : builtins) :
  (forall spec, load_spec spec <> Raise ReError)
  /\ (forall w i t,
         outcome (run_scenario T B w i t) = Raise ReError ->
         exists turns trs,
           (tv <- Py.get_default t "turns" (JList []) ;; Py.iter tv) = Ok turns
           /\ List.length trs = List.length turns
           /\ trace (run_scenario T B w i t) = PostSession i :: posts_of i 0 trs
           /\ _grade_test B t trs w = Raise ReError)
  /\ (forall test e turns w pre p post t c,
         Py.get_default test "expect" (JObj []) = Ok (JObj e) ->
         Py.dict_find "must_not_include_patterns" e
         = Some (JList (map JStr pre ++ JStr p :: post)) ->
         (forall q, In q pre ->
                    re_search_ignorecase B q (final_text_of turns) = Some false) ->
         re_search_ignorecase B p (final_text_of turns) = None ->
         trajectory_checks B (JObj e) turns (1%float, []) = Ok t ->
         content_checks B (JObj e) turns (1%float, snd t) = Ok c ->
         _grade_test B test turns w = Raise ReError).
Proof.
  split; [|split].
  - exact no_re_error_load_spec.
  - intros w i t H. unfold run_scenario, _create_session in *.
    destruct (session_created T i); simpl in H; [|discriminate H].
    destruct (tv <- Py.get_default t "turns" (JList []) ;; Py.iter tv)
      as [turns|e] eqn:Eturns.
    + simpl in *.
      destruct (run_turns T i 0 turns []) as [tr r] eqn:Erun.
      destruct (run_turns_result T i turns 0 [] tr r Erun) as [Hno Hok].
      destruct r as [trs|e]; simpl in *.
      * destruct (Hok trs eq_refl) as (new & Hnew & Hlen & ->).
        simpl in Hnew. subst new.
        exists turns, trs. rewrite app_nil_r. repeat split; assumption.
      * exfalso. apply Hno. injection H as ->. reflexivity.
    + simpl in H. exfalso.
      assert (Hno : no_re_error
                (tv <- Py.get_default t "turns" (JList []) ;; Py.iter tv)).
      { apply no_re_error_bind; [apply no_re_error_get|]. intro tv.
        apply no_re_error_iter. }
      apply Hno. rewrite Eturns. injection H as ->. reflexivity.
  - intros test e turns w pre p post t c Hexp Hfind Hpre Hp Ht Hc.
    unfold _grade_test. rewrite Hexp. simpl bind. rewrite Ht. simpl bind.
    rewrite Hc. simpl bind.
    rewrite (safety_check_reaches_invalid B e _ pre p post _ Hfind Hpre Hp).
    reflexivity.
Qed.

Lemma invalid_pattern_surfaces_in_grading_witness :
  _grade_test ref_builtins bad_pattern_scenario [turn_of "Hello." []]
              default_weights
  = Raise ReError.
Proof.
  refine (proj2 (proj2 (invalid_pattern_surfaces_in_grading
                          greeting_transport ref_builtins))
            bad_pattern_scenario
            [("must_not_include_patterns", JList [JStr "("])]
            [turn_of "Hello." []] default_weights [] "(" []
            (1%float, []) (1%float, [])
            eq_refl eq_refl _ eq_refl eq_refl eq_refl).
  intros q [].
Defined.

(** ** C9: grading returns on well-typed input *)

Lemma absent_or_list (p : json -> bool) (e : obj) (k : string) :
  absent_or (is_list_of p) e k = true ->
  exists l, Py.dict_get_default e k (JList []) = JList l /\ forallb p l = true.
Proof.
  unfold absent_or, Py.dict_get_default.
  destruct (Py.dict_find k e) as [v|]; intro H.
  - destruct v; try discriminate H. exists l. split; [reflexivity | exact H].
  - exists []. split; reflexivity.
Qed.

Lemma absent_or_turn_index (e : obj) :
  absent_or is_turn_index e "approval_turn" = true ->
  Py.dict_get_default e "approval_turn" JNull = JNull
  \/ exists k, Py.dict_get_default e "approval_turn" JNull = JInt k /\ (0 <= k)%Z.
Proof.
  unfold absent_or, Py.dict_get_default.
  destruct (Py.dict_find "approval_turn" e) as [v|]; intro H.
  - destruct v; try discriminate H. right. exists z. split; [reflexivity|].
    simpl in H. lia.
  - left. reflexivity.
Qed.

Lemma for_each_total {A S : Type} (body : A -> S -> result S) (l : list A) :
  (forall x s, In x l -> exists s', body x s = Ok s') ->
  forall s, exists s', for_each body l s = Ok s'.
Proof.
  induction l as [|x l IH]; intros Hbody s; simpl.
  - exists s. reflexivity.
  - destruct (Hbody x s (or_introl eq_refl)) as [s1 ->]. simpl.
    apply IH. intros y s2 Hy. apply Hbody. right. exact Hy.
Qed.

Lemma check_each_r_total (bad : json -> result bool) (factor : float)
      (d : json -> detail) (items : list json) (st : bucket) :
  (forall x, In x items -> exists b, bad x = Ok b) ->
  exists st', check_each_r bad factor d items st = Ok st'.
Proof.
  intro Hbad. unfold check_each_r. apply for_each_total.
  intros x s Hx. destruct (Hbad x Hx) as [b ->]. simpl. eexists. reflexivity.
Qed.

Lemma any_lower_in_total (low : string) (kws : list json) :
  forallb is_str kws = true -> exists b, any_lower_in low kws = Ok b.
Proof.
  induction kws as [|kw kws IH]; simpl; intro H.
  - exists false. reflexivity.
  - apply andb_prop in H. destruct H as [Hkw Hkws].
    destruct kw; try discriminate Hkw.
    destruct (Str.contains (Str.lower s) low).
    + exists true. reflexivity.
    + apply IH. exact Hkws.
Qed.

Lemma lacks_total (text : string) (group : json) :
  is_list_of is_str group = true -> exists b, lacks text group = Ok b.
Proof.
  destruct group; try discriminate. simpl. intro H.
  unfold lacks, _contains_any. simpl.
  destruct (any_lower_in_total (Str.lower text) l H) as [b ->]. simpl.
  eexists. reflexivity.
Qed.

Lemma groups_check_total (text : string) (factor : float) (d : json -> detail)
      (groups : list json) (st : bucket) :
  forallb (is_list_of is_str) groups = true ->
  exists st', check_each_r (lacks text) factor d groups st = Ok st'.
Proof.
  intro H. apply check_each_r_total. intros g Hg.
  apply lacks_total. rewrite forallb_forall in H. apply H. exact Hg.
Qed.

Lemma index_in_range {A : Type} (l : list A) (i : Z) :
  (0 <= i < Z.of_nat (List.length l))%Z -> exists x, index l i = Ok x.
Proof.
  intro H. unfold index.
  replace (i <? 0)%Z with false by (symmetry; apply Z.ltb_ge; lia).
  replace (i <? 0)%Z with false by (symmetry; apply Z.ltb_ge; lia).
  destruct (nth_error l (Z.to_nat i)) as [x|] eqn:E.
  - exists x. reflexivity.
  - apply nth_error_None in E. lia.
Qed.

Lemma index_last {A : Type} (l : list A) :
  l <> [] -> exists x, index l (-1) = Ok x.
Proof.
  intro H. unfold index. change (-1 <? 0)%Z with true. cbv iota.
  destruct l as [|a l]; [contradiction|].
  replace (Z.of_nat (List.length (a :: l)) + -1 <? 0)%Z with false
    by (symmetry; apply Z.ltb_ge; simpl List.length; lia).
  destruct (nth_error (a :: l) (Z.to_nat (Z.of_nat (List.length (a :: l)) + -1)))
    as [x|] eqn:E.
  - exists x. reflexivity.
  - apply nth_error_None in E. simpl List.length in E. lia.
Qed.

Lemma after_calls_of_total (k : Z) (cbt : list (list string)) :
  (0 <= k)%Z -> exists cs, after_calls_of k cbt = Ok cs.
Proof.
  intro Hk. unfold after_calls_of. apply for_each_total.
  intros i acc Hi. unfold range in Hi. apply in_map_iff in Hi.
  destruct Hi as (j & <- & Hj). apply in_seq in Hj.
  destruct (index_in_range cbt (k + Z.of_nat j)) as [cs ->]; [lia|].
  simpl. eexists. reflexivity.
Qed.

Section Totality.
Variable B : builtins.
Variable e : obj.

Lemma must_call_check_total (calls : list string) (st : bucket) :
  absent_or (is_list_of is_str) e "must_call_tools" = true ->
  exists st', must_call_check (JObj e) calls st = Ok st'.
Proof.
  intro H. destruct (absent_or_list _ _ _ H) as (l & Hl & _).
  unfold must_call_check. simpl. rewrite Hl. simpl. eexists. reflexivity.
Qed.

Lemma must_not_call_check_total (calls : list string) (st : bucket) :
  absent_or (is_list_of is_str) e "must_not_call_tools" = true ->
  exists st', must_not_call_check (JObj e) calls st = Ok st'.
Proof.
  intro H. destruct (absent_or_list _ _ _ H) as (l & Hl & _).
  unfold must_not_call_check. simpl. rewrite Hl. simpl. eexists. reflexivity.
Qed.

Lemma should_call_check_total (calls : list string) (st : bucket) :
  absent_or (is_list_of is_str) e "should_call_tools" = true ->
  exists st', should_call_check (JObj e) calls st = Ok st'.
Proof.
  intro H. destruct (absent_or_list _ _ _ H) as (l & Hl & _).
  unfold should_call_check. simpl. rewrite Hl. simpl. eexists. reflexivity.
Qed.

Lemma approval_gate_check_total (approval_turn : json) (l : list json)
      (cbt : list (list string)) (st : bucket) :
  approval_turn = JNull \/ (exists k, approval_turn = JInt k /\ (0 <= k)%Z) ->
  exists st', approval_gate_check B approval_turn (JList l) cbt st = Ok st'.
Proof.
  intros [-> | (k & -> & _)]; unfold approval_gate_check.
  - simpl. eexists. reflexivity.
  - destruct (negb (Py.is_none (JInt k)) && Py.truthy (JList l)).
    + simpl. apply for_each_total. intros t s _. simpl. eexists. reflexivity.
    + eexists. reflexivity.
Qed.

Lemma must_call_after_check_total (approval_turn : json) (l : list json)
      (cbt : list (list string)) (st : bucket) :
  approval_turn = JNull \/ (exists k, approval_turn = JInt k /\ (0 <= k)%Z) ->
  exists st', must_call_after_check B approval_turn (JList l) cbt st = Ok st'.
Proof.
  intros [-> | (k & -> & Hk)]; unfold must_call_after_check.
  - simpl. eexists. reflexivity.
  - destruct (negb (Py.is_none (JInt k)) && Py.truthy (JList l)).
    + simpl. destruct (after_calls_of_total k cbt Hk) as [cs ->]. simpl.
      eexists. reflexivity.
    + eexists. reflexivity.
Qed.

Lemma trajectory_checks_total (turns : list TurnResult) (st : bucket) :
  forallb (absent_or (is_list_of is_str) e)
          ["must_call_tools"; "must_not_call_tools"; "should_call_tools";
           "must_not_call_tools_before_approval"; "must_call_tools_after_approval"]
  = true ->
  absent_or is_turn_index e "approval_turn" = true ->
  exists st', trajectory_checks B (JObj e) turns st = Ok st'.
Proof.
  intros Htools Hat. cbn [forallb] in Htools.
  apply andb_prop in Htools. destruct Htools as [H1 Htools].
  apply andb_prop in Htools. destruct Htools as [H2 Htools].
  apply andb_prop in Htools. destruct Htools as [H3 Htools].
  apply andb_prop in Htools. destruct Htools as [H4 Htools].
  apply andb_prop in Htools. destruct Htools as [H5 _].
  apply absent_or_turn_index in Hat.
  destruct (absent_or_list _ _ _ H4) as (l4 & Hl4 & _).
  destruct (absent_or_list _ _ _ H5) as (l5 & Hl5 & _).
  unfold trajectory_checks.
  destruct (must_call_check_total (flat_map tool_calls turns) st H1) as [s1 ->].
  cbn [bind].
  destruct (must_not_call_check_total (flat_map tool_calls turns) s1 H2) as [s2 ->].
  cbn [bind].
  destruct (should_call_check_total (flat_map tool_calls turns) s2 H3) as [s3 ->].
  cbn [bind Py.get_default]. rewrite Hl4, Hl5.
  destruct (approval_gate_check_total _ l4 (map tool_calls turns) s3 Hat)
    as [s4 ->].
  cbn [bind].
  apply must_call_after_check_total. exact Hat.
Qed.

Lemma must_include_check_total (text : string) (st : bucket) :
  absent_or (is_list_of (is_list_of is_str)) e "must_include_any" = true ->
  exists st', must_include_check (JObj e) text st = Ok st'.
Proof.
  intro H. destruct (absent_or_list _ _ _ H) as (l & Hl & Hgroups).
  unfold must_include_check. simpl. rewrite Hl. simpl.
  apply groups_check_total. exact Hgroups.
Qed.

Lemma should_include_check_total (text : string) (st : bucket) :
  absent_or (is_list_of (is_list_of is_str)) e "should_include_any" = true ->
  exists st', should_include_check (JObj e) text st = Ok st'.
Proof.
  intro H. destruct (absent_or_list _ _ _ H) as (l & Hl & Hgroups).
  unfold should_include_check. simpl. rewrite Hl. simpl.
  apply groups_check_total. exact Hgroups.
Qed.

Lemma include_after_check_total (turns : list TurnResult) (st : bucket) :
  absent_or is_turn_index e "approval_turn" = true ->
  absent_or (is_list_of (is_list_of is_str)) e "must_include_any_after_approval"
  = true ->
  exists st', include_after_check B (JObj e) turns st = Ok st'.
Proof.
  intros Hat H. apply absent_or_turn_index in Hat.
  destruct (absent_or_list _ _ _ H) as (l & Hl & Hgroups).
  unfold include_after_check. cbn [bind Py.get_default]. rewrite Hl.
  destruct Hat as [-> | (k & -> & Hk)].
  - simpl. eexists. reflexivity.
  - destruct (negb (Py.is_none (JInt k)) && Py.truthy (JList l));
      [|eexists; reflexivity].
    cbn [bind Num.int].
    destruct (k <? Z.of_nat (List.length turns))%Z eqn:Ek;
      [|eexists; reflexivity].
    apply Z.ltb_lt in Ek.
    destruct (index_last turns) as [tr ->].
    { intros ->. simpl in Ek. lia. }
    cbn [bind Py.iter]. apply groups_check_total. exact Hgroups.
Qed.

Lemma questions_check_total (key : string) (factor : float)
      (d : json -> nat -> detail) (text : string) (st : bucket) :
  absent_or is_question_rule e key = true ->
  exists st', questions_check B key factor d (JObj e) text st = Ok st'.
Proof.
  unfold absent_or, questions_check. cbn [bind Py.get_default].
  unfold Py.dict_get_default.
  destruct (Py.dict_find key e) as [q|]; intro H.
  - destruct q as [| | | | | |qd]; try discriminate H.
    destruct (Py.truthy (JObj qd)); [|eexists; reflexivity].
    simpl in H. unfold absent_or in H.
    cbn [bind Py.get_default]. unfold Py.dict_get_default.
    destruct (Py.dict_find "min_questions" qd) as [m|].
    + destruct m; try discriminate H. cbn [bind Num.int].
      destruct (Z.of_nat (_count_questions text) <? z)%Z; eexists; reflexivity.
    + cbn [bind Num.int].
      destruct (Z.of_nat (_count_questions text) <? 1)%Z; eexists; reflexivity.
  - simpl. eexists. reflexivity.
Qed.

Lemma content_checks_total (turns : list TurnResult) (st : bucket) :
  absent_or is_turn_index e "approval_turn" = true ->
  forallb (absent_or (is_list_of (is_list_of is_str)) e)
          ["must_include_any"; "should_include_any";
           "must_include_any_after_approval"] = true ->
  forallb (absent_or is_question_rule e)
          ["must_ask_questions"; "should_ask_questions"] = true ->
  exists st', content_checks B (JObj e) turns st = Ok st'.
Proof.
  intros Hat Hg Hq. cbn [forallb] in Hg, Hq.
  apply andb_prop in Hg. destruct Hg as [G1 Hg].
  apply andb_prop in Hg. destruct Hg as [G2 Hg].
  apply andb_prop in Hg. destruct Hg as [G3 _].
  apply andb_prop in Hq. destruct Hq as [Q1 Hq].
  apply andb_prop in Hq. destruct Hq as [Q2 _].
  unfold content_checks.
  destruct (must_include_check_total (final_text_of turns) st G1) as [s1 ->].
  cbn [bind].
  destruct (should_include_check_total (final_text_of turns) s1 G2) as [s2 ->].
  cbn [bind].
  destruct (include_after_check_total turns s2 Hat G3) as [s3 ->].
  cbn [bind].
  destruct (questions_check_total "must_ask_questions" 0%float TooFewQuestions
              (final_text_of turns) s3 Q1) as [s4 ->].
  cbn [bind].
  apply questions_check_total. exact Q2.
Qed.

Lemma any_search_total (text : string) (ps : list json) :
  forallb (compiles B text) ps = true -> exists b, any_search B text ps = Ok b.
Proof.
  induction ps as [|p ps IH]; simpl; intro H.
  - exists false. reflexivity.
  - apply andb_prop in H. destruct H as [Hp Hps].
    destruct p; try discriminate Hp. simpl in Hp.
    destruct (re_search_ignorecase B s text) as [[|]|]; try discriminate Hp.
    + exists true. reflexivity.
    + apply IH. exact Hps.
Qed.

Lemma safety_check_total (text : string) (st : bucket) :
  absent_or (is_list_of (compiles B text)) e "must_not_include_patterns" = true ->
  exists st', safety_check B (JObj e) text st = Ok st'.
Proof.
  intro H. destruct (absent_or_list _ _ _ H) as (l & Hl & Hps).
  unfold safety_check. cbn [bind Py.get_default]. rewrite Hl.
  destruct (Py.truthy (JList l)); [|eexists; reflexivity].
  unfold _match_any_regex. cbn [bind Py.iter].
  destruct (any_search_total text l Hps) as [b ->]. cbn [bind].
  eexists. reflexivity.
Qed.

Lemma style_check_total (text : string) (st : bucket) :
  absent_or is_obj e "style" = true ->
  exists st', style_check (JObj e) text st = Ok st'.
Proof.
  unfold absent_or, style_check, Py.get. cbn [bind Py.get_default].
  unfold Py.dict_get_default.
  destruct (Py.dict_find "style" e) as [s|]; intro H.
  - destruct s as [| | | | | |sd]; try discriminate H.
    unfold Py.or_. destruct (Py.truthy (JObj sd)); simpl; eexists; reflexivity.
  - simpl. eexists. reflexivity.
Qed.

End Totality.

Lemma weight_total (B : builtins) (d : obj) (key : string) (dflt : float) :
  absent_or is_float d key = true ->
  exists w, weight B (JObj d) key dflt = Ok w.
Proof.
  unfold absent_or, weight. cbn [bind Py.get_default].
  unfold Py.dict_get_default.
  destruct (Py.dict_find key d) as [v|]; intro H.
  - destruct v; try discriminate H. simpl. eexists. reflexivity.
  - simpl. eexists. reflexivity.
Qed.

Lemma weighted_total_total (B : builtins) (weights : json) (t c s y : float) :
  well_typed_weights weights = true ->
  exists total, weighted_total B weights t c s y = Ok total.
Proof.
  destruct weights as [| | | | | |d]; try discriminate. simpl. intro H.
  apply andb_prop in H. destruct H as [H1 H].
  apply andb_prop in H. destruct H as [H2 H].
  apply andb_prop in H. destruct H as [H3 H].
  apply andb_prop in H. destruct H as [H4 _].
  unfold weighted_total.
  destruct (weight_total B d "trajectory" 0.4%float H1) as [w1 ->]. cbn [bind].
  destruct (weight_total B d "content" 0.4%float H2) as [w2 ->]. cbn [bind].
  destruct (weight_total B d "safety" 0.1%float H3) as [w3 ->]. cbn [bind].
  destruct (weight_total B d "style" 0.1%float H4) as [w4 ->]. cbn [bind].
  eexists. reflexivity.
Qed.

(** Grading returns for every transcript when the expectation and the
    weights are well typed. *)
Lemma grade_total (B : builtins) (t e : obj) (turns : list TurnResult)
      (weights : json) :
  Py.dict_get_default t "expect" (JObj []) = JObj e ->
  well_typed_expectation B (final_text_of turns) e = true ->
  well_typed_weights weights = true ->
  exists g, _grade_test B (JObj t) turns weights = Ok g.
Proof.
  intros Hexp Hwt Hw. unfold well_typed_expectation in Hwt.
  apply andb_prop in Hwt. destruct Hwt as [Hwt Hstyle].
  apply andb_prop in Hwt. destruct Hwt as [Hwt Hpat].
  apply andb_prop in Hwt. destruct Hwt as [Hwt Hq].
  apply andb_prop in Hwt. destruct Hwt as [Hwt Hg].
  apply andb_prop in Hwt. destruct Hwt as [Htools Hat].
  unfold _grade_test. cbn [bind Py.get_default]. rewrite Hexp.
  destruct (trajectory_checks_total B e turns (1%float, []) Htools Hat) as [s1 ->].
  cbn [bind].
  destruct (content_checks_total B e turns (1%float, snd s1) Hat Hg Hq) as [s2 ->].
  cbn [bind].
  destruct (safety_check_total B e (final_text_of turns) (1%float, snd s2) Hpat)
    as [s3 ->].
  cbn [bind].
  destruct (style_check_total e (final_text_of turns) (1%float, snd s3) Hstyle)
    as [s4 ->].
  cbn [bind].
  destruct (weighted_total_total B weights (fst s1) (fst s2) (fst s3) (fst s4) Hw)
    as [total ->].
  cbn [bind Py.get Py.get_default]. eexists. reflexivity.
Qed.

(** ** C9: grading an empty list of turns *)

Lemma check_each_hits (bad : json -> bool) (d : json -> detail)
      (items : list json) (x : json) (st : bucket) :
  score_value 0.85%float (fst st) ->
  In x items -> bad x = true ->
  fst (check_each bad 0%float d items st) = 0%float.
Proof.
  intros Hv Hin Hbad. apply in_split in Hin. destruct Hin as (l1 & l2 & ->).
  rewrite check_each_app, check_each_cons, Hbad.
  apply (lowered_from_zero 0.85%float zero_traj_factor).
  eapply lowered_trans; [|apply check_each_lowered; left; reflexivity].
  rewrite penalise_fst.
  rewrite (score_value_mul_zero 0.85%float _ orbit_085 zero_traj_factor).
  - apply lowered_refl.
  - eapply (score_value_lowered 0.85%float _ orbit_085 zero_traj_factor);
      [exact Hv | apply check_each_lowered; left; reflexivity].
Qed.

Lemma check_each_r_hits (bad : json -> result bool) (d : json -> detail)
      (items : list json) (x : json) (st st' : bucket) :
  score_value 0.9%float (fst st) ->
  In x items -> (forall b, bad x = Ok b -> b = true) ->
  check_each_r bad 0%float d items st = Ok st' ->
  fst st' = 0%float.
Proof.
  intros Hv Hin Hbad H. apply in_split in Hin. destruct Hin as (l1 & l2 & ->).
  unfold check_each_r in H. rewrite for_each_app in H.
  destruct (for_each
              (fun x st => b <- bad x ;;
                           Ok (if b then penalise 0%float (d x) st else st))
              l1 st) as [s1|] eqn:E1; simpl in H; [|discriminate H].
  destruct (bad x) as [b|] eqn:Eb; simpl in H; [|discriminate H].
  rewrite (Hbad b eq_refl) in H.
  apply (check_each_r_lowered 0.9%float bad 0%float d l1
           (or_introl eq_refl)) in E1.
  apply (check_each_r_lowered 0.9%float bad 0%float d l2
           (or_introl eq_refl)) in H.
  apply (lowered_from_zero 0.9%float zero_soft_factor).
  rewrite penalise_fst in H.
  rewrite (score_value_mul_zero 0.9%float _ orbit_09 zero_soft_factor) in H;
    [exact H|].
  eapply (score_value_lowered 0.9%float _ orbit_09 zero_soft_factor);
    [exact Hv | exact E1].
Qed.

Lemma any_lower_in_empty_text (kws : list json) (b : bool) :
  any_lower_in "" kws = Ok b -> ~ In (JStr "") kws -> b = false.
Proof.
  induction kws as [|kw kws IH]; simpl; intros H Hno.
  - injection H as <-. reflexivity.
  - destruct kw; try discriminate H.
    destruct s as [|c s'].
    + exfalso. apply Hno. left. reflexivity.
    + simpl in H. apply IH; [exact H|]. intro Hin. apply Hno. right. exact Hin.
Qed.

Lemma lacks_empty_text (kws : list json) (b : bool) :
  ~ In (JStr "") kws -> lacks "" (JList kws) = Ok b -> b = true.
Proof.
  intros Hno H. unfold lacks, _contains_any in H. simpl in H.
  inv_bind H. injection H as <-.
  rewrite (any_lower_in_empty_text kws v E Hno). reflexivity.
Qed.

Lemma Ok_inj {A : Type} (a b : A) : Ok a = Ok b -> a = b.
Proof. intro H. congruence. Qed.

Lemma must_call_check_no_calls (e : obj) (tool : json) (rest : list json)
      (st s : bucket) :
  Py.dict_find "must_call_tools" e = Some (JList (tool :: rest)) ->
  score_value 0.85%float (fst st) ->
  must_call_check (JObj e) [] st = Ok s ->
  fst s = 0%float.
Proof.
  intros Hfind Hv H. unfold must_call_check in H.
  rewrite (get_default_found _ _ _ _ Hfind) in H.
  unfold bind, Py.iter in H. apply Ok_inj in H. rewrite <- H.
  apply (check_each_hits _ _ (tool :: rest) tool st).
  - exact Hv.
  - left. reflexivity.
  - reflexivity.
Qed.

Lemma must_include_check_empty_text (e : obj) (groups kws : list json)
      (st s : bucket) :
  Py.dict_find "must_include_any" e = Some (JList groups) ->
  In (JList kws) groups ->
  ~ In (JStr "") kws ->
  score_value 0.9%float (fst st) ->
  must_include_check (JObj e) "" st = Ok s ->
  fst s = 0%float.
Proof.
  intros Hfind Hin Hno Hv H. unfold must_include_check in H.
  rewrite (get_default_found _ _ _ _ Hfind) in H.
  unfold bind, Py.iter in H.
  eapply check_each_r_hits; [exact Hv | exact Hin | | exact H].
  intros b Hb. exact (lacks_empty_text kws b Hno Hb).
Qed.

(** C9, as stated, fails on both counts.  Grading an empty list of turns
    can raise: with a negative approval turn the check of
    [must_include_any_after_approval] reads [turns[-1]] of the empty list,
    and an invalid pattern raises here as for any other transcript.  And a
    keyword group is satisfied by the empty final text when it contains the
    empty keyword, which is a substring of every string: content stays
    1.0. *)
Lemma empty_turns_raise_or_pass :
  _grade_test ref_builtins (scenario negative_approval_expect) [] default_weights
  = Raise IndexError
  /\ _grade_test ref_builtins bad_pattern_scenario [] default_weights
     = Raise ReError
  /\ exists g,
       _grade_test ref_builtins (scenario blank_keyword_expect) [] default_weights
       = Ok g
       /\ Scores.content (Grade.scores g) = 1%float.
Proof.
  split; [vm_compute; reflexivity|]. split; [vm_compute; reflexivity|].
  eexists. split; vm_compute; reflexivity.
Qed.

(** C9 (amended): for every well-typed expectation (present keys of the
    documented types, the approval turn not negative, the patterns accepted
    by [re.search]) and well-typed weights, grading an empty list of turns
    returns, with [final_text] the empty string and the concatenated
    tool-call list empty; any entry of [must_call_tools] then zeroes the
    trajectory, and any group of [must_include_any] that does not contain
    the empty keyword zeroes content. *)
Theorem grading_no_turns (B : builtins) (t e : obj) (weights : json) :
  Py.dict_get_default t "expect" (JObj []) = JObj e ->
  well_typed_expectation B "" e = true ->
  well_typed_weights weights = true ->
  exists g,
    _grade_test B (JObj t) [] weights = Ok g
    /\ Grade.final_text g = ""
    /\ Grade.tool_calls g = []
    /\ (forall tool rest,
          Py.dict_find "must_call_tools" e = Some (JList (tool :: rest)) ->
          Scores.trajectory (Grade.scores g) = 0%float)
    /\ (forall groups kws,
          Py.dict_find "must_include_any" e = Some (JList groups) ->
          In (JList kws) groups ->
          ~ In (JStr "") kws ->
          Scores.content (Grade.scores g) = 0%float).
Proof.
  intros Hexp Hwt Hw.
  destruct (grade_total B t e [] weights Hexp Hwt Hw) as [g Hg].
  exists g. split; [exact Hg|].
  destruct (grade_inv _ _ _ _ _ Hg)
    as (expect & tb & cb & sb & yb & total & Hexp' & Ht & Hc & _ & _ & _
        & Hsc & _ & Hft & Htc).
  simpl in Hexp'. rewrite Hexp in Hexp'. injection Hexp' as <-.
  split; [exact Hft|]. split; [exact Htc|]. rewrite Hsc. simpl. split.
  - intros tool rest Hfind.
    unfold trajectory_checks in Ht. inv_bind Ht.
    assert (Hz : fst v = 0%float).
    { eapply must_call_check_no_calls; [exact Hfind | | exact E].
      apply score_value_one. }
    assert (Hl : lowered 0.85%float (fst v) (fst tb)).
    { inv_bind Ht. apply must_not_call_check_lowered in E0.
      inv_bind Ht. apply should_call_check_lowered in E1.
      inv_bind Ht. apply (approval_gate_check_lowered B 0.85%float) in E2.
      apply (must_call_after_check_lowered B 0.85%float) in Ht.
      eauto using lowered_trans. }
    rewrite Hz in Hl.
    exact (lowered_from_zero 0.85%float zero_traj_factor _ Hl).
  - intros groups kws Hfind Hin Hno.
    unfold content_checks in Hc. inv_bind Hc.
    assert (Hz : fst v = 0%float).
    { eapply must_include_check_empty_text;
        [exact Hfind | exact Hin | exact Hno | | exact E].
      apply score_value_one. }
    assert (Hl : lowered 0.9%float (fst v) (fst cb)).
    { inv_bind Hc. apply should_include_check_lowered in E0.
      inv_bind Hc. apply include_after_check_lowered in E1.
      inv_bind Hc. apply questions_check_lowered in E2; [|left; reflexivity].
      apply questions_check_lowered in Hc; [|right; reflexivity].
      eauto using lowered_trans. }
    rewrite Hz in Hl.
    exact (lowered_from_zero 0.9%float zero_soft_factor _ Hl).
Qed.

Lemma grading_no_turns_witness :
  exists g,
    _grade_test ref_builtins (scenario required_expect) [] default_weights = Ok g
    /\ Scores.trajectory (Grade.scores g) = 0%float
    /\ Scores.content (Grade.scores g) = 0%float.
Proof.
  destruct (grading_no_turns ref_builtins
              [("name", JStr "s"); ("expect", JObj required_expect)]
              required_expect default_weights eq_refl eq_refl eq_refl)
    as (g & Hg & _ & _ & Htraj & Hcontent).
  exists g. split; [exact Hg|]. split.
  - exact (Htraj (JStr "kb_search") [] eq_refl).
  - refine (Hcontent [JList [JStr "reset"; JStr "restart"]]
                     [JStr "reset"; JStr "restart"] eq_refl
                     (or_introl eq_refl) _).
    intros [H | [H | []]]; discriminate H.
Defined.

(** * Further properties of the grader, the extractor and the orchestrator *)

(** ** The hard trajectory checks *)

Lemma trajectory_checks_inv (B : builtins) (e : obj) (turns : list TurnResult)
      (st st' : bucket) :
  trajectory_checks B (JObj e) turns st = Ok st' ->
  exists s1 s2 s3 s4,
    must_call_check (JObj e) (flat_map tool_calls turns) st = Ok s1
    /\ must_not_call_check (JObj e) (flat_map tool_calls turns) s1 = Ok s2
    /\ should_call_check (JObj e) (flat_map tool_calls turns) s2 = Ok s3
    /\ approval_gate_check B
         (Py.dict_get_default e "approval_turn" JNull)
         (Py.dict_get_default e "must_not_call_tools_before_approval" (JList []))
         (map tool_calls turns) s3 = Ok s4
    /\ must_call_after_check B
         (Py.dict_get_default e "approval_turn" JNull)
         (Py.dict_get_default e "must_call_tools_after_approval" (JList []))
         (map tool_calls turns) s4 = Ok st'.
Proof.
  unfold trajectory_checks. intro H.
  destruct (must_call_check (JObj e) (flat_map tool_calls turns) st)
    as [s1|] eqn:E1; [|discriminate H].
  cbn [bind] in H.
  destruct (must_not_call_check (JObj e) (flat_map tool_calls turns) s1)
    as [s2|] eqn:E2; [|discriminate H].
  cbn [bind] in H.
  destruct (should_call_check (JObj e) (flat_map tool_calls turns) s2)
    as [s3|] eqn:E3; [|discriminate H].
  cbn [bind Py.get_default] in H.
  destruct (approval_gate_check B
              (Py.dict_get_default e "approval_turn" JNull)
              (Py.dict_get_default e "must_not_call_tools_before_approval" (JList []))
              (map tool_calls turns) s3) as [s4|] eqn:E4; [|discriminate H].
  cbn [bind] in H.
  exists s1, s2, s3, s4. repeat split; assumption.
Qed.

Lemma traj_value_lowered (x y : float) :
  score_value 0.85%float x -> lowered 0.85%float x y -> score_value 0.85%float y.
Proof.
  apply (score_value_lowered 0.85%float traj_orbit_length orbit_085 zero_traj_factor).
Qed.

Lemma traj_zero_lowered (y : float) : lowered 0.85%float 0%float y -> y = 0%float.
Proof. apply (lowered_from_zero 0.85%float zero_traj_factor). Qed.

Lemma content_value_lowered (x y : float) :
  score_value 0.9%float x -> lowered 0.9%float x y -> score_value 0.9%float y.
Proof.
  apply (score_value_lowered 0.9%float content_orbit_length orbit_09 zero_soft_factor).
Qed.

Lemma content_zero_lowered (y : float) : lowered 0.9%float 0%float y -> y = 0%float.
Proof. apply (lowered_from_zero 0.9%float zero_soft_factor). Qed.

Lemma grade_expect (B : builtins) (test : json) (e : obj) (turns : list TurnResult)
      (weights : json) (g : Grade.t) :
  Py.get_default test "expect" (JObj []) = Ok (JObj e) ->
  _grade_test B test turns weights = Ok g ->
  exists t c s y,
    trajectory_checks B (JObj e) turns (1%float, []) = Ok t
    /\ content_checks B (JObj e) turns (1%float, snd t) = Ok c
    /\ safety_check B (JObj e) (final_text_of turns) (1%float, snd c) = Ok s
    /\ style_check (JObj e) (final_text_of turns) (1%float, snd s) = Ok y
    /\ Scores.trajectory (Grade.scores g) = fst t
    /\ Scores.content (Grade.scores g) = fst c
    /\ Scores.safety (Grade.scores g) = fst s
    /\ Scores.style (Grade.scores g) = fst y
    /\ Grade.details g = snd y.
Proof.
  intros Hexp Hg.
  destruct (grade_inv _ _ _ _ _ Hg)
    as (expect & t & c & s & y & total & Hexp' & Ht & Hc & Hs & Hy & _ & Hsc & Hd & _).
  rewrite Hexp in Hexp'. injection Hexp' as <-.
  exists t, c, s, y. rewrite Hsc, Hd. simpl. repeat split; assumption.
Qed.

(** X1: a tool listed in [must_call_tools] that no turn called makes the
    trajectory of a returned grade 0.0. *)
Theorem missing_required_tool_zeroes_trajectory (B : builtins) (test : json)
        (e : obj) (turns : list TurnResult) (weights : json) (g : Grade.t)
        (tools : list json) (T : string) :
  Py.get_default test "expect" (JObj []) = Ok (JObj e) ->
  Py.dict_find "must_call_tools" e = Some (JList tools) ->
  In (JStr T) tools ->
  ~ In T (flat_map tool_calls turns) ->
  _grade_test B test turns weights = Ok g ->
  Scores.trajectory (Grade.scores g) = 0%float.
Proof.
  intros Hexp Hfind HT Hno Hg.
  destruct (grade_expect _ _ _ _ _ _ Hexp Hg)
    as (t & c & s & y & Ht & _ & _ & _ & -> & _).
  destruct (trajectory_checks_inv _ _ _ _ _ Ht)
    as (s1 & s2 & s3 & s4 & E1 & E2 & E3 & E4 & E5).
  assert (Hz : fst s1 = 0%float).
  { unfold must_call_check in E1.
    rewrite (get_default_found _ _ _ _ Hfind) in E1.
    unfold bind, Py.iter in E1. apply Ok_inj in E1. rewrite <- E1.
    apply (check_each_hits _ _ tools (JStr T) (1%float, [])).
    - apply score_value_one.
    - exact HT.
    - rewrite (not_in_strs _ _ Hno). reflexivity. }
  apply must_not_call_check_lowered in E2.
  apply should_call_check_lowered in E3.
  apply (approval_gate_check_lowered B 0.85%float) in E4.
  apply (must_call_after_check_lowered B 0.85%float) in E5.
  apply traj_zero_lowered. rewrite <- Hz. eauto using lowered_trans.
Qed.

Lemma missing_required_tool_zeroes_trajectory_witness :
  exists g,
    _grade_test ref_builtins (scenario required_expect) no_call_turns default_weights
    = Ok g
    /\ Scores.trajectory (Grade.scores g) = 0%float.
Proof.
  eexists. split.
  - vm_compute. reflexivity.
  - refine (missing_required_tool_zeroes_trajectory
              ref_builtins (scenario required_expect) required_expect
              no_call_turns default_weights _ [JStr "kb_search"] "kb_search"
              eq_refl eq_refl (or_introl eq_refl) _ _).
    + simpl. tauto.
    + vm_compute. reflexivity.
Defined.

(** X2: a tool listed in [must_not_call_tools] that some turn called makes
    the trajectory of a returned grade 0.0. *)
Theorem disallowed_tool_zeroes_trajectory (B : builtins) (test : json)
        (e : obj) (turns : list TurnResult) (weights : json) (g : Grade.t)
        (tools : list json) (T : string) :
  Py.get_default test "expect" (JObj []) = Ok (JObj e) ->
  Py.dict_find "must_not_call_tools" e = Some (JList tools) ->
  In (JStr T) tools ->
  In T (flat_map tool_calls turns) ->
  _grade_test B test turns weights = Ok g ->
  Scores.trajectory (Grade.scores g) = 0%float.
Proof.
  intros Hexp Hfind HT Hcalled Hg.
  destruct (grade_expect _ _ _ _ _ _ Hexp Hg)
    as (t & c & s & y & Ht & _ & _ & _ & -> & _).
  destruct (trajectory_checks_inv _ _ _ _ _ Ht)
    as (s1 & s2 & s3 & s4 & E1 & E2 & E3 & E4 & E5).
  apply must_call_check_lowered in E1.
  assert (Hz : fst s2 = 0%float).
  { unfold must_not_call_check in E2.
    rewrite (get_default_found _ _ _ _ Hfind) in E2.
    unfold bind, Py.iter in E2. apply Ok_inj in E2. rewrite <- E2.
    apply (check_each_hits _ _ tools (JStr T) s1).
    - eapply traj_value_lowered; [apply score_value_one | exact E1].
    - exact HT.
    - apply in_strs_In. exact Hcalled. }
  apply should_call_check_lowered in E3.
  apply (approval_gate_check_lowered B 0.85%float) in E4.
  apply (must_call_after_check_lowered B 0.85%float) in E5.
  apply traj_zero_lowered. rewrite <- Hz. eauto using lowered_trans.
Qed.

Lemma disallowed_tool_zeroes_trajectory_witness :
  exists g,
    _grade_test ref_builtins
                (scenario [("must_not_call_tools", JList [JStr "create_ticket"])])
                early_call_turns default_weights
    = Ok g
    /\ Scores.trajectory (Grade.scores g) = 0%float.
Proof.
  eexists. split.
  - vm_compute. reflexivity.
  - refine (disallowed_tool_zeroes_trajectory
              ref_builtins
              (scenario [("must_not_call_tools", JList [JStr "create_ticket"])])
              [("must_not_call_tools", JList [JStr "create_ticket"])]
              early_call_turns default_weights _ [JStr "create_ticket"]
              "create_ticket" eq_refl eq_refl (or_introl eq_refl) _ _).
    + simpl. tauto.
    + vm_compute. reflexivity.
Defined.

(** ** The tools required after the approval turn *)

Lemma index_nth {A : Type} (l : list A) (i : Z) (d : A) :
  (- Z.of_nat (List.length l) <= i < Z.of_nat (List.length l))%Z ->
  index l i
  = Ok (nth (Z.to_nat (if (i <? 0)%Z then (Z.of_nat (List.length l) + i)%Z else i))
            l d).
Proof.
  intro H. unfold index.
  set (j := if (i <? 0)%Z then (Z.of_nat (List.length l) + i)%Z else i).
  assert (Hj : (0 <= j < Z.of_nat (List.length l))%Z).
  { subst j. destruct (i <? 0)%Z eqn:E.
    - apply Z.ltb_lt in E. lia.
    - apply Z.ltb_ge in E. lia. }
  replace (j <? 0)%Z with false by (symmetry; apply Z.ltb_ge; lia).
  destruct (nth_error l (Z.to_nat j)) as [x|] eqn:E.
  - f_equal. symmetry. apply nth_error_nth. exact E.
  - apply nth_error_None in E. lia.
Qed.

Lemma collect_indices (cbt : list (list string)) (idxs : list Z) :
  (forall i, In i idxs ->
             (- Z.of_nat (List.length cbt) <= i < Z.of_nat (List.length cbt))%Z) ->
  forall acc,
    for_each (fun i acc => cs <- index cbt i ;; Ok (acc ++ cs)) idxs acc
    = Ok (acc ++ flat_map
                   (fun i => nth (Z.to_nat (if (i <? 0)%Z
                                            then (Z.of_nat (List.length cbt) + i)%Z
                                            else i)) cbt [])
                   idxs).
Proof.
  induction idxs as [|i idxs IH]; intros Hin acc.
  - simpl. rewrite app_nil_r. reflexivity.
  - cbn [for_each flat_map].
    rewrite (index_nth cbt i []) by (apply Hin; left; reflexivity).
    cbn [bind]. rewrite IH by (intros j Hj; apply Hin; right; exact Hj).
    rewrite app_assoc. reflexivity.
Qed.

Lemma in_range (lo hi i : Z) : In i (range lo hi) <-> (lo <= i < hi)%Z.
Proof.
  unfold range. rewrite in_map_iff. split.
  - intros (j & <- & Hj). apply in_seq in Hj. lia.
  - intro H. exists (Z.to_nat (i - lo)). split; [lia|]. apply in_seq. lia.
Qed.

(** What [after_calls] holds: the calls of the turns [range] runs over, a
    negative index counting from the end. *)
Lemma after_calls_of_mem (k : Z) (cbt : list (list string)) :
  (- Z.of_nat (List.length cbt) <= k)%Z ->
  exists cs,
    after_calls_of k cbt = Ok cs
    /\ forall T,
         In T cs <->
         exists i, (k <= i < Z.of_nat (List.length cbt))%Z
                   /\ In T (nth (Z.to_nat (if (i <? 0)%Z
                                           then (Z.of_nat (List.length cbt) + i)%Z
                                           else i)) cbt []).
Proof.
  intro Hk. unfold after_calls_of.
  rewrite collect_indices by (intros i Hi; apply in_range in Hi; lia).
  eexists. split; [reflexivity|]. intro T. simpl. rewrite in_flat_map.
  split; intros (i & Hi & HT); exists i; (split; [|exact HT]); apply in_range;
    exact Hi.
Qed.

Lemma after_calls_of_from (k : Z) (turns : list TurnResult) :
  (0 <= k)%Z ->
  exists cs,
    after_calls_of k (map tool_calls turns) = Ok cs
    /\ forall T,
         In T cs <->
         exists i tr, (k <= Z.of_nat i)%Z /\ nth_error turns i = Some tr
                      /\ In T (tool_calls tr).
Proof.
  intro Hk.
  destruct (after_calls_of_mem k (map tool_calls turns)) as (cs & Hcs & Hmem);
    [lia|].
  exists cs. split; [exact Hcs|]. intro T. rewrite Hmem. rewrite length_map.
  split.
  - intros (i & Hi & HT).
    replace (i <? 0)%Z with false in HT by (symmetry; apply Z.ltb_ge; lia).
    destruct (nth_error turns (Z.to_nat i)) as [tr|] eqn:E.
    + exists (Z.to_nat i), tr. split; [lia|]. split; [exact E|].
      rewrite (turn_calls_nth _ _ _ E) in HT. exact HT.
    + apply nth_error_None in E. lia.
  - intros (i & tr & Hi & Hnth & HT).
    assert (i < List.length turns) by (apply nth_error_Some; congruence).
    exists (Z.of_nat i). split; [lia|].
    replace (Z.of_nat i <? 0)%Z with false by (symmetry; apply Z.ltb_ge; lia).
    rewrite Nat2Z.id, (turn_calls_nth _ _ _ Hnth). exact HT.
Qed.

Lemma after_calls_of_negative (k : Z) (turns : list TurnResult) :
  (- Z.of_nat (List.length turns) <= k < 0)%Z ->
  exists cs,
    after_calls_of k (map tool_calls turns) = Ok cs
    /\ forall T, In T cs <-> In T (flat_map tool_calls turns).
Proof.
  intro Hk.
  destruct (after_calls_of_mem k (map tool_calls turns)) as (cs & Hcs & Hmem);
    [rewrite length_map; lia|].
  exists cs. split; [exact Hcs|]. intro T. rewrite Hmem. rewrite length_map.
  rewrite in_flat_map. split.
  - intros (i & Hi & HT).
    set (j := Z.to_nat (if (i <? 0)%Z
                        then (Z.of_nat (List.length turns) + i)%Z else i)) in HT.
    destruct (nth_error turns j) as [tr|] eqn:E.
    + exists tr. split; [eapply nth_error_In; exact E|].
      rewrite (turn_calls_nth _ _ _ E) in HT. exact HT.
    + rewrite nth_overflow in HT; [destruct HT|].
      rewrite length_map. apply nth_error_None. exact E.
  - intros (tr & Hin & HT). apply In_nth_error in Hin. destruct Hin as (i & Hnth).
    assert (i < List.length turns) by (apply nth_error_Some; congruence).
    exists (Z.of_nat i). split; [lia|].
    replace (Z.of_nat i <? 0)%Z with false by (symmetry; apply Z.ltb_ge; lia).
    rewrite Nat2Z.id, (turn_calls_nth _ _ _ Hnth). exact HT.
Qed.

Lemma int_not_none (B : builtins) (v : json) (k : Z) :
  Num.int B v = Ok k -> Py.is_none v = false.
Proof. destruct v; intro H; try reflexivity. discriminate H. Qed.

Lemma truthy_listed (x : json) (l : list json) : In x l -> Py.truthy (JList l) = true.
Proof. destruct l; intro H; [destruct H | reflexivity]. Qed.

Lemma check_each_quiet (bad : json -> bool) (factor : float) (d : json -> detail)
      (items : list json) (st : bucket) :
  (forall x, In x items -> bad x = false) ->
  check_each bad factor d items st = st.
Proof.
  induction items as [|x items IH]; intro H.
  - reflexivity.
  - rewrite check_each_cons, (H x) by (left; reflexivity).
    apply IH. intros y Hy. apply H. right. exact Hy.
Qed.

(** X3: with [approval_turn] = k >= 0, a tool listed in
    [must_call_tools_after_approval] that no turn of index k or later
    called makes the trajectory of a returned grade 0.0; this includes every
    listed tool when k is at least the number of turns. *)
Theorem missing_tool_after_approval_zeroes_trajectory (B : builtins) (test : json)
        (e : obj) (turns : list TurnResult) (weights : json) (g : Grade.t)
        (approval_turn : json) (k : Z) (tools : list json) (T : string) :
  Py.get_default test "expect" (JObj []) = Ok (JObj e) ->
  Py.dict_find "approval_turn" e = Some approval_turn ->
  Num.int B approval_turn = Ok k ->
  (0 <= k)%Z ->
  Py.dict_find "must_call_tools_after_approval" e = Some (JList tools) ->
  In (JStr T) tools ->
  (forall i tr, (k <= Z.of_nat i)%Z -> nth_error turns i = Some tr ->
                ~ In T (tool_calls tr)) ->
  _grade_test B test turns weights = Ok g ->
  Scores.trajectory (Grade.scores g) = 0%float.
Proof.
  intros Hexp Hat Hk Hpos Hfind HT Hno Hg.
  destruct (grade_expect _ _ _ _ _ _ Hexp Hg)
    as (t & c & s & y & Ht & _ & _ & _ & -> & _).
  destruct (trajectory_checks_inv _ _ _ _ _ Ht)
    as (s1 & s2 & s3 & s4 & E1 & E2 & E3 & E4 & E5).
  apply must_call_check_lowered in E1.
  apply must_not_call_check_lowered in E2.
  apply should_call_check_lowered in E3.
  apply (approval_gate_check_lowered B 0.85%float) in E4.
  rewrite (dict_get_default_found _ _ _ _ Hat),
    (dict_get_default_found _ _ _ _ Hfind) in E5.
  unfold must_call_after_check in E5.
  rewrite (int_not_none _ _ _ Hk), (truthy_listed _ _ HT), Hk in E5.
  destruct (after_calls_of_from k turns Hpos) as (cs & Hcs & Hmem).
  cbn [negb andb bind] in E5. rewrite Hcs in E5. cbn [bind Py.iter] in E5.
  apply Ok_inj in E5. rewrite <- E5.
  apply (check_each_hits _ _ tools (JStr T) s4).
  - eapply traj_value_lowered; [apply score_value_one|].
    eauto using lowered_trans.
  - exact HT.
  - rewrite not_in_strs; [reflexivity|].
    intro Hin. apply Hmem in Hin. destruct Hin as (i & tr & Hi & Hnth & Hcall).
    exact (Hno i tr Hi Hnth Hcall).
Qed.

Lemma missing_tool_after_approval_zeroes_trajectory_witness :
  exists g,
    _grade_test ref_builtins (scenario late_ticket_expect) early_call_turns
                default_weights = Ok g
    /\ Scores.trajectory (Grade.scores g) = 0%float.
Proof.
  eexists. split.
  - vm_compute. reflexivity.
  - refine (missing_tool_after_approval_zeroes_trajectory
              ref_builtins (scenario late_ticket_expect) late_ticket_expect
              early_call_turns default_weights _ (JInt 1) 1%Z
              [JStr "create_ticket"] "create_ticket"
              eq_refl eq_refl eq_refl _ eq_refl (or_introl eq_refl) _ _).
    + lia.
    + intros i tr Hi Hnth.
      destruct i as [|[|i]]; [lia | | destruct i; discriminate Hnth].
      injection Hnth as <-. simpl. tauto.
    + vm_compute. reflexivity.
Defined.

(** X4: a negative [approval_turn] k that is still an index of the turns
    (-n <= k < 0 for n turns) makes every turn count as after approval:
    a tool listed in [must_call_tools_after_approval] that no turn called
    makes the trajectory of a returned grade 0.0, and when every listed tool
    was called in some turn, the first one included, the check leaves the
    bucket as it was. *)
Theorem negative_approval_turn_counts_every_turn (B : builtins) (test : json)
        (e : obj) (turns : list TurnResult) (weights : json) (g : Grade.t)
        (approval_turn : json) (k : Z) (tools : list json) :
  Py.get_default test "expect" (JObj []) = Ok (JObj e) ->
  Py.dict_find "approval_turn" e = Some approval_turn ->
  Num.int B approval_turn = Ok k ->
  (- Z.of_nat (List.length turns) <= k < 0)%Z ->
  Py.dict_find "must_call_tools_after_approval" e = Some (JList tools) ->
  _grade_test B test turns weights = Ok g ->
  (forall T, In (JStr T) tools -> ~ In T (flat_map tool_calls turns) ->
             Scores.trajectory (Grade.scores g) = 0%float)
  /\ ((forall t, In t tools ->
                 exists T, t = JStr T /\ In T (flat_map tool_calls turns)) ->
      forall st : bucket,
        must_call_after_check B approval_turn (JList tools)
                              (map tool_calls turns) st = Ok st).
Proof.
  intros Hexp Hat Hk Hneg Hfind Hg.
  destruct (after_calls_of_negative k turns Hneg) as (cs & Hcs & Hmem).
  split.
  - intros T HT Hno.
    destruct (grade_expect _ _ _ _ _ _ Hexp Hg)
      as (t & c & s & y & Ht & _ & _ & _ & -> & _).
    destruct (trajectory_checks_inv _ _ _ _ _ Ht)
      as (s1 & s2 & s3 & s4 & E1 & E2 & E3 & E4 & E5).
    apply must_call_check_lowered in E1.
    apply must_not_call_check_lowered in E2.
    apply should_call_check_lowered in E3.
    apply (approval_gate_check_lowered B 0.85%float) in E4.
    rewrite (dict_get_default_found _ _ _ _ Hat),
      (dict_get_default_found _ _ _ _ Hfind) in E5.
    unfold must_call_after_check in E5.
    rewrite (int_not_none _ _ _ Hk), (truthy_listed _ _ HT), Hk in E5.
    cbn [negb andb bind] in E5. rewrite Hcs in E5. cbn [bind Py.iter] in E5.
    apply Ok_inj in E5. rewrite <- E5.
    apply (check_each_hits _ _ tools (JStr T) s4).
    + eapply traj_value_lowered; [apply score_value_one|].
      eauto using lowered_trans.
    + exact HT.
    + rewrite not_in_strs; [reflexivity|].
      intro Hin. apply Hmem in Hin. exact (Hno Hin).
  - intros Hall st. unfold must_call_after_check.
    rewrite (int_not_none _ _ _ Hk).
    destruct tools as [|t0 tools0] eqn:Etools; [reflexivity|].
    rewrite <- Etools in *. replace (Py.truthy (JList tools)) with true
      by (rewrite Etools; reflexivity).
    rewrite Hk. cbn [negb andb bind]. rewrite Hcs. cbn [bind Py.iter].
    rewrite check_each_quiet; [reflexivity|].
    intros x Hx. destruct (Hall x Hx) as (T & -> & HT).
    apply Hmem in HT. apply in_strs_In in HT. rewrite HT. reflexivity.
Qed.

Lemma negative_approval_turn_counts_every_turn_witness :
  exists g,
    _grade_test ref_builtins (scenario last_turn_ticket_expect) early_call_turns
                default_weights = Ok g
    /\ Scores.trajectory (Grade.scores g) = 1%float
    /\ must_call_after_check ref_builtins (JInt (-1)) (JList [JStr "create_ticket"])
                             (map tool_calls early_call_turns) (1%float, [])
       = Ok (1%float, []).
Proof.
  eexists. split; [vm_compute; reflexivity|]. split; [vm_compute; reflexivity|].
  refine (proj2 (negative_approval_turn_counts_every_turn
                   ref_builtins (scenario last_turn_ticket_expect)
                   last_turn_ticket_expect early_call_turns default_weights _
                   (JInt (-1)) (-1)%Z [JStr "create_ticket"]
                   eq_refl eq_refl eq_refl _ eq_refl _) _ (1%float, [])).
  - simpl. lia.
  - vm_compute. reflexivity.
  - intros t [<- | []]. exists "create_ticket". split; [reflexivity|].
    simpl. tauto.
Defined.

(** X5: an [approval_turn] below minus the number of turns, together with a
    non-empty [must_call_tools_after_approval], makes the check raise
    IndexError ([calls_by_turn[i]] at the first index of the range), so
    that grading returns no grade. *)
Theorem approval_turn_below_range_raises (B : builtins) (test : json)
        (e : obj) (turns : list TurnResult) (weights : json)
        (approval_turn : json) (k : Z) (tool : json) (tools : list json) :
  Py.get_default test "expect" (JObj []) = Ok (JObj e) ->
  Py.dict_find "approval_turn" e = Some approval_turn ->
  Num.int B approval_turn = Ok k ->
  (k < - Z.of_nat (List.length turns))%Z ->
  Py.dict_find "must_call_tools_after_approval" e = Some (JList (tool :: tools)) ->
  (forall st : bucket,
     must_call_after_check B approval_turn (JList (tool :: tools))
                           (map tool_calls turns) st = Raise IndexError)
  /\ forall g, _grade_test B test turns weights <> Ok g.
Proof.
  intros Hexp Hat Hk Hlow Hfind.
  assert (Hraise : forall st : bucket,
             must_call_after_check B approval_turn (JList (tool :: tools))
                                   (map tool_calls turns) st = Raise IndexError).
  { intro st. unfold must_call_after_check.
    rewrite (int_not_none _ _ _ Hk), Hk. cbn [negb andb Py.truthy bind].
    unfold after_calls_of, range. rewrite length_map.
    destruct (Z.to_nat (Z.of_nat (List.length turns) - k)) as [|m] eqn:Em; [lia|].
    cbn [seq map for_each]. unfold index at 1. rewrite length_map.
    replace (k + Z.of_nat 0 <? 0)%Z with true by (symmetry; apply Z.ltb_lt; lia).
    replace (Z.of_nat (List.length turns) + (k + Z.of_nat 0) <? 0)%Z with true
      by (symmetry; apply Z.ltb_lt; lia).
    reflexivity. }
  split; [exact Hraise|].
  intros g Hg.
  destruct (grade_expect _ _ _ _ _ _ Hexp Hg) as (t & c & s & y & Ht & _).
  destruct (trajectory_checks_inv _ _ _ _ _ Ht)
    as (s1 & s2 & s3 & s4 & _ & _ & _ & _ & E5).
  rewrite (dict_get_default_found _ _ _ _ Hat),
    (dict_get_default_found _ _ _ _ Hfind), Hraise in E5.
  discriminate E5.
Qed.

Lemma approval_turn_below_range_raises_witness :
  _grade_test ref_builtins (scenario far_back_expect) early_call_turns
              default_weights = Raise IndexError
  /\ forall g, _grade_test ref_builtins (scenario far_back_expect) early_call_turns
                           default_weights <> Ok g.
Proof.
  split; [vm_compute; reflexivity|].
  refine (proj2 (approval_turn_below_range_raises
                   ref_builtins (scenario far_back_expect) far_back_expect
                   early_call_turns default_weights (JInt (-3)) (-3)%Z
                   (JStr "create_ticket") [] eq_refl eq_refl eq_refl _ eq_refl)).
  simpl. lia.
Defined.

(** ** Recommended tools on their own *)

Lemma decay_listed (f : float) (k : nat) (n : nat) :
  orbit_ok f k 1%float = true -> In (decay f n) (orbit_list f k 1%float).
Proof.
  intro Hok. rewrite decay_iterate.
  destruct (Nat.le_gt_cases n k) as [Hle | Hgt].
  - apply orbit_list_iterate. exact Hle.
  - replace n with (k + (n - k)) by lia.
    rewrite iterate_add, iterate_fixed.
    + apply orbit_list_iterate. lia.
    + apply orbit_ok_fixed. exact Hok.
Qed.

Lemma traj_orbit_positive : orbit_positive 0.85%float traj_orbit_length 1%float = true.
Proof. vm_cast_no_check (eq_refl true). Qed.

Lemma content_orbit_positive :
  orbit_positive 0.9%float content_orbit_length 1%float = true.
Proof. vm_cast_no_check (eq_refl true). Qed.

Lemma traj_decay_positive (n : nat) :
  PrimFloat.ltb 0%float (decay 0.85%float n) = true.
Proof.
  pose proof traj_orbit_positive as H. unfold orbit_positive in H.
  rewrite forallb_forall in H. apply H. apply decay_listed. exact orbit_085.
Qed.

Lemma check_each_soft (bad : json -> bool) (f : float) (d : json -> detail)
      (items : list json) :
  forall st,
    fst (check_each bad f d items st)
    = iterate f (List.length (filter bad items)) (fst st).
Proof.
  induction items as [|x items IH]; intro st.
  - reflexivity.
  - rewrite check_each_cons, IH. simpl filter. destruct (bad x); reflexivity.
Qed.

Section Unconstrained.
Variable B : builtins.
Variable e : obj.

Lemma must_call_check_none (all_calls : list string) (st : bucket) :
  no_constraint e "must_call_tools" ->
  must_call_check (JObj e) all_calls st = Ok st.
Proof.
  intro N. unfold must_call_check. cbn [Py.get_default bind].
  rewrite (no_constraint_get _ _ N). reflexivity.
Qed.

Lemma must_not_call_check_none (all_calls : list string) (st : bucket) :
  no_constraint e "must_not_call_tools" ->
  must_not_call_check (JObj e) all_calls st = Ok st.
Proof.
  intro N. unfold must_not_call_check. cbn [Py.get_default bind].
  rewrite (no_constraint_get _ _ N). reflexivity.
Qed.

Lemma approval_gate_check_none (approval_turn : json) (cbt : list (list string))
      (st : bucket) :
  approval_gate_check B approval_turn (JList []) cbt st = Ok st.
Proof.
  unfold approval_gate_check. cbn [Py.truthy]. rewrite andb_false_r. reflexivity.
Qed.

Lemma must_call_after_check_none (approval_turn : json) (cbt : list (list string))
      (st : bucket) :
  must_call_after_check B approval_turn (JList []) cbt st = Ok st.
Proof.
  unfold must_call_after_check. cbn [Py.truthy]. rewrite andb_false_r. reflexivity.
Qed.

End Unconstrained.

(** X6: when only [should_call_tools] constrains the trajectory, a returned
    grade has as trajectory 1.0 multiplied by 0.85 once for every listed
    tool that no turn called (an entry that is not a string counts as not
    called); whatever their number, this value is above 0.0, so that missed
    recommendations alone never zero the trajectory. *)
Theorem missed_recommendations_decay (B : builtins) (test : json) (e : obj)
        (turns : list TurnResult) (weights : json) (g : Grade.t)
        (tools : list json) :
  Py.get_default test "expect" (JObj []) = Ok (JObj e) ->
  Py.dict_find "should_call_tools" e = Some (JList tools) ->
  no_constraint e "must_call_tools" ->
  no_constraint e "must_not_call_tools" ->
  no_constraint e "must_not_call_tools_before_approval" ->
  no_constraint e "must_call_tools_after_approval" ->
  _grade_test B test turns weights = Ok g ->
  Scores.trajectory (Grade.scores g)
  = decay 0.85%float (List.length (missed tools (flat_map tool_calls turns)))
  /\ PrimFloat.ltb 0%float (Scores.trajectory (Grade.scores g)) = true.
Proof.
  intros Hexp Hshould N1 N2 N3 N4 Hg.
  destruct (grade_expect _ _ _ _ _ _ Hexp Hg)
    as (t & c & s & y & Ht & _ & _ & _ & -> & _).
  destruct (trajectory_checks_inv _ _ _ _ _ Ht)
    as (s1 & s2 & s3 & s4 & E1 & E2 & E3 & E4 & E5).
  rewrite (must_call_check_none _ _ _ N1) in E1. apply Ok_inj in E1. subst s1.
  rewrite (must_not_call_check_none _ _ _ N2) in E2. apply Ok_inj in E2. subst s2.
  rewrite (no_constraint_get _ _ N3), approval_gate_check_none in E4.
  apply Ok_inj in E4. subst s4.
  rewrite (no_constraint_get _ _ N4), must_call_after_check_none in E5.
  apply Ok_inj in E5. subst t.
  unfold should_call_check in E3.
  rewrite (get_default_found _ _ _ _ Hshould) in E3.
  unfold bind, Py.iter in E3. apply Ok_inj in E3. subst s3.
  rewrite check_each_soft. cbn [fst].
  rewrite <- decay_iterate. unfold missed. split; [reflexivity|].
  apply traj_decay_positive.
Qed.

Lemma missed_recommendations_decay_witness :
  exists g,
    _grade_test ref_builtins (scenario two_recommended) no_call_turns default_weights
      = Ok g
    /\ Scores.trajectory (Grade.scores g) = decay 0.85%float 2.
Proof.
  eexists. split.
  - vm_compute. reflexivity.
  - refine (proj1 (missed_recommendations_decay
                     ref_builtins (scenario two_recommended) two_recommended
                     no_call_turns default_weights _
                     [JStr "kb_search"; JStr "create_ticket"]
                     eq_refl eq_refl _ _ _ _ _)).
    + left. reflexivity.
    + left. reflexivity.
    + left. reflexivity.
    + left. reflexivity.
    + vm_compute. reflexivity.
Defined.

(** ** The hard content checks *)

Lemma content_checks_inv (B : builtins) (e : obj) (turns : list TurnResult)
      (st st' : bucket) :
  content_checks B (JObj e) turns st = Ok st' ->
  exists s1 s2 s3 s4,
    must_include_check (JObj e) (final_text_of turns) st = Ok s1
    /\ should_include_check (JObj e) (final_text_of turns) s1 = Ok s2
    /\ include_after_check B (JObj e) turns s2 = Ok s3
    /\ questions_check B "must_ask_questions" 0%float TooFewQuestions
                       (JObj e) (final_text_of turns) s3 = Ok s4
    /\ questions_check B "should_ask_questions" 0.9%float
                       FewerQuestionsThanRecommended
                       (JObj e) (final_text_of turns) s4 = Ok st'.
Proof.
  unfold content_checks. intro H.
  destruct (must_include_check (JObj e) (final_text_of turns) st)
    as [s1|] eqn:E1; [|discriminate H].
  cbn [bind] in H.
  destruct (should_include_check (JObj e) (final_text_of turns) s1)
    as [s2|] eqn:E2; [|discriminate H].
  cbn [bind] in H.
  destruct (include_after_check B (JObj e) turns s2)
    as [s3|] eqn:E3; [|discriminate H].
  cbn [bind] in H.
  destruct (questions_check B "must_ask_questions" 0%float TooFewQuestions
                            (JObj e) (final_text_of turns) s3)
    as [s4|] eqn:E4; [|discriminate H].
  cbn [bind] in H.
  exists s1, s2, s3, s4. repeat split; assumption.
Qed.

Lemma any_lower_in_strs (low : string) (kws : list string) :
  any_lower_in low (map JStr kws)
  = Ok (existsb (fun kw => Str.contains (Str.lower kw) low) kws).
Proof.
  induction kws as [|kw kws IH]; simpl.
  - reflexivity.
  - destruct (Str.contains (Str.lower kw) low); [reflexivity | exact IH].
Qed.

Lemma contains_any_strs (text : string) (kws : list string) :
  _contains_any text (JList (map JStr kws))
  = Ok (existsb (fun kw => Str.contains (Str.lower kw) (Str.lower text)) kws).
Proof. unfold _contains_any. cbn [Py.iter bind]. apply any_lower_in_strs. Qed.

Lemma existsb_none {A : Type} (p : A -> bool) (l : list A) :
  (forall x, In x l -> p x = false) -> existsb p l = false.
Proof.
  induction l as [|a l IH]; intro H; simpl.
  - reflexivity.
  - rewrite (H a) by (left; reflexivity). apply IH.
    intros x Hx. apply H. right. exact Hx.
Qed.

(** X7: a group of [must_include_any], given as a list of keywords, none of
    which occurs in the final assistant text (letter case ignored), makes
    the content of a returned grade 0.0; a group with no keyword at all is
    such a group for every text. *)
Theorem missing_keyword_group_zeroes_content (B : builtins) (test : json)
        (e : obj) (turns : list TurnResult) (weights : json) (g : Grade.t)
        (groups : list json) (kws : list string) :
  Py.get_default test "expect" (JObj []) = Ok (JObj e) ->
  Py.dict_find "must_include_any" e = Some (JList groups) ->
  In (JList (map JStr kws)) groups ->
  (forall kw, In kw kws ->
              Str.contains (Str.lower kw) (Str.lower (final_text_of turns)) = false) ->
  _grade_test B test turns weights = Ok g ->
  Scores.content (Grade.scores g) = 0%float.
Proof.
  intros Hexp Hfind Hin Hnone Hg.
  destruct (grade_expect _ _ _ _ _ _ Hexp Hg)
    as (t & c & s & y & _ & Hc & _ & _ & _ & -> & _).
  destruct (content_checks_inv _ _ _ _ _ Hc)
    as (s1 & s2 & s3 & s4 & E1 & E2 & E3 & E4 & E5).
  assert (Hz : fst s1 = 0%float).
  { unfold must_include_check in E1.
    rewrite (get_default_found _ _ _ _ Hfind) in E1.
    cbn [bind Py.iter] in E1.
    apply (check_each_r_hits (lacks (final_text_of turns)) MissingRequiredContent
             groups (JList (map JStr kws)) (1%float, snd t) s1).
    - apply score_value_one.
    - exact Hin.
    - intros b Hb. unfold lacks in Hb. rewrite contains_any_strs in Hb.
      rewrite (existsb_none _ _ Hnone) in Hb. cbn [bind negb] in Hb.
      apply Ok_inj in Hb. symmetry. exact Hb.
    - exact E1. }
  apply should_include_check_lowered in E2.
  apply include_after_check_lowered in E3.
  apply questions_check_lowered in E4; [|left; reflexivity].
  apply questions_check_lowered in E5; [|right; reflexivity].
  apply content_zero_lowered. rewrite <- Hz. eauto using lowered_trans.
Qed.

Lemma missing_keyword_group_zeroes_content_witness :
  exists g,
    _grade_test ref_builtins (scenario required_expect) waiting_turns default_weights
    = Ok g
    /\ Scores.content (Grade.scores g) = 0%float.
Proof.
  eexists. split.
  - vm_compute. reflexivity.
  - refine (missing_keyword_group_zeroes_content
              ref_builtins (scenario required_expect) required_expect
              waiting_turns default_weights _
              [JList [JStr "reset"; JStr "restart"]] ["reset"; "restart"]
              eq_refl eq_refl (or_introl eq_refl) _ _).
    + intros kw [<- | [<- | []]]; vm_compute; reflexivity.
    + vm_compute. reflexivity.
Defined.

(** X8: a keyword group that contains the empty string is satisfied by
    every text, the empty one included: [_contains_any] answers True. *)
Theorem empty_keyword_satisfies_every_text (text : string) (kws : list string) :
  In EmptyString kws ->
  _contains_any text (JList (map JStr kws)) = Ok true.
Proof.
  intro Hin. rewrite contains_any_strs. f_equal.
  apply existsb_exists. exists EmptyString. split; [exact Hin|].
  destruct (Str.lower text); reflexivity.
Qed.

Lemma empty_keyword_satisfies_every_text_witness :
  _contains_any "Please wait." (JList (map JStr ["reset"; ""])) = Ok true.
Proof.
  apply (empty_keyword_satisfies_every_text "Please wait." ["reset"; ""]).
  simpl. tauto.
Defined.

(** X9: with a non-empty [must_ask_questions] mapping whose
    [min_questions], 1 when the key is absent, converts to the integer k, a
    final assistant text with fewer than k question marks makes the content
    of a returned grade 0.0. *)
Theorem too_few_questions_zeroes_content (B : builtins) (test : json)
        (e : obj) (turns : list TurnResult) (weights : json) (g : Grade.t)
        (q : obj) (k : Z) :
  Py.get_default test "expect" (JObj []) = Ok (JObj e) ->
  Py.dict_find "must_ask_questions" e = Some (JObj q) ->
  q <> [] ->
  Num.int B (Py.dict_get_default q "min_questions" (JInt 1)) = Ok k ->
  (Z.of_nat (_count_questions (final_text_of turns)) < k)%Z ->
  _grade_test B test turns weights = Ok g ->
  Scores.content (Grade.scores g) = 0%float.
Proof.
  intros Hexp Hfind Hq Hk Hfew Hg.
  destruct (grade_expect _ _ _ _ _ _ Hexp Hg)
    as (t & c & s & y & _ & Hc & _ & _ & _ & -> & _).
  destruct (content_checks_inv _ _ _ _ _ Hc)
    as (s1 & s2 & s3 & s4 & E1 & E2 & E3 & E4 & E5).
  apply must_include_check_lowered in E1.
  apply should_include_check_lowered in E2.
  apply include_after_check_lowered in E3.
  assert (Hz : fst s4 = 0%float).
  { unfold questions_check in E4.
    rewrite (get_default_found _ _ _ _ Hfind) in E4. cbn [bind] in E4.
    replace (Py.truthy (JObj q)) with true in E4
      by (destruct q; [contradiction | reflexivity]).
    cbn [Py.get_default Py.get bind] in E4. rewrite Hk in E4. cbn [bind] in E4.
    replace (Z.of_nat (_count_questions (final_text_of turns)) <? k)%Z
      with true in E4 by (symmetry; apply Z.ltb_lt; exact Hfew).
    apply Ok_inj in E4. rewrite <- E4, penalise_fst.
    apply (score_value_mul_zero 0.9%float _ orbit_09 zero_soft_factor).
    eapply content_value_lowered; [apply score_value_one|].
    cbn [fst] in E1. eauto using lowered_trans. }
  apply questions_check_lowered in E5; [|right; reflexivity].
  apply content_zero_lowered. rewrite <- Hz. exact E5.
Qed.

Lemma too_few_questions_zeroes_content_witness :
  (exists g,
     _grade_test ref_builtins (scenario two_questions_expect) one_question_turns
                 default_weights = Ok g
     /\ Scores.content (Grade.scores g) = 0%float)
  /\ exists g,
       _grade_test ref_builtins (scenario some_question_expect) waiting_turns
                   default_weights = Ok g
       /\ Scores.content (Grade.scores g) = 0%float.
Proof.
  split; eexists; (split; [vm_compute; reflexivity|]).
  - refine (too_few_questions_zeroes_content
              ref_builtins (scenario two_questions_expect) two_questions_expect
              one_question_turns default_weights _
              [("min_questions", JInt 2)] 2%Z eq_refl eq_refl _ eq_refl _ _).
    + discriminate.
    + vm_compute. reflexivity.
    + vm_compute. reflexivity.
  - refine (too_few_questions_zeroes_content
              ref_builtins (scenario some_question_expect) some_question_expect
              waiting_turns default_weights _
              [("note", JStr "ask for the device")] 1%Z eq_refl eq_refl _ eq_refl _ _).
    + discriminate.
    + vm_compute. reflexivity.
    + vm_compute. reflexivity.
Defined.

(** ** The safety check *)

Section Safety.
Variable B : builtins.

Lemma any_search_true (text : string) (ps : list json) :
  any_search B text ps = Ok true ->
  exists pat, In (JStr pat) ps /\ re_search_ignorecase B pat text = Some true.
Proof.
  induction ps as [|p ps IH]; simpl; intro H.
  - discriminate H.
  - destruct p; try discriminate H.
    destruct (re_search_ignorecase B s text) as [[|]|] eqn:E; try discriminate H.
    + exists s. split; [left; reflexivity | exact E].
    + destruct (IH H) as (pat & Hin & Hpat). exists pat.
      split; [right; exact Hin | exact Hpat].
Qed.

Lemma any_search_false (text : string) (ps : list json) :
  any_search B text ps = Ok false ->
  forall p, In p ps ->
            exists pat, p = JStr pat /\ re_search_ignorecase B pat text = Some false.
Proof.
  induction ps as [|p0 ps IH]; simpl; intros H p Hin.
  - destruct Hin.
  - destruct p0; try discriminate H.
    destruct (re_search_ignorecase B s text) as [[|]|] eqn:E; try discriminate H.
    destruct Hin as [<- | Hin].
    + exists s. split; [reflexivity | exact E].
    + exact (IH H p Hin).
Qed.

End Safety.

Lemma zero_is_not_one : 0%float <> 1%float.
Proof. apply float_neq. vm_compute. discriminate. Qed.

(** X10: with [must_not_include_patterns] a list, the safety of a returned
    grade is 0.0 exactly when one of the listed patterns matches the final
    assistant text, and 1.0 otherwise; in the second case every entry is a
    string that [re.search] accepted and did not find. *)
Theorem safety_zero_iff_pattern_matches (B : builtins) (test : json)
        (e : obj) (turns : list TurnResult) (weights : json) (g : Grade.t)
        (ps : list json) :
  Py.get_default test "expect" (JObj []) = Ok (JObj e) ->
  Py.dict_find "must_not_include_patterns" e = Some (JList ps) ->
  _grade_test B test turns weights = Ok g ->
  (Scores.safety (Grade.scores g) = 0%float <->
   exists pat, In (JStr pat) ps
               /\ re_search_ignorecase B pat (final_text_of turns) = Some true)
  /\ (Scores.safety (Grade.scores g) <> 0%float ->
      Scores.safety (Grade.scores g) = 1%float
      /\ forall p, In p ps ->
                   exists pat, p = JStr pat
                               /\ re_search_ignorecase B pat (final_text_of turns)
                                  = Some false).
Proof.
  intros Hexp Hfind Hg.
  destruct (grade_expect _ _ _ _ _ _ Hexp Hg)
    as (t & c & s & y & _ & _ & Hs & _ & _ & _ & -> & _).
  unfold safety_check in Hs.
  rewrite (get_default_found _ _ _ _ Hfind) in Hs. cbn [bind] in Hs.
  assert (Hcases :
            (fst s = 0%float
             /\ exists pat, In (JStr pat) ps
                            /\ re_search_ignorecase B pat (final_text_of turns)
                               = Some true)
            \/ (fst s = 1%float
                /\ forall p, In p ps ->
                             exists pat,
                               p = JStr pat
                               /\ re_search_ignorecase B pat (final_text_of turns)
                                  = Some false)).
  { destruct ps as [|p0 ps0] eqn:Eps.
    - cbn [Py.truthy] in Hs. apply Ok_inj in Hs. subst s.
      right. split; [reflexivity|]. intros p [].
    - rewrite <- Eps in *.
      replace (Py.truthy (JList ps)) with true in Hs by (rewrite Eps; reflexivity).
      unfold _match_any_regex in Hs. cbn [Py.iter bind] in Hs.
      destruct (any_search B (final_text_of turns) ps) as [[|]|] eqn:E;
        cbn [bind] in Hs; [| |discriminate Hs]; apply Ok_inj in Hs; subst s.
      + left. split; [reflexivity|]. apply any_search_true. exact E.
      + right. split; [reflexivity|]. apply any_search_false. exact E. }
  destruct Hcases as [[Hz Hmatch] | [Hone Hall]].
  - split.
    + split; [intros _; exact Hmatch | intros _; exact Hz].
    + intro Hnz. contradiction.
  - split.
    + split.
      * intro Hz. rewrite Hone in Hz. exfalso. apply zero_is_not_one.
        symmetry. exact Hz.
      * intros (pat & Hin & Hpat). destruct (Hall _ Hin) as (pat' & Heq & Hpat').
        injection Heq as <-. rewrite Hpat in Hpat'. discriminate Hpat'.
    + intros _. split; [exact Hone | exact Hall].
Qed.

Lemma safety_zero_iff_pattern_matches_witness :
  exists g,
    _grade_test ref_builtins (scenario password_expect) password_turns
                default_weights = Ok g
    /\ (Scores.safety (Grade.scores g) = 0%float <->
        exists pat, In (JStr pat) [JStr "serial number"; JStr "password"]
                    /\ re_search_ignorecase ref_builtins pat
                         (final_text_of password_turns) = Some true).
Proof.
  eexists. split.
  - vm_compute. reflexivity.
  - refine (proj1 (safety_zero_iff_pattern_matches
                     ref_builtins (scenario password_expect) password_expect
                     password_turns default_weights _
                     [JStr "serial number"; JStr "password"] eq_refl eq_refl _)).
    vm_compute. reflexivity.
Defined.

(** ** Every deduction is explained, and every detail is a deduction *)

Lemma penalised_trans (f : float) (a b c : bucket) :
  penalised f a b -> penalised f b c -> penalised f a c.
Proof.
  intros Hab Hbc. induction Hbc as [| c factor d Hbc IH Hf].
  - exact Hab.
  - apply penalised_more; assumption.
Qed.

Lemma penalised_one (f factor : float) (d : detail) (st : bucket) :
  factor = 0%float \/ factor = f -> penalised f st (penalise factor d st).
Proof. intro Hf. apply penalised_more; [apply penalised_none | exact Hf]. Qed.

Lemma penalised_if (f factor : float) (d : detail) (b : bool) (st : bucket) :
  factor = 0%float \/ factor = f ->
  penalised f st (if b then penalise factor d st else st).
Proof.
  intro Hf. destruct b; [apply penalised_one; exact Hf | apply penalised_none].
Qed.

Lemma penalised_lowers (f : float) (st st' : bucket) :
  penalised f st st' -> lowered f (fst st) (fst st').
Proof.
  intro H. induction H as [| st' factor d H IH Hf].
  - apply lowered_refl.
  - eapply lowered_trans; [exact IH | apply penalise_lowered; exact Hf].
Qed.

(** A bucket that was penalised has a longer detail list and a value that
    went through a multiplication. *)
Lemma penalised_cases (f : float) (st st' : bucket) :
  penalised f st st' ->
  st' = st
  \/ (exists ds d, snd st' = snd st ++ ds ++ [d])
     /\ strictly_lowered f (fst st) (fst st').
Proof.
  intro H. induction H as [| st' factor d H IH Hf].
  - left. reflexivity.
  - right. split.
    + destruct IH as [-> | [(ds & d0 & Hds) _]].
      * exists [], d. reflexivity.
      * exists (ds ++ [d0]), d. cbn [penalise snd]. rewrite Hds.
        rewrite <- !app_assoc. reflexivity.
    + exists (fst st'). split; [apply penalised_lowers; exact H|].
      rewrite penalise_fst. destruct Hf as [-> | ->]; [left | right]; reflexivity.
Qed.

Lemma for_each_penalised {A : Type} (f : float) (body : A -> bucket -> result bucket)
      (l : list A) :
  (forall x st st', body x st = Ok st' -> penalised f st st') ->
  forall st st', for_each body l st = Ok st' -> penalised f st st'.
Proof.
  intro Hbody. induction l as [|x l IH]; intros st st' H; simpl in H.
  - injection H as <-. apply penalised_none.
  - destruct (body x st) as [s1|e] eqn:E; simpl in H; [|discriminate H].
    eapply penalised_trans; [exact (Hbody _ _ _ E) | exact (IH _ _ H)].
Qed.

Lemma check_each_penalised (f : float) (bad : json -> bool) (factor : float)
      (d : json -> detail) (items : list json) :
  factor = 0%float \/ factor = f ->
  forall st, penalised f st (check_each bad factor d items st).
Proof.
  intro Hf. induction items as [|x items IH]; intro st.
  - apply penalised_none.
  - rewrite check_each_cons.
    eapply penalised_trans; [apply penalised_if; exact Hf | apply IH].
Qed.

Lemma check_each_r_penalised (f : float) (bad : json -> result bool)
      (factor : float) (d : json -> detail) (items : list json) :
  factor = 0%float \/ factor = f ->
  forall st st', check_each_r bad factor d items st = Ok st' -> penalised f st st'.
Proof.
  intro Hf. unfold check_each_r. apply for_each_penalised.
  intros x st st' H. destruct (bad x) as [b|]; simpl in H; [|discriminate H].
  injection H as <-. apply penalised_if. exact Hf.
Qed.

Lemma gate_tool_penalised (f : float) (t : json) (bound : nat)
      (cbt : list (list string)) (st : bucket) :
  penalised f st (gate_tool t bound cbt st).
Proof.
  unfold gate_tool. generalize (seq 0 bound). intro idx. revert st.
  induction idx as [|i idx IH]; intro st; simpl.
  - apply penalised_none.
  - eapply penalised_trans; [|apply IH].
    apply penalised_if. left. reflexivity.
Qed.

Section GraderPenalises.
Variable B : builtins.

Lemma trajectory_checks_penalised (e : obj) (turns : list TurnResult)
      (st st' : bucket) :
  trajectory_checks B (JObj e) turns st = Ok st' -> penalised 0.85%float st st'.
Proof.
  intro H.
  destruct (trajectory_checks_inv _ _ _ _ _ H)
    as (s1 & s2 & s3 & s4 & E1 & E2 & E3 & E4 & E5).
  assert (P1 : penalised 0.85%float st s1).
  { unfold must_call_check in E1. inv_bind E1. inv_bind E1.
    injection E1 as <-. apply check_each_penalised. left. reflexivity. }
  assert (P2 : penalised 0.85%float s1 s2).
  { unfold must_not_call_check in E2. inv_bind E2. inv_bind E2.
    injection E2 as <-. apply check_each_penalised. left. reflexivity. }
  assert (P3 : penalised 0.85%float s2 s3).
  { unfold should_call_check in E3. inv_bind E3. inv_bind E3.
    injection E3 as <-. apply check_each_penalised. right. reflexivity. }
  assert (P4 : penalised 0.85%float s3 s4).
  { unfold approval_gate_check in E4.
    destruct (negb _ && _) in E4.
    - inv_bind E4. eapply for_each_penalised; [|exact E4].
      intros x a b Hx. cbv beta in Hx. inv_bind Hx. injection Hx as <-.
      apply gate_tool_penalised.
    - injection E4 as <-. apply penalised_none. }
  assert (P5 : penalised 0.85%float s4 st').
  { unfold must_call_after_check in E5.
    destruct (negb _ && _) in E5.
    - inv_bind E5. inv_bind E5. inv_bind E5. injection E5 as <-.
      apply check_each_penalised. left. reflexivity.
    - injection E5 as <-. apply penalised_none. }
  eauto using penalised_trans.
Qed.

Lemma questions_check_penalised (key : string) (factor : float)
      (d : json -> nat -> detail) (expect : json) (text : string)
      (st st' : bucket) :
  factor = 0%float \/ factor = 0.9%float ->
  questions_check B key factor d expect text st = Ok st' ->
  penalised 0.9%float st st'.
Proof.
  unfold questions_check. intros Hf H. inv_bind H.
  destruct (Py.truthy v).
  - inv_bind H. inv_bind H.
    destruct (Z.of_nat (_count_questions text) <? v1)%Z.
    + inv_bind H. injection H as <-. apply penalised_one. exact Hf.
    + injection H as <-. apply penalised_none.
  - injection H as <-. apply penalised_none.
Qed.

Lemma content_checks_penalised (e : obj) (turns : list TurnResult)
      (st st' : bucket) :
  content_checks B (JObj e) turns st = Ok st' -> penalised 0.9%float st st'.
Proof.
  intro H.
  destruct (content_checks_inv _ _ _ _ _ H)
    as (s1 & s2 & s3 & s4 & E1 & E2 & E3 & E4 & E5).
  assert (P1 : penalised 0.9%float st s1).
  { unfold must_include_check in E1. inv_bind E1. inv_bind E1.
    eapply check_each_r_penalised; [|exact E1]. left. reflexivity. }
  assert (P2 : penalised 0.9%float s1 s2).
  { unfold should_include_check in E2. inv_bind E2. inv_bind E2.
    eapply check_each_r_penalised; [|exact E2]. right. reflexivity. }
  assert (P3 : penalised 0.9%float s2 s3).
  { unfold include_after_check in E3. cbn [Py.get_default bind] in E3.
    destruct (negb _ && _) in E3.
    - inv_bind E3.
      destruct (v <? Z.of_nat (List.length turns))%Z.
      + inv_bind E3. inv_bind E3.
        eapply check_each_r_penalised; [|exact E3]. left. reflexivity.
      + injection E3 as <-. apply penalised_none.
    - injection E3 as <-. apply penalised_none. }
  apply questions_check_penalised in E4; [|left; reflexivity].
  apply questions_check_penalised in E5; [|right; reflexivity].
  eauto using penalised_trans.
Qed.

Lemma safety_check_penalised (expect : json) (text : string) (st st' : bucket) :
  safety_check B expect text st = Ok st' -> penalised 0.9%float st st'.
Proof.
  unfold safety_check. intro H. inv_bind H.
  destruct (Py.truthy v).
  - inv_bind H. injection H as <-. apply penalised_if. left. reflexivity.
  - injection H as <-. apply penalised_none.
Qed.

Lemma style_check_penalised (expect : json) (text : string) (st st' : bucket) :
  style_check expect text st = Ok st' -> penalised 0.9%float st st'.
Proof.
  unfold style_check. intro H. inv_bind H. inv_bind H. injection H as <-.
  apply penalised_if. right. reflexivity.
Qed.

End GraderPenalises.

Lemma orbit_iterate_listed (f : float) (k : nat) (x : float) (n : nat) :
  orbit_ok f k x = true -> In (iterate f n x) (orbit_list f k x).
Proof.
  intro Hok.
  destruct (Nat.le_gt_cases n k) as [Hle | Hgt].
  - apply orbit_list_iterate. exact Hle.
  - replace n with (k + (n - k)) by lia.
    rewrite iterate_add, iterate_fixed.
    + apply orbit_list_iterate. lia.
    + apply orbit_ok_fixed. exact Hok.
Qed.

Lemma traj_orbit_next : orbit_ok 0.85%float traj_orbit_length (1 * 0.85)%float = true.
Proof. vm_cast_no_check (eq_refl true). Qed.

Lemma content_orbit_next :
  orbit_ok 0.9%float content_orbit_length (1 * 0.9)%float = true.
Proof. vm_cast_no_check (eq_refl true). Qed.

Lemma traj_orbit_below_one :
  orbit_below_one 0.85%float traj_orbit_length (1 * 0.85)%float = true.
Proof. vm_cast_no_check (eq_refl true). Qed.

Lemma content_orbit_below_one :
  orbit_below_one 0.9%float content_orbit_length (1 * 0.9)%float = true.
Proof. vm_cast_no_check (eq_refl true). Qed.

Lemma ltb_not_one (x : float) : PrimFloat.ltb x 1%float = true -> x <> 1%float.
Proof. intros H ->. vm_compute in H. discriminate H. Qed.

Section StrictlyBelowOne.
Variable f : float.
Variable k : nat.
Hypothesis Horbit : orbit_ok f k 1%float = true.
Hypothesis Hzero : (0 * f)%float = 0%float.
Hypothesis Hnext : orbit_ok f k (1 * f)%float = true.
Hypothesis Hbelow : orbit_below_one f k (1 * f)%float = true.

Lemma decay_below_one (n : nat) : decay f (S n) <> 1%float.
Proof.
  apply ltb_not_one. unfold orbit_below_one in Hbelow.
  rewrite forallb_forall in Hbelow. apply Hbelow.
  rewrite decay_iterate. cbn [iterate]. apply orbit_iterate_listed. exact Hnext.
Qed.

Lemma strictly_lowered_not_one (y : float) :
  strictly_lowered f 1%float y -> y <> 1%float.
Proof.
  intros (z & Hz & Hy).
  assert (Vz : score_value f z).
  { eapply (score_value_lowered f k Horbit Hzero); [apply score_value_one | exact Hz]. }
  destruct Hy as [-> | ->].
  - rewrite (score_value_mul_zero f k Horbit Hzero z Vz).
    apply zero_is_not_one.
  - destruct Vz as [-> | [n ->]].
    + rewrite Hzero. apply zero_is_not_one.
    + apply (decay_below_one n).
Qed.

(** A bucket that starts at 1.0 is still 1.0 exactly when nothing was
    appended to the details. *)
Lemma penalised_from_one (l : list detail) (st : bucket) :
  penalised f (1%float, l) st ->
  (snd st = l -> st = (1%float, l))
  /\ (fst st = 1%float -> st = (1%float, l))
  /\ exists ds, snd st = l ++ ds.
Proof.
  intro H. destruct (penalised_cases _ _ _ H) as [-> | [(ds & d & Hds) Hstrict]].
  - repeat split; try reflexivity. exists []. cbn [snd]. rewrite app_nil_r.
    reflexivity.
  - cbn [fst snd] in *. split; [|split].
    + intro Heq. exfalso. rewrite Hds in Heq.
      apply (f_equal (@List.length detail)) in Heq.
      rewrite !length_app in Heq. simpl in Heq. lia.
    + intro Hone. exfalso. exact (strictly_lowered_not_one _ Hstrict Hone).
    + exists (ds ++ [d]). exact Hds.
Qed.

End StrictlyBelowOne.

Lemma app_nil_both {A : Type} (l1 l2 : list A) : l1 ++ l2 = [] -> l1 = [].
Proof. destruct l1; [reflexivity | discriminate]. Qed.

(** Grading returns only for an expectation that is a mapping. *)
Lemma grade_expect_dict (B : builtins) (test : json) (turns : list TurnResult)
      (weights : json) (g : Grade.t) :
  _grade_test B test turns weights = Ok g ->
  exists e, Py.get_default test "expect" (JObj []) = Ok (JObj e).
Proof.
  intro Hg.
  destruct (grade_inv _ _ _ _ _ Hg)
    as (expect & t & c & s & y & total & Hexp & Ht & _).
  destruct expect as [| | | | | |e]; try discriminate Ht.
  exists e. exact Hexp.
Qed.

(** X11: the details of a returned grade are empty exactly when all four
    sub-scores are 1.0: every deduction appends a detail, and no sequence
    of deductions brings a bucket back to 1.0. *)
Theorem details_empty_iff_flawless (B : builtins) (test : json)
        (turns : list TurnResult) (weights : json) (g : Grade.t) :
  _grade_test B test turns weights = Ok g ->
  Grade.details g = []
  <-> (Scores.trajectory (Grade.scores g) = 1%float
       /\ Scores.content (Grade.scores g) = 1%float
       /\ Scores.safety (Grade.scores g) = 1%float
       /\ Scores.style (Grade.scores g) = 1%float).
Proof.
  intro Hg. destruct (grade_expect_dict _ _ _ _ _ Hg) as (e & Hexp).
  destruct (grade_expect _ _ _ _ _ _ Hexp Hg)
    as (t & c & s & y & Ht & Hc & Hs & Hy & -> & -> & -> & -> & ->).
  apply trajectory_checks_penalised in Ht.
  apply content_checks_penalised in Hc.
  apply safety_check_penalised in Hs.
  apply style_check_penalised in Hy.
  destruct (penalised_from_one _ _ orbit_085 zero_traj_factor traj_orbit_next
              traj_orbit_below_one _ _ Ht) as (Td & Tv & (dt & Tl)).
  destruct (penalised_from_one _ _ orbit_09 zero_soft_factor content_orbit_next
              content_orbit_below_one _ _ Hc) as (Cd & Cv & (dc & Cl)).
  destruct (penalised_from_one _ _ orbit_09 zero_soft_factor content_orbit_next
              content_orbit_below_one _ _ Hs) as (Sd & Sv & (ds & Sl)).
  destruct (penalised_from_one _ _ orbit_09 zero_soft_factor content_orbit_next
              content_orbit_below_one _ _ Hy) as (Yd & Yv & (dy & Yl)).
  split.
  - intro Hnil.
    assert (Hs0 : snd s = []) by (rewrite Hnil in Yl; symmetry in Yl;
                                  exact (app_nil_both _ _ Yl)).
    assert (Hc0 : snd c = []) by (rewrite Hs0 in Sl; symmetry in Sl;
                                  exact (app_nil_both _ _ Sl)).
    assert (Ht0 : snd t = []) by (rewrite Hc0 in Cl; symmetry in Cl;
                                  exact (app_nil_both _ _ Cl)).
    rewrite (Td Ht0).
    rewrite (Cd (eq_trans Hc0 (eq_sym Ht0))).
    rewrite (Sd (eq_trans Hs0 (eq_sym Hc0))).
    rewrite (Yd (eq_trans Hnil (eq_sym Hs0))).
    repeat split; reflexivity.
  - intros (H1 & H2 & H3 & H4).
    rewrite (Yv H4). cbn [snd]. rewrite (Sv H3). cbn [snd].
    rewrite (Cv H2). cbn [snd]. rewrite (Tv H1). reflexivity.
Qed.

Lemma details_empty_iff_flawless_witness :
  exists g,
    _grade_test ref_builtins (scenario two_recommended) no_call_turns default_weights
    = Ok g
    /\ (Grade.details g = []
        <-> (Scores.trajectory (Grade.scores g) = 1%float
             /\ Scores.content (Grade.scores g) = 1%float
             /\ Scores.safety (Grade.scores g) = 1%float
             /\ Scores.style (Grade.scores g) = 1%float)).
Proof.
  eexists. split.
  - vm_compute. reflexivity.
  - refine (details_empty_iff_flawless
              ref_builtins (scenario two_recommended)
              no_call_turns default_weights _ _).
    vm_compute. reflexivity.
Defined.

(** ** What grading reads of the turns *)

Lemma final_text_of_last (l : list TurnResult) (tr : TurnResult) :
  final_text_of (l ++ [tr]) = assistant_text tr.
Proof. unfold final_text_of. rewrite rev_app_distr. reflexivity. Qed.

Lemma index_minus_one {A : Type} (l : list A) (a : A) :
  index (l ++ [a]) (-1) = Ok a.
Proof.
  unfold index. change (-1 <? 0)%Z with true. cbv iota.
  rewrite length_app. cbn [List.length].
  replace (Z.of_nat (List.length l + 1) + -1)%Z with (Z.of_nat (List.length l))
    by lia.
  replace (Z.of_nat (List.length l) <? 0)%Z with false
    by (symmetry; apply Z.ltb_ge; lia).
  rewrite Nat2Z.id, nth_error_app2, Nat.sub_diag by lia. reflexivity.
Qed.

(** The last turn's text, as [turns[-1].assistant_text] reads it, is the
    final text. *)
Lemma last_turn_text {A : Type} (turns : list TurnResult)
      (k : string -> result A) :
  (last_turn <- index turns (-1) ;; k (assistant_text last_turn))
  = if is_nil turns then Raise IndexError else k (final_text_of turns).
Proof.
  destruct turns as [|tr0 l0] eqn:E.
  - reflexivity.
  - rewrite <- E.
    destruct (exists_last (l := turns)) as (l & tr & Hl);
      [rewrite E; discriminate|].
    rewrite Hl, index_minus_one, final_text_of_last. cbn [bind].
    destruct l; reflexivity.
Qed.

Lemma is_nil_length {A B : Type} (l : list A) (l' : list B) :
  List.length l = List.length l' -> is_nil l = is_nil l'.
Proof. destruct l, l'; simpl; intro H; try reflexivity; discriminate H. Qed.

Section Frame.
Variable B : builtins.
Variables turns turns' : list TurnResult.
Hypothesis Hcalls : map tool_calls turns = map tool_calls turns'.
Hypothesis Htext : final_text_of turns = final_text_of turns'.

Lemma same_length : List.length turns = List.length turns'.
Proof.
  rewrite <- (length_map tool_calls turns), Hcalls. apply length_map.
Qed.

Lemma trajectory_checks_frame (expect : json) (st : bucket) :
  trajectory_checks B expect turns st = trajectory_checks B expect turns' st.
Proof.
  unfold trajectory_checks. rewrite !flat_map_concat_map, Hcalls. reflexivity.
Qed.

Lemma include_after_check_frame (expect : json) (st : bucket) :
  include_after_check B expect turns st = include_after_check B expect turns' st.
Proof.
  unfold include_after_check.
  destruct (Py.get_default expect "approval_turn" JNull) as [at_|]; [|reflexivity].
  cbn [bind].
  destruct (Py.get_default expect "must_include_any_after_approval" (JList []))
    as [groups|]; [|reflexivity].
  cbn [bind].
  destruct (negb (Py.is_none at_) && Py.truthy groups); [|reflexivity].
  destruct (Num.int B at_) as [k|]; [|reflexivity].
  cbn [bind]. rewrite same_length.
  destruct (k <? Z.of_nat (List.length turns'))%Z; [|reflexivity].
  cbv zeta.
  rewrite (last_turn_text turns
             (fun txt => gs <- Py.iter groups ;;
                         check_each_r (lacks txt) 0%float
                                      MissingRequiredContentAfterApproval gs st)).
  rewrite (last_turn_text turns'
             (fun txt => gs <- Py.iter groups ;;
                         check_each_r (lacks txt) 0%float
                                      MissingRequiredContentAfterApproval gs st)).
  rewrite (is_nil_length _ _ same_length), Htext. reflexivity.
Qed.

Lemma content_checks_frame (expect : json) (st : bucket) :
  content_checks B expect turns st = content_checks B expect turns' st.
Proof.
  unfold content_checks. rewrite Htext.
  destruct (must_include_check expect (final_text_of turns') st) as [s1|];
    [|reflexivity].
  cbn [bind].
  destruct (should_include_check expect (final_text_of turns') s1) as [s2|];
    [|reflexivity].
  cbn [bind]. rewrite include_after_check_frame. reflexivity.
Qed.

End Frame.

(** X12: grading reads of the turns only the tool calls of each turn and
    the assistant text of the last turn: two transcripts that agree on these
    get the same result, grade or exception, whatever their user messages,
    earlier assistant texts, tool responses and raw events are. *)
Theorem grade_reads_calls_and_last_text (B : builtins) (test : json)
        (turns turns' : list TurnResult) (weights : json) :
  map tool_calls turns = map tool_calls turns' ->
  final_text_of turns = final_text_of turns' ->
  _grade_test B test turns weights = _grade_test B test turns' weights.
Proof.
  intros Hcalls Htext. unfold _grade_test.
  destruct (Py.get_default test "expect" (JObj [])) as [expect|]; [|reflexivity].
  cbn [bind].
  rewrite (trajectory_checks_frame B turns turns' Hcalls).
  destruct (trajectory_checks B expect turns' (1%float, [])) as [t|];
    [|reflexivity].
  cbn [bind].
  rewrite (content_checks_frame B turns turns' Hcalls Htext).
  rewrite Htext, !flat_map_concat_map, Hcalls. reflexivity.
Qed.

Lemma grade_reads_calls_and_last_text_witness :
  _grade_test ref_builtins (scenario required_expect) transcript_a default_weights
  = _grade_test ref_builtins (scenario required_expect) transcript_b default_weights.
Proof.
  apply (grade_reads_calls_and_last_text
           ref_builtins (scenario required_expect) transcript_a transcript_b
           default_weights); reflexivity.
Defined.

(** ** A hard failure under the default weights *)

Lemma hard_trajectory_fails_default : hard_trajectory_fails content_values = true.
Proof. vm_cast_no_check (eq_refl true). Qed.

Lemma hard_content_fails_default : hard_content_fails traj_values = true.
Proof. vm_cast_no_check (eq_refl true). Qed.

Lemma below_threshold_spec (a s y : float) :
  below_threshold a = true ->
  s = 1%float \/ s = 0%float -> y = 1%float \/ y = 0.9%float ->
  PrimFloat.leb pass_threshold (a + s * 0.1 + y * 0.1)%float = false.
Proof.
  unfold below_threshold. intros H Hs Hy.
  rewrite forallb_forall in H.
  assert (Hs' : In s [1%float; 0%float])
    by (destruct Hs as [-> | ->]; simpl; tauto).
  specialize (H s Hs'). rewrite forallb_forall in H.
  assert (Hy' : In y [1%float; 0.9%float])
    by (destruct Hy as [-> | ->]; simpl; tauto).
  specialize (H y Hy'). apply negb_true_iff in H. exact H.
Qed.

(** X13: under the default weights, a returned grade whose trajectory or
    content is 0.0 has a total below the pass threshold 0.70, and the
    verdict printed for it is FAIL with the count of passed scenarios left
    as it was. *)
Theorem hard_failure_fails_scenario (B : builtins) (test : json)
        (turns : list TurnResult) (weights : json) (g : Grade.t) :
  default_weighting B weights ->
  _grade_test B test turns weights = Ok g ->
  Scores.trajectory (Grade.scores g) = 0%float
  \/ Scores.content (Grade.scores g) = 0%float ->
  PrimFloat.leb pass_threshold (Scores.total (Grade.scores g)) = false
  /\ forall (t : json) (nm : json) (passed : nat),
       Py.subscript t "name" = Ok nm ->
       report_verdict t g passed
       = ([PrintFail nm (Scores.total (Grade.scores g))
                     (firstn 6 (Grade.details g))], Ok passed).
Proof.
  intros Hw Hg Hzero.
  assert (Hfail : PrimFloat.leb pass_threshold (Scores.total (Grade.scores g))
                  = false).
  { destruct (grade_inv _ _ _ _ _ Hg)
      as (expect & t & c & s & y & total & _ & Ht & Hc & Hs & Hy & Htot & Hsc & _).
    rewrite Hsc in *. cbn [Scores.trajectory Scores.content Scores.total] in *.
    rewrite (weighted_total_default _ _ _ _ _ _ _ Hw Htot).
    pose proof (traj_value_of_grade _ _ _ _ _ Ht) as Vt.
    pose proof (content_value_of_grade _ _ _ _ _ Hc) as Vc.
    apply safety_check_values in Hs. apply style_check_values in Hy.
    destruct Hzero as [Hz | Hz]; rewrite Hz.
    - apply below_threshold_spec; [|exact Hs | exact Hy].
      pose proof hard_trajectory_fails_default as H.
      unfold hard_trajectory_fails in H. rewrite forallb_forall in H.
      apply H. exact (score_value_listed _ content_orbit_length _ orbit_09 Vc).
    - apply below_threshold_spec; [|exact Hs | exact Hy].
      pose proof hard_content_fails_default as H.
      unfold hard_content_fails in H. rewrite forallb_forall in H.
      apply (H (fst t)).
      exact (score_value_listed _ traj_orbit_length _ orbit_085 Vt). }
  split; [exact Hfail|].
  intros t nm passed Hnm. unfold report_verdict. cbv zeta.
  rewrite Hfail, Hnm. reflexivity.
Qed.

Lemma hard_failure_fails_scenario_witness :
  exists g,
    _grade_test ref_builtins (scenario required_expect) no_call_turns default_weights
    = Ok g
    /\ PrimFloat.leb pass_threshold (Scores.total (Grade.scores g)) = false.
Proof.
  eexists. split.
  - vm_compute. reflexivity.
  - match goal with
    | |- context [Grade.scores ?g] =>
        refine (proj1 (hard_failure_fails_scenario
                         ref_builtins (scenario required_expect) no_call_turns
                         default_weights g _ _ _))
    end.
    + repeat split.
    + vm_compute. reflexivity.
    + left. reflexivity.
Defined.

(** ** When the extractor and the turn runner return *)

Lemma is_ok_bind {A B : Type} (c : result A) (k : A -> result B) (b : bool) :
  (forall a, c = Ok a -> is_ok (k a) = b) ->
  is_ok (bind c k) = is_ok c && b.
Proof.
  intro H. destruct c as [a|e]; simpl.
  - apply H. reflexivity.
  - reflexivity.
Qed.

Lemma scan_part_ok (p : json) (st : list string * list string) :
  is_ok (scan_part p st) = is_obj p.
Proof. unfold scan_part. destruct st as [c r]. destruct p; reflexivity. Qed.

Lemma scan_parts_ok (ps : list json) :
  forall st, is_ok (scan_parts ps st) = forallb is_obj ps.
Proof.
  induction ps as [|p ps IH]; intro st; simpl.
  - reflexivity.
  - rewrite (is_ok_bind _ _ (forallb is_obj ps)) by (intros st' _; apply IH).
    rewrite scan_part_ok. reflexivity.
Qed.

Lemma structured_scan_ok (events : list json) :
  forall st, is_ok (structured_scan events st) = forallb well_shaped events.
Proof.
  induction events as [|ev events IH]; intro st; simpl.
  - reflexivity.
  - unfold well_shaped at 1.
    destruct (event_parts ev) as [ps|e]; simpl; [|reflexivity].
    rewrite (is_ok_bind _ _ (forallb well_shaped events)) by (intros st' _; apply IH).
    rewrite scan_parts_ok. reflexivity.
Qed.

Lemma event_parts_raises (ev : json) (e : exn) :
  event_parts ev = Raise e -> e = AttributeError \/ e = TypeError.
Proof.
  unfold event_parts. destruct ev as [| | | | | |d]; simpl;
    try (intro H; injection H as <-; left; reflexivity).
  destruct (Py.or_ (Py.dict_get_default d "content" JNull) (JObj []))
    as [| | | | | |cd]; simpl;
    try (intro H; injection H as <-; left; reflexivity).
  destruct (Py.or_ (Py.dict_get_default cd "parts" JNull) (JList [])); simpl;
    intro H; try discriminate H; injection H as <-; right; reflexivity.
Qed.

Lemma scan_parts_raises (ps : list json) (e : exn) :
  forall st, scan_parts ps st = Raise e -> e = AttributeError.
Proof.
  induction ps as [|p ps IH]; intros st H; simpl in H.
  - discriminate H.
  - destruct (scan_part p st) as [st'|e'] eqn:E; simpl in H.
    + exact (IH _ H).
    + injection H as <-. unfold scan_part in E. destruct st as [c r].
      destruct p; simpl in E; try discriminate E; injection E as <-; reflexivity.
Qed.

Lemma structured_scan_raises (events : list json) (e : exn) :
  forall st, structured_scan events st = Raise e ->
             e = AttributeError \/ e = TypeError.
Proof.
  induction events as [|ev events IH]; intros st H; simpl in H.
  - discriminate H.
  - destruct (event_parts ev) as [ps|e'] eqn:E; simpl in H.
    + destruct (scan_parts ps st) as [st'|e''] eqn:E'; simpl in H.
      * exact (IH _ H).
      * injection H as <-. left. exact (scan_parts_raises _ _ _ E').
    + injection H as <-. exact (event_parts_raises _ _ E).
Qed.

Lemma extractor_ok (events : list json) :
  is_ok (_extract_function_calls_and_responses events) = forallb well_shaped events.
Proof.
  unfold _extract_function_calls_and_responses.
  rewrite (is_ok_bind _ _ true).
  - rewrite structured_scan_ok. apply andb_true_r.
  - intros [c r] _. destruct (is_nil c || is_nil r); reflexivity.
Qed.

(** X14: the extractor returns exactly when every event is well shaped (a
    mapping whose "content", when it counts as true, is a mapping whose
    "parts", when they count as true, form a sequence of mappings);
    otherwise it raises AttributeError or TypeError. *)
Theorem extractor_returns_iff_well_shaped (events : list json) :
  is_ok (_extract_function_calls_and_responses events)
  = forallb well_shaped events
  /\ forall e, _extract_function_calls_and_responses events = Raise e ->
               e = AttributeError \/ e = TypeError.
Proof.
  split; [apply extractor_ok|].
  unfold _extract_function_calls_and_responses.
  - intros e H.
    destruct (structured_scan events ([], [])) as [[c r]|e'] eqn:E; simpl in H.
    + destruct (is_nil c || is_nil r); discriminate H.
    + injection H as <-. exact (structured_scan_raises _ _ _ E).
Qed.

Lemma last_assistant_text_ok (events : list json) :
  forallb well_shaped events = true -> is_ok (_last_assistant_text events) = true.
Proof.
  intro H. apply forallb_rev in H. destruct (scan_text_total _ H) as [t Ht].
  unfold _last_assistant_text. rewrite Ht. reflexivity.
Qed.

(** X15: a turn posts one request; it returns a turn result exactly when
    the agent answered with events that are all well shaped, and the result
    then carries the user text sent and the events received. *)
Theorem turn_accepted_iff_well_shaped (T : transport) (i j : nat) (text : json) :
  trace (_run_turn T i j text) = [PostRun i j text]
  /\ is_ok (outcome (_run_turn T i j text))
     = match run_response T i j text with
       | Some events => forallb well_shaped events
       | None => false
       end
  /\ forall tr, outcome (_run_turn T i j text) = Ok tr ->
                user tr = text /\ run_response T i j text = Some (raw_events tr).
Proof.
  unfold _run_turn. cbn [emit lift io_bind trace outcome fst snd app].
  destruct (run_response T i j text) as [events|]; cbn [fst snd].
  - split; [reflexivity|]. split.
    + destruct (forallb well_shaped events) eqn:W.
      * pose proof (last_assistant_text_ok events W) as Ht.
        destruct (_last_assistant_text events) as [txt|]; [|discriminate Ht].
        cbn [bind].
        pose proof (extractor_ok events) as Hx. rewrite W in Hx.
        destruct (_extract_function_calls_and_responses events); [|discriminate Hx].
        reflexivity.
      * destruct (_last_assistant_text events) as [txt|]; [|reflexivity].
        cbn [bind].
        pose proof (extractor_ok events) as Hx. rewrite W in Hx.
        destruct (_extract_function_calls_and_responses events); [discriminate Hx|].
        reflexivity.
    + intros tr H.
      destruct (_last_assistant_text events); cbn [bind] in H; [|discriminate H].
      destruct (_extract_function_calls_and_responses events); cbn [bind] in H;
        [|discriminate H].
      injection H as <-. split; reflexivity.
  - split; [reflexivity|]. split; [reflexivity|]. intros tr H. discriminate H.
Qed.

(** ** The extractor invents no name *)

Lemma dict_get_obj (d : obj) (k : string) (fc : obj) :
  Py.dict_get d k = JObj fc -> Py.dict_find k d = Some (JObj fc).
Proof.
  unfold Py.dict_get, Py.dict_get_default.
  destruct (Py.dict_find k d); intro H; [f_equal; exact H | discriminate H].
Qed.

Lemma dict_get_str (d : obj) (k : string) (s : string) :
  Py.dict_get d k = JStr s -> Py.dict_find k d = Some (JStr s).
Proof.
  unfold Py.dict_get, Py.dict_get_default.
  destruct (Py.dict_find k d); intro H; [f_equal; exact H | discriminate H].
Qed.

Lemma append_name_In (v : json) (n : string) :
  In n (append_name v []) ->
  exists fc, v = JObj fc /\ Py.dict_find "name" fc = Some (JStr n).
Proof.
  unfold append_name. destruct v as [| | | | | |fc]; try contradiction.
  destruct (Py.dict_get fc "name") as [| | | |s| |] eqn:E; try contradiction.
  simpl. intros [<- | []]. exists fc. split; [reflexivity|].
  apply dict_get_str. exact E.
Qed.

Lemma or_obj (a b : json) (fc : obj) :
  Py.or_ a b = JObj fc -> a = JObj fc \/ b = JObj fc.
Proof. unfold Py.or_. destruct (Py.truthy a); intro H; [left | right]; exact H. Qed.

Lemma part_name_carried (key alt n : string) (d : obj) :
  In n (append_name (Py.or_ (Py.dict_get d key) (Py.dict_get d alt)) []) ->
  carries_name [key; alt] n d.
Proof.
  intro H. apply append_name_In in H. destruct H as (fc & Hor & Hname).
  apply or_obj in Hor. destruct Hor as [Hk | Hk]; apply dict_get_obj in Hk.
  - exists key, fc. split; [left; reflexivity|]. split; assumption.
  - exists alt, fc. split; [right; left; reflexivity|]. split; assumption.
Qed.

Lemma name_under_carried (key alt n : string) (d : obj) :
  In n (name_under key d) -> carries_name [key; alt] n d.
Proof.
  unfold name_under. destruct (Py.dict_mem key d); [|intros []].
  intro H. apply append_name_In in H. destruct H as (fc & Hk & Hname).
  apply dict_get_obj in Hk.
  exists key, fc. split; [left; reflexivity|]. split; assumption.
Qed.

Lemma walk_self (d : obj) : In d (_walk_json (JObj d)).
Proof. simpl. left. reflexivity. Qed.

Lemma walk_member (d : obj) (k : string) (v : json) (x : obj) :
  Py.dict_find k d = Some v -> In x (_walk_json v) -> In x (_walk_json (JObj d)).
Proof.
  intros Hfind Hx. apply dict_find_In in Hfind. simpl. right.
  apply in_flat_map. exists (k, v). split; assumption.
Qed.

Lemma walk_item (l : list json) (v : json) (x : obj) :
  In v l -> In x (_walk_json v) -> In x (_walk_json (JList l)).
Proof.
  intros Hv Hx. simpl. apply in_flat_map. exists v. split; assumption.
Qed.

Lemma iter_obj_item (v : json) (ps : list json) (d : obj) :
  Py.iter v = Ok ps -> In (JObj d) ps -> v = JList ps.
Proof.
  destruct v; simpl; intros H Hin; try discriminate H; injection H as <-.
  - apply in_map_iff in Hin. destruct Hin as (c & Hc & _). discriminate Hc.
  - reflexivity.
  - apply in_map_iff in Hin. destruct Hin as (kv & Hkv & _). discriminate Hkv.
Qed.

(** A part of an event is one of the mappings the descent visits. *)
Lemma part_walked (ev : json) (ps : list json) (d : obj) :
  event_parts ev = Ok ps -> In (JObj d) ps -> In d (_walk_json ev).
Proof.
  unfold event_parts. destruct ev as [| | | | | |ed]; simpl; try discriminate.
  unfold Py.or_.
  destruct (Py.truthy (Py.dict_get_default ed "content" JNull)) eqn:Ec.
  - pose proof (truthy_dict_get ed "content" Ec) as Hc.
    fold (Py.dict_get ed "content") in *.
    destruct (Py.dict_get ed "content") as [| | | | | |cd]; simpl; try discriminate.
    destruct (Py.truthy (Py.dict_get_default cd "parts" JNull)) eqn:Ep.
    + pose proof (truthy_dict_get cd "parts" Ep) as Hp.
      fold (Py.dict_get cd "parts") in *.
      intros H Hin. rewrite (iter_obj_item _ _ _ H Hin) in Hp.
      apply (walk_member ed "content" _ d Hc).
      apply (walk_member cd "parts" _ d Hp).
      apply (walk_item ps (JObj d) d Hin). apply walk_self.
    + simpl. intros H Hin. injection H as <-. destruct Hin.
  - simpl. intros H Hin. injection H as <-. destruct Hin.
Qed.

Lemma scan_parts_names (ps : list json) :
  forall c r c' r',
    scan_parts ps (c, r) = Ok (c', r') ->
    (forall n, In n c' ->
               In n c \/ exists d, In (JObj d) ps
                                   /\ carries_name ["functionCall"; "function_call"] n d)
    /\ (forall n, In n r' ->
                  In n r \/ exists d,
                      In (JObj d) ps
                      /\ carries_name ["functionResponse"; "function_response"] n d).
Proof.
  induction ps as [|p ps IH]; intros c r c' r' H; simpl in H.
  - injection H as <- <-. split; intros n Hn; left; exact Hn.
  - destruct (scan_part p (c, r)) as [[c1 r1]|e] eqn:E; simpl in H;
      [|discriminate H].
    apply scan_part_inv in E. destruct E as (d & -> & -> & ->).
    destruct (IH _ _ _ _ H) as [Hc Hr]. split; intros n Hn.
    + destruct (Hc n Hn) as [Hin | (d' & Hd' & Hcar)].
      * apply in_app_or in Hin. destruct Hin as [Hin | Hin]; [left; exact Hin|].
        right. exists d. split; [left; reflexivity|].
        apply part_name_carried. exact Hin.
      * right. exists d'. split; [right; exact Hd' | exact Hcar].
    + destruct (Hr n Hn) as [Hin | (d' & Hd' & Hcar)].
      * apply in_app_or in Hin. destruct Hin as [Hin | Hin]; [left; exact Hin|].
        right. exists d. split; [left; reflexivity|].
        apply part_name_carried. exact Hin.
      * right. exists d'. split; [right; exact Hd' | exact Hcar].
Qed.

Lemma named_in_cons (keys : list string) (ev : json) (events : list json)
      (n : string) :
  named_in keys events n -> named_in keys (ev :: events) n.
Proof.
  intros (d & Hd & Hcar). exists d. split; [|exact Hcar].
  simpl in *. apply in_or_app. right. exact Hd.
Qed.

Lemma named_in_head (keys : list string) (ev : json) (events : list json)
      (n : string) (d : obj) :
  In d (_walk_json ev) -> carries_name keys n d -> named_in keys (ev :: events) n.
Proof.
  intros Hd Hcar. exists d. split; [|exact Hcar].
  simpl. apply in_or_app. left. exact Hd.
Qed.

Lemma structured_scan_names (events : list json) :
  forall c r c' r',
    structured_scan events (c, r) = Ok (c', r') ->
    (forall n, In n c' ->
               In n c \/ named_in ["functionCall"; "function_call"] events n)
    /\ (forall n, In n r' ->
                  In n r
                  \/ named_in ["functionResponse"; "function_response"] events n).
Proof.
  induction events as [|ev events IH]; intros c r c' r' H; simpl in H.
  - injection H as <- <-. split; intros n Hn; left; exact Hn.
  - destruct (event_parts ev) as [ps|e] eqn:E; simpl in H; [|discriminate H].
    destruct (scan_parts ps (c, r)) as [[c1 r1]|e] eqn:E1; simpl in H;
      [|discriminate H].
    destruct (scan_parts_names _ _ _ _ _ E1) as [Hc1 Hr1].
    destruct (IH _ _ _ _ H) as [Hc Hr]. split; intros n Hn.
    + destruct (Hc n Hn) as [Hin | Hnamed].
      * destruct (Hc1 n Hin) as [Hin0 | (d & Hd & Hcar)]; [left; exact Hin0|].
        right. apply (named_in_head _ _ _ _ d); [|exact Hcar].
        exact (part_walked _ _ _ E Hd).
      * right. apply named_in_cons. exact Hnamed.
    + destruct (Hr n Hn) as [Hin | Hnamed].
      * destruct (Hr1 n Hin) as [Hin0 | (d & Hd & Hcar)]; [left; exact Hin0|].
        right. apply (named_in_head _ _ _ _ d); [|exact Hcar].
        exact (part_walked _ _ _ E Hd).
      * right. apply named_in_cons. exact Hnamed.
Qed.

Lemma walked_names_named (key alt : string) (events : list json) (n : string) :
  In n (walked_names key (JList events)) -> named_in [key; alt] events n.
Proof.
  unfold walked_names. intro H. apply in_flat_map in H.
  destruct H as (d & Hd & Hn). exists d. split; [exact Hd|].
  apply name_under_carried. exact Hn.
Qed.

(** X16: the extractor invents no name.  Every name it returns among the
    calls is the string stored as "name" in a mapping that some mapping
    inside the events holds under "functionCall" or "function_call"; the
    same holds for the responses with "functionResponse" and
    "function_response". *)
Theorem extracted_names_occur_in_events (events : list json)
        (calls responses : list string) :
  _extract_function_calls_and_responses events = Ok (calls, responses) ->
  (forall n, In n calls -> named_in ["functionCall"; "function_call"] events n)
  /\ (forall n, In n responses ->
                named_in ["functionResponse"; "function_response"] events n).
Proof.
  intro H.
  destruct (structured_scan events ([], [])) as [[c r]|e] eqn:E.
  - rewrite (extract_after_scan _ _ _ E) in H.
    destruct (structured_scan_names _ _ _ _ _ E) as [Hc Hr].
    destruct (is_nil c || is_nil r); injection H as <- <-; split; intros n Hn.
    + apply in_app_or in Hn. destruct Hn as [Hn | Hn].
      * destruct (Hc n Hn) as [[] | Hnamed]. exact Hnamed.
      * apply walked_names_named. exact Hn.
    + apply in_app_or in Hn. destruct Hn as [Hn | Hn].
      * destruct (Hr n Hn) as [[] | Hnamed]. exact Hnamed.
      * apply walked_names_named. exact Hn.
    + destruct (Hc n Hn) as [[] | Hnamed]. exact Hnamed.
    + destruct (Hr n Hn) as [[] | Hnamed]. exact Hnamed.
  - unfold _extract_function_calls_and_responses in H. rewrite E in H.
    discriminate H.
Qed.

Lemma extracted_names_occur_in_events_witness :
  _extract_function_calls_and_responses text_then_tools_events
  = Ok (["kb_search"], ["kb_search"])
  /\ named_in ["functionCall"; "function_call"] text_then_tools_events "kb_search".
Proof.
  split; [reflexivity|].
  refine (proj1 (extracted_names_occur_in_events
                   text_then_tools_events ["kb_search"] ["kb_search"] eq_refl)
            "kb_search" (or_introl eq_refl)).
Defined.

(** ** A scenario that returns, and the counts of a run *)

Lemma io_bind_inv {A B : Type} (c : io A) (k : A -> io B) (tr : list effect)
      (b : B) :
  io_bind c k = (tr, Ok b) ->
  exists tr1 a tr2, c = (tr1, Ok a) /\ k a = (tr2, Ok b) /\ tr = tr1 ++ tr2.
Proof.
  destruct c as [tr1 [a|e]]; simpl; intro H.
  - destruct (k a) as [tr2 r] eqn:E. injection H as <- ->.
    exists tr1, a, tr2. repeat split. exact E.
  - discriminate H.
Qed.

Lemma lift_inv {A : Type} (r : result A) (tr : list effect) (a : A) :
  lift r = (tr, Ok a) -> r = Ok a /\ tr = [].
Proof. unfold lift. intro H. injection H as <- ->. split; reflexivity. Qed.

Section ScenarioRuns.
Variable T : transport.
Variable B : builtins.

Lemma run_turn_inv (i j : nat) (text : json) (tr : list effect) (r : TurnResult) :
  _run_turn T i j text = (tr, Ok r) ->
  tr = [PostRun i j text]
  /\ user r = text
  /\ run_response T i j text = Some (raw_events r).
Proof.
  unfold _run_turn. cbn [emit lift io_bind app].
  destruct (run_response T i j text) as [events|]; [|discriminate].
  destruct (_last_assistant_text events); cbn [bind]; [|discriminate].
  destruct (_extract_function_calls_and_responses events); cbn [bind];
    [|discriminate].
  intro H. injection H as <- <-. repeat split.
Qed.

Lemma run_turns_inv (i : nat) (turns : list json) :
  forall j acc tr res,
    run_turns T i j turns acc = (tr, Ok res) ->
    exists new,
      res = acc ++ new
      /\ Forall2 (fun turn r => Py.subscript turn "user" = Ok (user r)) turns new
      /\ tr = posts_of i j new
      /\ forall k r, nth_error new k = Some r ->
                     run_response T i (j + k) (user r) = Some (raw_events r).
Proof.
  induction turns as [|turn turns IH]; intros j acc tr res H.
  - simpl in H. injection H as <- <-. exists []. rewrite app_nil_r.
    split; [reflexivity|]. split; [constructor|]. split; [reflexivity|].
    intros k r Hk. destruct k; discriminate Hk.
  - cbn [run_turns] in H.
    apply io_bind_inv in H. destruct H as (tr1 & text & tr2 & Hsub & H & ->).
    apply lift_inv in Hsub. destruct Hsub as [Hsub ->].
    apply io_bind_inv in H. destruct H as (tr3 & r1 & tr4 & Hrun & H & ->).
    apply run_turn_inv in Hrun. destruct Hrun as (-> & Huser & Hresp).
    apply IH in H. destruct H as (new & -> & Hall & -> & Hnth).
    exists (r1 :: new). rewrite <- app_assoc. split; [reflexivity|].
    split; [constructor; [rewrite Huser; exact Hsub | exact Hall]|].
    split; [rewrite posts_of_cons, Huser; reflexivity|].
    intros k r Hk. destruct k as [|k].
    + injection Hk as <-. rewrite Nat.add_0_r, Huser. exact Hresp.
    + replace (j + S k) with (S j + k) by lia. apply Hnth. exact Hk.
Qed.

Lemma run_scenario_inv (w : json) (i : nat) (t : json) (tr : list effect)
      (g : Grade.t) :
  run_scenario T B w i t = (tr, Ok g) ->
  session_created T i = true
  /\ exists turns trs,
       (tv <- Py.get_default t "turns" (JList []) ;; Py.iter tv) = Ok turns
       /\ Forall2 (fun turn r => Py.subscript turn "user" = Ok (user r)) turns trs
       /\ tr = PostSession i :: posts_of i 0 trs
       /\ (forall j r, nth_error trs j = Some r ->
                       run_response T i j (user r) = Some (raw_events r))
       /\ _grade_test B t trs w = Ok g.
Proof.
  unfold run_scenario, _create_session. intro H.
  apply io_bind_inv in H. destruct H as (tr1 & u & tr2 & Hs & H & ->).
  cbn [emit lift io_bind app] in Hs.
  destruct (session_created T i); [|discriminate Hs].
  injection Hs as <-. split; [reflexivity|].
  apply io_bind_inv in H. destruct H as (tr3 & turns & tr4 & Hturns & H & ->).
  apply lift_inv in Hturns. destruct Hturns as [Hturns ->].
  apply io_bind_inv in H. destruct H as (tr5 & trs & tr6 & Hrun & H & ->).
  apply lift_inv in H. destruct H as [Hg ->].
  apply run_turns_inv in Hrun. destruct Hrun as (new & -> & Hall & -> & Hnth).
  exists turns, new. cbn [app] in *. rewrite app_nil_r.
  repeat split; assumption.
Qed.

Lemma report_verdict_inv (t : json) (g : Grade.t) (p : nat) (tr : list effect)
      (p' : nat) :
  report_verdict t g p = (tr, Ok p') ->
  exists nm,
    Py.subscript t "name" = Ok nm
    /\ tr = [verdict_of nm g]
    /\ p' = p + (if passes g then 1 else 0).
Proof.
  unfold report_verdict, verdict_of, passes. cbv zeta.
  destruct (PrimFloat.leb pass_threshold (Scores.total (Grade.scores g)));
    destruct (Py.subscript t "name") as [nm|]; cbn [lift emit io_ret io_bind app];
    intro H; try discriminate H; injection H as <- <-; exists nm;
    (split; [reflexivity|]); (split; [reflexivity|]); lia.
Qed.

Lemma count_passed_app (l1 l2 : list Grade.t) :
  count_passed (l1 ++ l2) = count_passed l1 + count_passed l2.
Proof. unfold count_passed. rewrite filter_app, length_app. reflexivity. Qed.

Lemma count_passed_le (l : list Grade.t) : count_passed l <= List.length l.
Proof. unfold count_passed. apply filter_length_le. Qed.

Lemma posts_are_scenario_effects (i j : nat) (trs : list TurnResult) :
  forallb is_scenario_effect (posts_of i j trs) = true.
Proof.
  unfold posts_of. apply forallb_forall. intros e He.
  apply in_map_iff in He. destruct He as (p & <- & _). reflexivity.
Qed.

Lemma run_scenarios_inv (w : json) (tests : list json) :
  forall i st tr st',
    run_scenarios T B w i tests st = (tr, Ok st') ->
    exists new,
      fst st' = fst st ++ new
      /\ snd st' = snd st + count_passed new
      /\ Forall2 (graded_as B w) tests new
      /\ forallb is_scenario_effect tr = true.
Proof.
  induction tests as [|t tests IH]; intros i st tr st' H.
  - simpl in H. injection H as <- <-. exists []. rewrite app_nil_r.
    split; [reflexivity|]. split; [unfold count_passed; simpl; lia|].
    split; [constructor | reflexivity].
  - cbn [run_scenarios] in H.
    apply io_bind_inv in H. destruct H as (tr1 & g & tr2 & Hrun & H & ->).
    apply io_bind_inv in H. destruct H as (tr3 & p & tr4 & Hv & H & ->).
    apply run_scenario_inv in Hrun.
    destruct Hrun as (_ & turns & trs & _ & _ & -> & _ & Hg).
    apply report_verdict_inv in Hv. destruct Hv as (nm & Hnm & -> & ->).
    apply IH in H. cbn [fst snd] in H.
    destruct H as (new & Hfst & Hsnd & Hall & Htr).
    exists (g :: new). rewrite Hfst, Hsnd, <- app_assoc.
    split; [reflexivity|]. split.
    { change (g :: new) with ([g] ++ new). rewrite count_passed_app.
      unfold count_passed at 2. simpl. destruct (passes g); simpl; lia. }
    split.
    { constructor; [|exact Hall]. split; [exists trs; exact Hg|].
      exists nm. exact Hnm. }
    rewrite !forallb_app, Htr. cbn [forallb is_scenario_effect].
    rewrite posts_are_scenario_effects. unfold verdict_of.
    destruct (passes g); reflexivity.
Qed.

End ScenarioRuns.

(** X17: a scenario that returns a grade has made one session request and
    then one run request per turn of the scenario, in the order of the
    turns and each with that turn's "user" value; every turn was answered,
    and the grade is the grade of exactly these turn results. *)
Theorem scenario_requests_follow_turns (T : transport) (B : builtins) (w : json)
        (i : nat) (t : json) (tr : list effect) (g : Grade.t) :
  run_scenario T B w i t = (tr, Ok g) ->
  exists turns trs,
    (tv <- Py.get_default t "turns" (JList []) ;; Py.iter tv) = Ok turns
    /\ Forall2 (fun turn r => Py.subscript turn "user" = Ok (user r)) turns trs
    /\ tr = PostSession i :: posts_of i 0 trs
    /\ List.length tr = S (List.length turns)
    /\ (forall j r, nth_error trs j = Some r ->
                    run_response T i j (user r) = Some (raw_events r))
    /\ _grade_test B t trs w = Ok g.
Proof.
  intro H. apply run_scenario_inv in H.
  destruct H as (_ & turns & trs & Hturns & Hall & -> & Hnth & Hg).
  exists turns, trs. repeat split; try assumption.
  cbn [List.length]. f_equal. unfold posts_of.
  rewrite length_map, length_combine, length_seq, Nat.min_id.
  symmetry. exact (Forall2_length Hall).
Qed.

Lemma scenario_requests_follow_turns_witness :
  exists g trs,
    run_scenario greeting_transport ref_builtins default_weights 0
                 (JObj [("name", JStr "vpn");
                        ("turns", JList [JObj [("user", JStr "my vpn is down")];
                                         JObj [("user", JStr "thanks")]])])
    = ([PostSession 0; PostRun 0 0 (JStr "my vpn is down");
        PostRun 0 1 (JStr "thanks")], Ok g)
    /\ [PostSession 0; PostRun 0 0 (JStr "my vpn is down"); PostRun 0 1 (JStr "thanks")]
       = PostSession 0 :: posts_of 0 0 trs.
Proof.
  eexists.
  destruct (scenario_requests_follow_turns
              greeting_transport ref_builtins default_weights 0
              (JObj [("name", JStr "vpn");
                     ("turns", JList [JObj [("user", JStr "my vpn is down")];
                                      JObj [("user", JStr "thanks")]])])
              _ _ eq_refl)
    as (turns & trs & _ & _ & Htr & _).
  exists trs. split; [reflexivity | exact Htr].
Defined.

(** X18: when [main] returns, its summary holds one grade per scenario of
    the file, in order, each the grade of that scenario; [total] is their
    number, [passed] the number of grades whose total is at least the
    threshold 0.70, so [passed <= total]; and the effects of the run end
    with the one write of the report, which carries this summary, and the
    summary line, everything before being requests and verdict lines. *)
Theorem main_summary_counts (T : transport) (B : builtins) (spec : json)
        (tr : list effect) (s : Summary.t) :
  main T B spec = (tr, Ok s) ->
  exists cfg tests pre path,
    load_spec spec = Ok cfg
    /\ Py.iter (cfg_tests cfg) = Ok tests
    /\ Forall2 (graded_as B (cfg_weights cfg)) tests (Summary.results s)
    /\ Summary.total s = List.length tests
    /\ Summary.passed s = count_passed (Summary.results s)
    /\ Summary.passed s <= Summary.total s
    /\ Summary.threshold s = pass_threshold
    /\ cfg_report_path cfg = JStr path
    /\ tr = pre ++ [WriteReport path s; PrintSummary (Summary.passed s) (Summary.total s)]
    /\ forallb is_scenario_effect pre = true.
Proof.
  unfold main. intro H.
  apply io_bind_inv in H. destruct H as (tr1 & cfg & tr2 & Hload & H & ->).
  apply lift_inv in Hload. destruct Hload as [Hload ->].
  apply io_bind_inv in H. destruct H as (tr3 & tests & tr4 & Hiter & H & ->).
  apply lift_inv in Hiter. destruct Hiter as [Hiter ->].
  apply io_bind_inv in H. destruct H as (pre & st & tr5 & Hrun & H & ->).
  cbv zeta in H.
  apply io_bind_inv in H. destruct H as (tr6 & path & tr7 & Hpath & H & ->).
  apply lift_inv in Hpath. destruct Hpath as [Hpath ->].
  cbn [emit io_ret io_bind app] in H. injection H as <- <-.
  apply run_scenarios_inv in Hrun. cbn [fst snd app] in Hrun.
  destruct Hrun as (new & Hfst & Hsnd & Hall & Hpre).
  exists cfg, tests, pre, path. cbn [Summary.results Summary.total Summary.passed
                                      Summary.threshold app].
  rewrite Hfst, Hsnd. cbn [Nat.add].
  repeat split; try assumption.
  - symmetry. exact (Forall2_length Hall).
  - apply count_passed_le.
  - destruct (cfg_report_path cfg); try discriminate Hpath.
    injection Hpath as ->. reflexivity.
Qed.

Lemma main_summary_counts_witness :
  exists tr s,
    main greeting_transport ref_builtins two_scenarios_spec = (tr, Ok s)
    /\ Summary.total s = 2
    /\ Summary.passed s = count_passed (Summary.results s).
Proof.
  eexists. eexists. split; [vm_compute; reflexivity|].
  match goal with
  | |- context [Summary.results ?s] =>
      destruct (main_summary_counts greeting_transport ref_builtins
                  two_scenarios_spec _ s ltac:(vm_compute; reflexivity))
        as (cfg & tests & pre & path & _ & _ & _ & _ & Hp & _)
  end.
  split; [reflexivity | exact Hp].
Defined.

(** ** A scenario without a name, a file without a key *)

Lemma grade_name (B : builtins) (d : obj) (turns : list TurnResult) (w : json)
      (g : Grade.t) :
  _grade_test B (JObj d) turns w = Ok g -> Grade.name g = Py.dict_get d "name".
Proof.
  unfold _grade_test. cbn [Py.get_default Py.get bind]. intro H.
  destruct (trajectory_checks B _ turns (1%float, [])) as [t|];
    cbn [bind] in H; [|discriminate H].
  destruct (content_checks B _ turns (1%float, snd t)) as [c|];
    cbn [bind] in H; [|discriminate H].
  destruct (safety_check B _ (final_text_of turns) (1%float, snd c)) as [s|];
    cbn [bind] in H; [|discriminate H].
  destruct (style_check _ (final_text_of turns) (1%float, snd s)) as [y|];
    cbn [bind] in H; [|discriminate H].
  destruct (weighted_total B w (fst t) (fst c) (fst s) (fst y)) as [total|];
    cbn [bind] in H; [|discriminate H].
  injection H as <-. reflexivity.
Qed.

Lemma run_scenarios_unnamed (T : transport) (B : builtins) (w : json) (i : nat)
      (d : obj) (rest : list json) (st : list Grade.t * nat)
      (tr : list effect) (g : Grade.t) :
  run_scenario T B w i (JObj d) = (tr, Ok g) ->
  Py.dict_find "name" d = None ->
  run_scenarios T B w i (JObj d :: rest) st = (tr, Raise KeyError).
Proof.
  intros Hrun Hname. cbn [run_scenarios]. rewrite Hrun, io_bind_ok.
  unfold report_verdict. cbv zeta. cbn [Py.subscript]. rewrite Hname.
  destruct (PrimFloat.leb pass_threshold (Scores.total (Grade.scores g)));
    cbn [lift io_bind trace outcome fst snd]; rewrite app_nil_r; reflexivity.
Qed.

(** X19: a scenario without a "name" key is run and graded, its grade
    carrying None as name, and then ends the run: printing the verdict
    reads [t['name']], which raises KeyError after the requests of that
    scenario and before any verdict for it; no report is written. *)
Theorem unnamed_scenario_aborts_run (T : transport) (B : builtins) (spec : json)
        (cfg : config) (pre : list json) (d : obj) (rest : list json)
        (tr0 : list effect) (st : list Grade.t * nat)
        (tr : list effect) (g : Grade.t) :
  load_spec spec = Ok cfg ->
  Py.iter (cfg_tests cfg) = Ok (pre ++ JObj d :: rest) ->
  run_scenarios T B (cfg_weights cfg) 0 pre ([], 0) = (tr0, Ok st) ->
  run_scenario T B (cfg_weights cfg) (List.length pre) (JObj d) = (tr, Ok g) ->
  Py.dict_find "name" d = None ->
  main T B spec = (tr0 ++ tr, Raise KeyError)
  /\ Grade.name g = JNull.
Proof.
  intros Hload Hiter Hpre Hrun Hname. split.
  - unfold main. rewrite Hload, io_bind_lift_ok, Hiter, io_bind_lift_ok.
    rewrite run_scenarios_app, Hpre. cbn [Nat.add].
    rewrite io_bind_ok, (run_scenarios_unnamed _ _ _ _ _ _ _ _ _ Hrun Hname).
    reflexivity.
  - apply run_scenario_inv in Hrun.
    destruct Hrun as (_ & turns & trs & _ & _ & _ & _ & Hg).
    rewrite (grade_name _ _ _ _ _ Hg).
    unfold Py.dict_get, Py.dict_get_default. rewrite Hname. reflexivity.
Qed.

Lemma unnamed_scenario_aborts_run_witness :
  main greeting_transport ref_builtins unnamed_spec
  = ([PostSession 0; PrintPass (JStr "first") 1%float; PostSession 1],
     Raise KeyError).
Proof.
  refine (proj1 (unnamed_scenario_aborts_run
                   greeting_transport ref_builtins unnamed_spec
                   _ [JObj [("name", JStr "first")]]
                   [("description", JStr "no name given")] []
                   [PostSession 0; PrintPass (JStr "first") 1%float] _
                   [PostSession 1] _
                   eq_refl eq_refl _ _ eq_refl)).
  - vm_compute. reflexivity.
  - vm_compute. reflexivity.
Defined.

(** X20: a scenario file without the key "appName", or with it and a
    string or no "apiBase" but without the key "tests", makes [main] raise
    KeyError before any request is made or anything is printed or
    written. *)
Theorem missing_key_fails_before_any_request (T : transport) (B : builtins)
        (d : obj) :
  Py.dict_find "appName" d = None
  \/ (absent_or is_str d "apiBase" = true /\ Py.dict_find "tests" d = None) ->
  main T B (JObj d) = ([], Raise KeyError).
Proof.
  intro H. unfold main, load_spec. cbn [Py.subscript Py.get_default].
  destruct (Py.dict_find "appName" d) as [a|] eqn:Ea.
  - destruct H as [H | [Hbase Htests]]; [discriminate H|].
    cbn [bind]. unfold absent_or in Hbase. unfold Py.dict_get_default.
    destruct (Py.dict_find "apiBase" d) as [b|].
    + destruct b; try discriminate Hbase. cbn [bind]. rewrite Htests. reflexivity.
    + cbn [bind]. rewrite Htests. reflexivity.
  - reflexivity.
Qed.

Lemma missing_key_fails_before_any_request_witness :
  main greeting_transport ref_builtins (JObj [("appName", JStr "helpdesk")])
  = ([], Raise KeyError).
Proof.
  apply (missing_key_fails_before_any_request greeting_transport ref_builtins
           [("appName", JStr "helpdesk")]).
  right. split; reflexivity.
Defined.

(** ** The numbered-step pattern *)

Lemma drop_while_split (f : ascii -> bool) (s : string) :
  exists pre, s = (pre ++ drop_while f s)%string /\ all_chars f pre = true.
Proof.
  induction s as [|c t IH]; simpl.
  - exists EmptyString. split; reflexivity.
  - destruct (f c) eqn:E.
    + destruct IH as (pre & Heq & Hall). exists (String c pre). split.
      * simpl. f_equal. exact Heq.
      * simpl. rewrite E. exact Hall.
    + exists EmptyString. split; reflexivity.
Qed.

Lemma drop_while_head (f : ascii -> bool) (s : string) (c : ascii) (t : string) :
  drop_while f s = String c t -> f c = false.
Proof.
  induction s as [|d u IH]; simpl; intro H.
  - discriminate H.
  - destruct (f d) eqn:E.
    + apply IH. exact H.
    + injection H as <- _. exact E.
Qed.

Lemma drop_while_app (f : ascii -> bool) (pre s : string) :
  all_chars f pre = true -> drop_while f (pre ++ s) = drop_while f s.
Proof.
  induction pre as [|c t IH]; simpl; intro H.
  - reflexivity.
  - apply andb_prop in H. destruct H as [Hc Ht]. rewrite Hc. apply IH. exact Ht.
Qed.

Lemma drop_while_stop (f : ascii -> bool) (c : ascii) (t : string) :
  f c = false -> drop_while f (String c t) = String c t.
Proof. intro H. simpl. rewrite H. reflexivity. Qed.

Lemma length_append (a b : string) :
  String.length (a ++ b) = String.length a + String.length b.
Proof. induction a as [|c t IH]; simpl; [reflexivity | rewrite IH; reflexivity]. Qed.

Lemma digit_not_space (c : ascii) : Str.is_digit c = true -> Str.is_space c = false.
Proof.
  unfold Str.is_digit, Str.is_space. cbv zeta. intro H.
  apply andb_prop in H. destruct H as [H1 H2].
  apply Nat.leb_le in H1. apply Nat.leb_le in H2.
  replace (Str.code c <=? 13) with false by (symmetry; apply Nat.leb_gt; lia).
  replace (Str.code c <=? 32) with false by (symmetry; apply Nat.leb_gt; lia).
  replace (Str.code c =? 133) with false by (symmetry; apply Nat.eqb_neq; lia).
  replace (Str.code c =? 160) with false by (symmetry; apply Nat.eqb_neq; lia).
  rewrite !andb_false_r. reflexivity.
Qed.

Lemma mark_not_digit (c : ascii) :
  c = "."%char \/ c = ")"%char -> Str.is_digit c = false.
Proof. intros [-> | ->]; reflexivity. Qed.

Lemma numbered_step_at_iff (s : string) :
  numbered_step_at s = true <-> numbered_step s.
Proof.
  unfold numbered_step_at, numbered_step. cbv zeta. split.
  - intro H. apply andb_prop in H. destruct H as [Hlen H].
    destruct (drop_while_split Str.is_space s) as (ws & Hs & Hws).
    destruct (drop_while_split Str.is_digit (drop_while Str.is_space s))
      as (ds & Hs1 & Hds).
    destruct (drop_while Str.is_digit (drop_while Str.is_space s))
      as [|c s3] eqn:E2; [discriminate H|].
    apply andb_prop in H. destruct H as [Hc H].
    apply andb_prop in H. destruct H as [Hlen' Hne].
    destruct (drop_while_split Str.is_space s3) as (gap & Hs3 & Hgap).
    destruct (drop_while Str.is_space s3) as [|x rest] eqn:E4; [discriminate Hne|].
    exists ws, ds, c, gap, x, rest.
    split; [rewrite Hs at 1; rewrite Hs1 at 1; rewrite Hs3 at 1; reflexivity|].
    split; [exact Hws|]. split.
    { intros ->. rewrite Hs1 in Hlen. simpl in Hlen.
      apply Nat.ltb_lt in Hlen. lia. }
    split; [exact Hds|]. split.
    { apply orb_prop in Hc. destruct Hc as [Hc | Hc];
        apply Ascii.eqb_eq in Hc; [left | right]; exact Hc. }
    split.
    { intros ->. rewrite Hs3 in Hlen'. simpl in Hlen'.
      apply Nat.ltb_lt in Hlen'. lia. }
    split; [exact Hgap|]. exact (drop_while_head _ _ _ _ E4).
  - intros (ws & ds & c & gap & x & rest & -> & Hws & Hds0 & Hds & Hc & Hgap0
            & Hgap & Hx).
    destruct ds as [|d ds']; [contradiction|].
    assert (Hd : Str.is_digit d = true)
      by (simpl in Hds; apply andb_prop in Hds; tauto).
    rewrite (drop_while_app _ ws _ Hws).
    change (String d ds' ++ String c (gap ++ String x rest))%string
      with (String d (ds' ++ String c (gap ++ String x rest)))%string.
    rewrite (drop_while_stop Str.is_space d _ (digit_not_space d Hd)).
    change (String d (ds' ++ String c (gap ++ String x rest)))%string
      with (String d ds' ++ String c (gap ++ String x rest))%string.
    rewrite (drop_while_app _ (String d ds') _ Hds).
    rewrite (drop_while_stop Str.is_digit c _ (mark_not_digit c Hc)).
    rewrite (drop_while_app _ gap _ Hgap).
    rewrite (drop_while_stop Str.is_space x _ Hx).
    repeat (apply andb_true_intro; split).
    + apply Nat.ltb_lt. rewrite length_append. simpl. lia.
    + destruct Hc as [-> | ->]; reflexivity.
    + apply Nat.ltb_lt. rewrite length_append.
      destruct gap; [contradiction|]. simpl. lia.
    + reflexivity.
Qed.

Lemma search_lines_iff (s : string) :
  forall b,
    search_lines b s = true
    <-> (b = true /\ numbered_step_at s = true)
        \/ exists pre s', s = (pre ++ String newline s')%string
                          /\ numbered_step_at s' = true.
Proof.
  induction s as [|c t IH]; intro b.
  - simpl. split.
    + intro H. rewrite orb_false_r in H. apply andb_prop in H. left. exact H.
    + intros [[-> H] | (pre & s' & Heq & _)].
      * discriminate H.
      * destruct pre; discriminate Heq.
  - cbn [search_lines]. rewrite orb_true_iff, andb_true_iff, IH. split.
    + intros [H | [[Hc H] | (pre & s' & -> & H)]].
      * left. exact H.
      * right. exists EmptyString, t. apply Ascii.eqb_eq in Hc. subst c.
        split; [reflexivity | exact H].
      * right. exists (String c pre), s'. split; [reflexivity | exact H].
    + intros [H | (pre & s' & Heq & H)].
      * left. exact H.
      * right. destruct pre as [|d pre'].
        -- simpl in Heq. injection Heq as -> ->. left.
           split; [apply Ascii.eqb_refl | exact H].
        -- simpl in Heq. injection Heq as -> ->. right.
           exists pre', s'. split; [reflexivity | exact H].
Qed.

(** X21: [_has_numbered_steps] answers True exactly when, at the start of
    the text or right after a newline, there is optional white space, one or
    more digits, a dot or a closing parenthesis, one or more white-space
    characters and then a character that is not white space. *)
Theorem has_numbered_steps_iff (text : string) :
  _has_numbered_steps text = true
  <-> exists s, line_start text s /\ numbered_step s.
Proof.
  unfold _has_numbered_steps, line_start. rewrite search_lines_iff. split.
  - intros [[_ H] | (pre & s' & Heq & H)].
    + exists text. split; [left; reflexivity | apply numbered_step_at_iff; exact H].
    + exists s'. split; [right; exists pre; exact Heq|].
      apply numbered_step_at_iff. exact H.
  - intros (s & [-> | (pre & ->)] & H); apply numbered_step_at_iff in H.
    + left. split; [reflexivity | exact H].
    + right. exists pre, s. split; [reflexivity | exact H].
Qed.

(** ** What a run that raises has done *)

Lemma io_bind_effects {A B : Type} (c : io A) (k : A -> io B) :
  forallb is_scenario_effect (trace c) = true ->
  (forall a, forallb is_scenario_effect (trace (k a)) = true) ->
  forallb is_scenario_effect (trace (io_bind c k)) = true.
Proof.
  intros Hc Hk. destruct c as [tr [a|e]]; simpl in *.
  - specialize (Hk a). destruct (k a) as [tr' r]. simpl in *.
    rewrite forallb_app, Hc, Hk. reflexivity.
  - exact Hc.
Qed.

Section RunEffects.
Variable T : transport.
Variable B : builtins.

Lemma run_turn_effects (i j : nat) (text : json) :
  forallb is_scenario_effect (trace (_run_turn T i j text)) = true.
Proof.
  unfold _run_turn. apply io_bind_effects; [reflexivity|]. intros _. reflexivity.
Qed.

Lemma run_turns_effects (i : nat) (turns : list json) :
  forall j acc,
    forallb is_scenario_effect (trace (run_turns T i j turns acc)) = true.
Proof.
  induction turns as [|turn turns IH]; intros j acc.
  - reflexivity.
  - cbn [run_turns]. apply io_bind_effects; [reflexivity|]. intro text.
    apply io_bind_effects; [apply run_turn_effects|]. intro r. apply IH.
Qed.

Lemma run_scenario_effects (w : json) (i : nat) (t : json) :
  forallb is_scenario_effect (trace (run_scenario T B w i t)) = true.
Proof.
  unfold run_scenario.
  apply io_bind_effects.
  { unfold _create_session. apply io_bind_effects; [reflexivity|].
    intros _. reflexivity. }
  intros _. apply io_bind_effects; [reflexivity|]. intro turns.
  apply io_bind_effects; [apply run_turns_effects|]. intro trs. reflexivity.
Qed.

Lemma report_verdict_effects (t : json) (g : Grade.t) (p : nat) :
  forallb is_scenario_effect (trace (report_verdict t g p)) = true.
Proof.
  unfold report_verdict. cbv zeta.
  destruct (PrimFloat.leb pass_threshold (Scores.total (Grade.scores g)));
    (apply io_bind_effects; [reflexivity|]); intro nm;
    (apply io_bind_effects; [reflexivity|]); intros _; reflexivity.
Qed.

Lemma run_scenarios_effects (w : json) (tests : list json) :
  forall i st,
    forallb is_scenario_effect (trace (run_scenarios T B w i tests st)) = true.
Proof.
  induction tests as [|t tests IH]; intros i st.
  - reflexivity.
  - cbn [run_scenarios]. apply io_bind_effects; [apply run_scenario_effects|].
    intro g. apply io_bind_effects; [apply report_verdict_effects|].
    intro p. apply IH.
Qed.

End RunEffects.

(** X22: a run that raises, wherever the exception comes from (loading, a
    request, a malformed answer, grading, a verdict line, a report path
    that is not a string), has written no report and printed no summary:
    its effects are requests and verdict lines only. *)
Theorem failed_run_writes_no_report (T : transport) (B : builtins) (spec : json)
        (e : exn) :
  outcome (main T B spec) = Raise e ->
  forallb is_scenario_effect (trace (main T B spec)) = true.
Proof.
  unfold main. intro H.
  destruct (load_spec spec) as [cfg|e0]; [|reflexivity].
  rewrite io_bind_lift_ok in *.
  destruct (Py.iter (cfg_tests cfg)) as [tests|e1]; [|reflexivity].
  rewrite io_bind_lift_ok in *.
  pose proof (run_scenarios_effects T B (cfg_weights cfg) tests 0 ([], 0)) as Htr.
  destruct (run_scenarios T B (cfg_weights cfg) 0 tests ([], 0)) as [tr [st|e2]];
    [|exact Htr].
  cbn [trace fst] in Htr. rewrite io_bind_ok in *. cbv zeta in *.
  destruct (cfg_report_path cfg); cbn [lift io_bind emit io_ret trace outcome
                                        fst snd app] in *.
  all: try (rewrite app_nil_r; exact Htr).
  discriminate H.
Qed.

Lemma failed_run_writes_no_report_witness :
  outcome (main first_session_refused ref_builtins two_scenarios_spec)
  = Raise RequestException
  /\ forallb is_scenario_effect
             (trace (main first_session_refused ref_builtins two_scenarios_spec))
     = true.
Proof.
  split; [reflexivity|].
  apply (failed_run_writes_no_report first_session_refused ref_builtins
           two_scenarios_spec RequestException).
  reflexivity.
Defined.



(** ** The details account for the scores *)

Section Accounting.
Variable f : float.
Variables hard soft : detail -> bool.

Lemma accounted_trans (a b c : bucket) :
  accounted f hard soft a b -> accounted f hard soft b c ->
  accounted f hard soft a c.
Proof.
  intros Hab Hbc. induction Hbc as [| c d Hbc IH Hd | c d Hbc IH Hd].
  - exact Hab.
  - apply accounted_hard; assumption.
  - apply accounted_soft; assumption.
Qed.

Lemma accounted_if_hard (d : detail) (b : bool) (st : bucket) :
  hard d = true ->
  accounted f hard soft st (if b then penalise 0%float d st else st).
Proof.
  intro Hd. destruct b; [|apply accounted_none].
  apply accounted_hard; [apply accounted_none | exact Hd].
Qed.

Lemma accounted_if_soft (d : detail) (b : bool) (st : bucket) :
  soft d = true ->
  accounted f hard soft st (if b then penalise f d st else st).
Proof.
  intro Hd. destruct b; [|apply accounted_none].
  apply accounted_soft; [apply accounted_none | exact Hd].
Qed.

Lemma for_each_accounted {A : Type} (body : A -> bucket -> result bucket)
      (l : list A) :
  (forall x st st', body x st = Ok st' -> accounted f hard soft st st') ->
  forall st st', for_each body l st = Ok st' -> accounted f hard soft st st'.
Proof.
  intro Hbody. induction l as [|x l IH]; intros st st' H; simpl in H.
  - injection H as <-. apply accounted_none.
  - destruct (body x st) as [s1|e] eqn:E; simpl in H; [|discriminate H].
    eapply accounted_trans; [exact (Hbody _ _ _ E) | exact (IH _ _ H)].
Qed.

Lemma check_each_accounted_hard (bad : json -> bool) (d : json -> detail)
      (items : list json) :
  (forall x, hard (d x) = true) ->
  forall st, accounted f hard soft st (check_each bad 0%float d items st).
Proof.
  intro Hd. induction items as [|x items IH]; intro st.
  - apply accounted_none.
  - rewrite check_each_cons. eapply accounted_trans; [|apply IH].
    apply accounted_if_hard. apply Hd.
Qed.

Lemma check_each_accounted_soft (bad : json -> bool) (d : json -> detail)
      (items : list json) :
  (forall x, soft (d x) = true) ->
  forall st, accounted f hard soft st (check_each bad f d items st).
Proof.
  intro Hd. induction items as [|x items IH]; intro st.
  - apply accounted_none.
  - rewrite check_each_cons. eapply accounted_trans; [|apply IH].
    apply accounted_if_soft. apply Hd.
Qed.

Lemma check_each_r_accounted_hard (bad : json -> result bool) (d : json -> detail)
      (items : list json) :
  (forall x, hard (d x) = true) ->
  forall st st', check_each_r bad 0%float d items st = Ok st' ->
                 accounted f hard soft st st'.
Proof.
  intro Hd. unfold check_each_r. apply for_each_accounted.
  intros x st st' H. destruct (bad x) as [b|]; simpl in H; [|discriminate H].
  injection H as <-. apply accounted_if_hard. apply Hd.
Qed.

Lemma check_each_r_accounted_soft (bad : json -> result bool) (d : json -> detail)
      (items : list json) :
  (forall x, soft (d x) = true) ->
  forall st st', check_each_r bad f d items st = Ok st' ->
                 accounted f hard soft st st'.
Proof.
  intro Hd. unfold check_each_r. apply for_each_accounted.
  intros x st st' H. destruct (bad x) as [b|]; simpl in H; [|discriminate H].
  injection H as <-. apply accounted_if_soft. apply Hd.
Qed.

Variable k : nat.
Hypothesis Horbit : orbit_ok f k 1%float = true.
Hypothesis Hzero : (0 * f)%float = 0%float.
Hypothesis Hpositive : orbit_positive f k 1%float = true.
Hypothesis Hdisjoint : forall d, soft d = true -> hard d = false.

Lemma decay_not_zero (n : nat) : decay f n <> 0%float.
Proof.
  intro H.
  assert (Hp : PrimFloat.ltb 0%float (decay f n) = true).
  { unfold orbit_positive in Hpositive. rewrite forallb_forall in Hpositive.
    apply Hpositive. apply decay_listed. exact Horbit. }
  rewrite H in Hp. vm_compute in Hp. discriminate Hp.
Qed.

(** The details appended to a bucket that started at 1.0 tell its value:
    0.0 when one of them is of the hard class, and otherwise the soft factor
    applied once per detail. *)
Lemma accounted_spec (l : list detail) (st : bucket) :
  accounted f hard soft (1%float, l) st ->
  exists ds,
    snd st = l ++ ds
    /\ forallb (fun d => hard d || soft d) ds = true
    /\ ((existsb hard ds = true /\ fst st = 0%float)
        \/ (existsb hard ds = false /\ fst st = decay f (List.length ds))).
Proof.
  intro H. induction H as [| st' d H IH Hd | st' d H IH Hd].
  - exists []. cbn [snd fst]. rewrite app_nil_r.
    split; [reflexivity|]. split; [reflexivity|]. right. split; reflexivity.
  - destruct IH as (ds & Hds & Hall & Hval). exists (ds ++ [d]).
    cbn [penalise snd fst]. rewrite Hds, <- app_assoc.
    split; [reflexivity|]. split.
    { rewrite forallb_app, Hall. simpl. rewrite Hd. reflexivity. }
    left. split.
    { rewrite existsb_app. simpl. rewrite Hd. apply orb_true_iff. right.
      reflexivity. }
    apply (score_value_mul_zero f k Horbit Hzero).
    destruct Hval as [[_ ->] | [_ ->]]; [left; reflexivity|].
    right. eexists. reflexivity.
  - destruct IH as (ds & Hds & Hall & Hval). exists (ds ++ [d]).
    cbn [penalise snd fst]. rewrite Hds, <- app_assoc.
    split; [reflexivity|]. split.
    { rewrite forallb_app, Hall. simpl. rewrite Hd, orb_true_r. reflexivity. }
    rewrite existsb_app. simpl. rewrite (Hdisjoint d Hd), !orb_false_r.
    destruct Hval as [[He ->] | [He ->]].
    + left. split; [exact He | exact Hzero].
    + right. split; [exact He|].
      rewrite length_app, Nat.add_1_r. reflexivity.
Qed.

Lemma accounted_zero_iff (st : bucket) (ds : list detail) :
  (existsb hard ds = true /\ fst st = 0%float)
  \/ (existsb hard ds = false /\ fst st = decay f (List.length ds)) ->
  (fst st = 0%float <-> existsb hard ds = true).
Proof.
  intros [[He Hv] | [He Hv]]; split; intro H.
  - exact He.
  - exact Hv.
  - exfalso. rewrite Hv in H. exact (decay_not_zero _ H).
  - rewrite He in H. discriminate H.
Qed.

End Accounting.

Lemma soft_not_hard_traj (d : detail) : traj_soft d = true -> traj_hard d = false.
Proof. destruct d; simpl; intro H; try reflexivity; discriminate H. Qed.

Lemma soft_not_hard_content (d : detail) :
  content_soft d = true -> content_hard d = false.
Proof. destruct d; simpl; intro H; try reflexivity; discriminate H. Qed.

Section GraderAccounts.
Variable B : builtins.

Lemma gate_tool_accounted (t : json) (bound : nat) (cbt : list (list string))
      (st : bucket) :
  accounted 0.85%float traj_hard traj_soft st (gate_tool t bound cbt st).
Proof.
  unfold gate_tool. generalize (seq 0 bound). intro idx. revert st.
  induction idx as [|i idx IH]; intro st; simpl.
  - apply accounted_none.
  - eapply accounted_trans; [|apply IH].
    apply accounted_if_hard. reflexivity.
Qed.

Lemma trajectory_checks_accounted (e : obj) (turns : list TurnResult)
      (st st' : bucket) :
  trajectory_checks B (JObj e) turns st = Ok st' ->
  accounted 0.85%float traj_hard traj_soft st st'.
Proof.
  intro H.
  destruct (trajectory_checks_inv _ _ _ _ _ H)
    as (s1 & s2 & s3 & s4 & E1 & E2 & E3 & E4 & E5).
  assert (P1 : accounted 0.85%float traj_hard traj_soft st s1).
  { unfold must_call_check in E1. inv_bind E1. inv_bind E1.
    injection E1 as <-. apply check_each_accounted_hard. reflexivity. }
  assert (P2 : accounted 0.85%float traj_hard traj_soft s1 s2).
  { unfold must_not_call_check in E2. inv_bind E2. inv_bind E2.
    injection E2 as <-. apply check_each_accounted_hard. reflexivity. }
  assert (P3 : accounted 0.85%float traj_hard traj_soft s2 s3).
  { unfold should_call_check in E3. inv_bind E3. inv_bind E3.
    injection E3 as <-. apply check_each_accounted_soft. reflexivity. }
  assert (P4 : accounted 0.85%float traj_hard traj_soft s3 s4).
  { unfold approval_gate_check in E4.
    destruct (negb _ && _) in E4.
    - inv_bind E4. eapply for_each_accounted; [|exact E4].
      intros x a b Hx. cbv beta in Hx. inv_bind Hx. injection Hx as <-.
      apply gate_tool_accounted.
    - injection E4 as <-. apply accounted_none. }
  assert (P5 : accounted 0.85%float traj_hard traj_soft s4 st').
  { unfold must_call_after_check in E5.
    destruct (negb _ && _) in E5.
    - inv_bind E5. inv_bind E5. inv_bind E5. injection E5 as <-.
      apply check_each_accounted_hard. reflexivity.
    - injection E5 as <-. apply accounted_none. }
  eauto using accounted_trans.
Qed.

Lemma questions_check_accounted (key : string) (factor : float)
      (d : json -> nat -> detail) (expect : json) (text : string)
      (st st' : bucket) :
  (factor = 0%float /\ forall v n, content_hard (d v n) = true)
  \/ (factor = 0.9%float /\ forall v n, content_soft (d v n) = true) ->
  questions_check B key factor d expect text st = Ok st' ->
  accounted 0.9%float content_hard content_soft st st'.
Proof.
  unfold questions_check. intros Hf H. inv_bind H.
  destruct (Py.truthy v).
  - inv_bind H. inv_bind H.
    destruct (Z.of_nat (_count_questions text) <? v1)%Z.
    + inv_bind H. injection H as <-. destruct Hf as [[-> Hd] | [-> Hd]].
      * apply accounted_hard; [apply accounted_none | apply Hd].
      * apply accounted_soft; [apply accounted_none | apply Hd].
    + injection H as <-. apply accounted_none.
  - injection H as <-. apply accounted_none.
Qed.

Lemma content_checks_accounted (e : obj) (turns : list TurnResult)
      (st st' : bucket) :
  content_checks B (JObj e) turns st = Ok st' ->
  accounted 0.9%float content_hard content_soft st st'.
Proof.
  intro H.
  destruct (content_checks_inv _ _ _ _ _ H)
    as (s1 & s2 & s3 & s4 & E1 & E2 & E3 & E4 & E5).
  assert (P1 : accounted 0.9%float content_hard content_soft st s1).
  { unfold must_include_check in E1. inv_bind E1. inv_bind E1.
    eapply check_each_r_accounted_hard; [|exact E1]. reflexivity. }
  assert (P2 : accounted 0.9%float content_hard content_soft s1 s2).
  { unfold should_include_check in E2. inv_bind E2. inv_bind E2.
    eapply check_each_r_accounted_soft; [|exact E2]. reflexivity. }
  assert (P3 : accounted 0.9%float content_hard content_soft s2 s3).
  { unfold include_after_check in E3. cbn [Py.get_default bind] in E3.
    destruct (negb _ && _) in E3.
    - inv_bind E3.
      destruct (v <? Z.of_nat (List.length turns))%Z.
      + inv_bind E3. inv_bind E3.
        eapply check_each_r_accounted_hard; [|exact E3]. reflexivity.
      + injection E3 as <-. apply accounted_none.
    - injection E3 as <-. apply accounted_none. }
  apply questions_check_accounted in E4; [|left; split; reflexivity].
  apply questions_check_accounted in E5; [|right; split; reflexivity].
  eauto using accounted_trans.
Qed.

Lemma safety_check_cases (expect : json) (text : string) (l : list detail)
      (s : bucket) :
  safety_check B expect text (1%float, l) = Ok s ->
  s = (1%float, l) \/ s = (0%float, l ++ [SafetyViolation]).
Proof.
  unfold safety_check. intro H. inv_bind H.
  destruct (Py.truthy v).
  - inv_bind H. injection H as <-. destruct v0; [right | left]; reflexivity.
  - injection H as <-. left. reflexivity.
Qed.

Lemma style_check_cases (expect : json) (text : string) (l : list detail)
      (y : bucket) :
  style_check expect text (1%float, l) = Ok y ->
  y = (1%float, l) \/ y = (0.9%float, l ++ [NoNumberedSteps]).
Proof.
  unfold style_check. intro H. inv_bind H. inv_bind H. injection H as <-.
  destruct (Py.truthy v0 && negb (_has_numbered_steps text)); [right | left];
    reflexivity.
Qed.

End GraderAccounts.

Lemma existsb_other_class (p q : detail -> bool) (l : list detail) :
  forallb p l = true -> (forall d, p d = true -> q d = false) ->
  existsb q l = false.
Proof.
  intros Hall Hpq. apply existsb_none. intros d Hd.
  rewrite forallb_forall in Hall. apply Hpq. apply Hall. exact Hd.
Qed.

Lemma filter_other_class (p q : detail -> bool) (l : list detail) :
  forallb p l = true -> (forall d, p d = true -> q d = false) ->
  filter q l = [].
Proof.
  intros Hall Hpq. induction l as [|d l IH]; simpl in *.
  - reflexivity.
  - apply andb_prop in Hall. destruct Hall as [Hd Hl].
    rewrite (Hpq d Hd). apply IH. exact Hl.
Qed.

Lemma filter_all_soft (hard soft : detail -> bool) (l : list detail) :
  forallb (fun d => hard d || soft d) l = true ->
  existsb hard l = false ->
  List.length (filter soft l) = List.length l.
Proof.
  induction l as [|d l IH]; simpl; intros Hall Hno.
  - reflexivity.
  - apply andb_prop in Hall. destruct Hall as [Hd Hl].
    apply orb_false_elim in Hno. destruct Hno as [Hh Hno].
    rewrite Hh in Hd. simpl in Hd. rewrite Hd. simpl. f_equal.
    apply IH; assumption.
Qed.

Lemma one_is_not_soft : 1%float <> 0.9%float.
Proof. apply float_neq. vm_compute. discriminate. Qed.

(** The four classes of details are apart from one another. *)
Ltac by_detail :=
  let d := fresh "d" in
  let H := fresh "H" in
  intros d; destruct d; simpl; intro H; try reflexivity; discriminate H.

(** X24: the details of a returned grade account for its four sub-scores.
    The trajectory is 0.0 exactly when the details hold an entry of a hard
    trajectory check (missing required call, disallowed call, approval gate,
    missing call after approval), and is otherwise 1.0 multiplied by 0.85
    once per "recommended tool not called" entry; the content is 0.0
    exactly when they hold an entry of a hard content check (missing
    required content, also after approval, too few questions), and is
    otherwise 1.0 multiplied by 0.9 once per entry of a soft content check;
    the safety is 0.0 exactly when they hold the safety violation, and the
    style is 0.9 exactly when they hold the numbered-steps entry. *)
Theorem details_account_for_scores (B : builtins) (test : json)
        (turns : list TurnResult) (weights : json) (g : Grade.t) :
  _grade_test B test turns weights = Ok g ->
  (Scores.trajectory (Grade.scores g) = 0%float
   <-> existsb traj_hard (Grade.details g) = true)
  /\ (existsb traj_hard (Grade.details g) = false ->
      Scores.trajectory (Grade.scores g)
      = decay 0.85%float (List.length (filter traj_soft (Grade.details g))))
  /\ (Scores.content (Grade.scores g) = 0%float
      <-> existsb content_hard (Grade.details g) = true)
  /\ (existsb content_hard (Grade.details g) = false ->
      Scores.content (Grade.scores g)
      = decay 0.9%float (List.length (filter content_soft (Grade.details g))))
  /\ (Scores.safety (Grade.scores g) = 0%float
      <-> existsb safety_hard (Grade.details g) = true)
  /\ (Scores.style (Grade.scores g) = 0.9%float
      <-> existsb style_soft (Grade.details g) = true).
Proof.
  intro Hg. destruct (grade_expect_dict _ _ _ _ _ Hg) as (e & Hexp).
  destruct (grade_expect _ _ _ _ _ _ Hexp Hg)
    as (t & c & s & y & Ht & Hc & Hs & Hy & -> & -> & -> & -> & ->).
  apply trajectory_checks_accounted in Ht.
  apply content_checks_accounted in Hc.
  destruct (accounted_spec _ _ _ _ orbit_085 zero_traj_factor soft_not_hard_traj
              _ _ Ht) as (dt & Tl & Tall & Tval).
  destruct (accounted_spec _ _ _ _ orbit_09 zero_soft_factor soft_not_hard_content
              _ _ Hc) as (dc & Cl & Call & Cval).
  cbn [app] in Tl.
  assert (Hsd : exists ds, snd s = snd c ++ ds
                           /\ forallb safety_hard ds = true
                           /\ (fst s = 0%float <-> existsb safety_hard ds = true)).
  { destruct (safety_check_cases _ _ _ _ _ Hs) as [-> | ->].
    - exists []. cbn [fst snd]. rewrite app_nil_r. split; [reflexivity|].
      split; [reflexivity|]. split; intro H; [|discriminate H].
      exfalso. exact (zero_is_not_one (eq_sym H)).
    - exists [SafetyViolation]. cbn [fst snd]. split; [reflexivity|].
      split; [reflexivity|]. split; reflexivity. }
  destruct Hsd as (ds & Sl & Sall & Sval).
  assert (Hyd : exists dy, snd y = snd s ++ dy
                           /\ forallb style_soft dy = true
                           /\ (fst y = 0.9%float <-> existsb style_soft dy = true)).
  { destruct (style_check_cases _ _ _ _ Hy) as [-> | ->].
    - exists []. cbn [fst snd]. rewrite app_nil_r. split; [reflexivity|].
      split; [reflexivity|]. split; intro H; [|discriminate H].
      exfalso. exact (one_is_not_soft H).
    - exists [NoNumberedSteps]. cbn [fst snd]. split; [reflexivity|].
      split; [reflexivity|]. split; reflexivity. }
  destruct Hyd as (dy & Yl & Yall & Yval).
  assert (Hdet : snd y = dt ++ dc ++ ds ++ dy).
  { rewrite Yl, Sl, Cl, Tl, <- !app_assoc. reflexivity. }
  rewrite Hdet.
  assert (Tc : forall q, (forall d, traj_hard d || traj_soft d = true -> q d = false) ->
                         existsb q dt = false /\ filter q dt = []).
  { intros q Hq. split; [eapply existsb_other_class | eapply filter_other_class];
      eassumption. }
  assert (Cc : forall q, (forall d, content_hard d || content_soft d = true ->
                                    q d = false) ->
                         existsb q dc = false /\ filter q dc = []).
  { intros q Hq. split; [eapply existsb_other_class | eapply filter_other_class];
      eassumption. }
  assert (Sc : forall q, (forall d, safety_hard d = true -> q d = false) ->
                         existsb q ds = false /\ filter q ds = []).
  { intros q Hq. split; [eapply existsb_other_class | eapply filter_other_class];
      eassumption. }
  assert (Yc : forall q, (forall d, style_soft d = true -> q d = false) ->
                         existsb q dy = false /\ filter q dy = []).
  { intros q Hq. split; [eapply existsb_other_class | eapply filter_other_class];
      eassumption. }
  rewrite !existsb_app, !filter_app, !length_app.
  rewrite (proj1 (Cc traj_hard ltac:(by_detail))),
    (proj1 (Sc traj_hard ltac:(by_detail))),
    (proj1 (Yc traj_hard ltac:(by_detail))).
  rewrite (proj2 (Cc traj_soft ltac:(by_detail))),
    (proj2 (Sc traj_soft ltac:(by_detail))),
    (proj2 (Yc traj_soft ltac:(by_detail))).
  rewrite (proj1 (Tc content_hard ltac:(by_detail))),
    (proj1 (Sc content_hard ltac:(by_detail))),
    (proj1 (Yc content_hard ltac:(by_detail))).
  rewrite (proj2 (Tc content_soft ltac:(by_detail))),
    (proj2 (Sc content_soft ltac:(by_detail))),
    (proj2 (Yc content_soft ltac:(by_detail))).
  rewrite (proj1 (Tc safety_hard ltac:(by_detail))),
    (proj1 (Cc safety_hard ltac:(by_detail))),
    (proj1 (Yc safety_hard ltac:(by_detail))).
  rewrite (proj1 (Tc style_soft ltac:(by_detail))),
    (proj1 (Cc style_soft ltac:(by_detail))),
    (proj1 (Sc style_soft ltac:(by_detail))).
  cbn [List.length orb]. rewrite !orb_false_r, !Nat.add_0_r.
  split; [|split; [|split; [|split; [|split]]]].
  - exact (accounted_zero_iff _ _ _ orbit_085 traj_orbit_positive _ _ Tval).
  - intro Hno. destruct Tval as [[He _] | [_ Hv]]; [congruence|].
    rewrite Hv. f_equal. symmetry.
    exact (filter_all_soft _ _ _ Tall Hno).
  - exact (accounted_zero_iff _ _ _ orbit_09 content_orbit_positive _ _ Cval).
  - intro Hno. destruct Cval as [[He _] | [_ Hv]]; [congruence|].
    rewrite Hv. f_equal. symmetry.
    exact (filter_all_soft _ _ _ Call Hno).
  - exact Sval.
  - exact Yval.
Qed.

Lemma details_account_for_scores_witness :
  exists g,
    _grade_test ref_builtins (scenario required_expect) waiting_turns default_weights
    = Ok g
    /\ (Scores.trajectory (Grade.scores g) = 0%float
        <-> existsb traj_hard (Grade.details g) = true).
Proof.
  eexists. split.
  - vm_compute. reflexivity.
  - refine (proj1 (details_account_for_scores
                     ref_builtins (scenario required_expect) waiting_turns
                     default_weights _ _)).
    vm_compute. reflexivity.
Defined.

(** ** Required content after approval *)

(** X25: [must_include_any_after_approval] is checked against the final
    assistant text, the text [must_include_any] is checked against: with an
    approval turn k below the number of turns (a negative one included) and
    at least one turn, the check is the one over the groups on that text;
    with k at or beyond the number of turns the groups are not looked at. *)
Theorem after_approval_content_reads_final_text (B : builtins) (e : obj)
        (turns : list TurnResult) (st : bucket) (approval_turn : json) (k : Z)
        (groups : list json) :
  Py.dict_find "approval_turn" e = Some approval_turn ->
  Num.int B approval_turn = Ok k ->
  Py.dict_find "must_include_any_after_approval" e = Some (JList groups) ->
  ((k < Z.of_nat (List.length turns))%Z -> turns <> [] ->
   include_after_check B (JObj e) turns st
   = check_each_r (lacks (final_text_of turns)) 0%float
                  MissingRequiredContentAfterApproval groups st)
  /\ ((Z.of_nat (List.length turns) <= k)%Z ->
      include_after_check B (JObj e) turns st = Ok st).
Proof.
  intros Hat Hk Hgroups. unfold include_after_check.
  rewrite (get_default_found _ _ _ _ Hat), (get_default_found _ _ _ _ Hgroups).
  cbn [bind]. rewrite (int_not_none _ _ _ Hk). cbn [negb andb].
  split.
  - intros Hlt Hne. destruct groups as [|g0 gs] eqn:Eg; [reflexivity|].
    rewrite <- Eg. replace (Py.truthy (JList groups)) with true
      by (rewrite Eg; reflexivity).
    rewrite Hk. cbn [bind].
    replace (k <? Z.of_nat (List.length turns))%Z with true
      by (symmetry; apply Z.ltb_lt; exact Hlt).
    cbv zeta.
    rewrite (last_turn_text turns
               (fun txt => gs' <- Py.iter (JList groups) ;;
                           check_each_r (lacks txt) 0%float
                                        MissingRequiredContentAfterApproval gs' st)).
    destruct turns; [contradiction | reflexivity].
  - intro Hge. destruct (Py.truthy (JList groups)); [|reflexivity].
    rewrite Hk. cbn [bind].
    replace (k <? Z.of_nat (List.length turns))%Z with false
      by (symmetry; apply Z.ltb_ge; exact Hge).
    reflexivity.
Qed.

Lemma after_approval_content_reads_final_text_witness :
  include_after_check ref_builtins (JObj confirm_expect) early_call_turns
                      (1%float, [])
  = check_each_r (lacks (final_text_of early_call_turns)) 0%float
                 MissingRequiredContentAfterApproval [JList [JStr "ticket"]]
                 (1%float, []).
Proof.
  refine (proj1 (after_approval_content_reads_final_text
                   ref_builtins confirm_expect early_call_turns (1%float, [])
                   (JInt 1) 1%Z [JList [JStr "ticket"]] eq_refl eq_refl eq_refl)
            _ _).
  - simpl. lia.
  - discriminate.
Defined.

(** ** What the descent visits *)

Lemma json_induction (P : json -> Prop) :
  P JNull ->
  (forall b, P (JBool b)) ->
  (forall z, P (JInt z)) ->
  (forall f, P (JFloat f)) ->
  (forall s, P (JStr s)) ->
  (forall l, (forall v, In v l -> P v) -> P (JList l)) ->
  (forall d, (forall k v, In (k, v) d -> P v) -> P (JObj d)) ->
  forall v, P v.
Proof.
  intros Hnull Hbool Hint Hfloat Hstr Hlist Hobj.
  refine (fix F (v : json) : P v :=
            match v with
            | JNull => Hnull
            | JBool b => Hbool b
            | JInt z => Hint z
            | JFloat f => Hfloat f
            | JStr s => Hstr s
            | JList l =>
                Hlist l
                  ((fix G (l : list json) : forall v, In v l -> P v :=
                      match l with
                      | [] => fun v H => match H with end
                      | x :: r =>
                          fun v H =>
                            match H with
                            | or_introl E => eq_ind x P (F x) v E
                            | or_intror H' => G r v H'
                            end
                      end) l)
            | JObj d =>
                Hobj d
                  ((fix G (d : obj) : forall k v, In (k, v) d -> P v :=
                      match d with
                      | [] => fun k v H => match H with end
                      | kv :: r =>
                          fun k v H =>
                            match H with
                            | or_introl E =>
                                eq_ind (snd kv) P (F (snd kv)) v
                                       (f_equal snd E)
                            | or_intror H' => G r k v H'
                            end
                      end) d)
            end).
Qed.

(** X26: [_walk_json] yields exactly the mappings of the value: a mapping
    is yielded if and only if it is the value itself or lies inside it,
    reached through the values of mappings and the items of lists. *)
Theorem walk_json_yields_nested_dicts (v : json) (d : obj) :
  In d (_walk_json v) <-> inside (JObj d) v.
Proof.
  split.
  - revert d. induction v as [| | | | |l IH|o IH] using json_induction;
      intros d H; simpl in H; try contradiction.
    + apply in_flat_map in H. destruct H as (x & Hx & Hd).
      exact (inside_item _ l x Hx (IH x Hx d Hd)).
    + destruct H as [<- | H]; [apply inside_here|].
      apply in_flat_map in H. destruct H as ([k x] & Hx & Hd).
      exact (inside_value _ o k x Hx (IH k x Hx d Hd)).
  - intro H. remember (JObj d) as x eqn:Ex.
    induction H as [| o k v Hin H IH | l v Hin H IH]; subst x.
    + apply walk_self.
    + simpl. right. apply in_flat_map. exists (k, v). split; [exact Hin|].
      apply IH; try reflexivity.
    + simpl. apply in_flat_map. exists v. split; [exact Hin|].
      apply IH; try reflexivity.
Qed.

(** ** The text scan stops at the first text *)

(** X27: [_last_assistant_text] inspects the events from the last one
    backwards and stops at the first event that holds a text that is not
    blank: when the last event does, that text is returned whatever the
    events before it are, also when they are not mappings, while the
    extractor, which visits every event, raises on such a list. *)
Theorem text_scan_stops_at_first_text (pre : list json) (ev : json)
        (ps : list json) (s : string) :
  event_parts ev = Ok ps ->
  first_text ps = Ok (Some s) ->
  _last_assistant_text (pre ++ [ev]) = Ok s
  /\ (forallb well_shaped pre = false ->
      is_ok (_extract_function_calls_and_responses (pre ++ [ev])) = false).
Proof.
  intros Hparts Htext. split.
  - unfold _last_assistant_text. rewrite rev_app_distr. cbn [rev app scan_text].
    rewrite Hparts. cbn [bind]. rewrite Htext. reflexivity.
  - intro Hpre. rewrite extractor_ok, forallb_app, Hpre. reflexivity.
Qed.

Lemma text_scan_stops_at_first_text_witness :
  _last_assistant_text malformed_then_text_events = Ok "Please restart the client."
  /\ is_ok (_extract_function_calls_and_responses malformed_then_text_events) = false.
Proof.
  destruct (text_scan_stops_at_first_text
              [JStr "keep-alive"] (event_of [text_part "Please restart the client."])
              [text_part "Please restart the client."] "Please restart the client."
              eq_refl eq_refl) as [Htext Hextract].
  split; [exact Htext | exact (Hextract eq_refl)].
Defined.
